(** * LunaTV: progressive virtualized grids and the spider.jar provider

    A shallow embedding of

    - [VirtualDoubanGrid] (src/unnamed/part_000, lines 1-258),
    - [VirtualSearchGrid] (src/src/components/VirtualSearchGrid.tsx),
    - the earlier [VirtualSearchGrid] (src/unnamed/part_000, lines 521-823),
    - [getSpiderJar] (src/unnamed/part_001),

    followed by the properties of the progressive reveal controller, the
    window geometry, the cell resolver, the scroll-proximity trigger, the
    group statistics cache and the jar provider.

    Conventions of the embedding.

    - Counts, indices and lengths are JavaScript numbers that only ever hold
      non-negative integers far below 2^53; they are [nat].  The one
      subtraction that can go below zero ([rowCount - LOAD_MORE_THRESHOLD])
      is computed in [Z].
    - A React component is a record holding its props, its [useState] cells,
      its refs and the host's pending timers.  Event handlers are state
      transformers.  A handler created during a render closes over the
      [const] bindings of that render: the record [Render] is that closure
      environment, and a pending timer stores the environment its callback
      captured.  [setState(prev => ...)] reads the latest state.
    - Calls to callbacks owned by other code ([onLoadMore],
      [computeGroupStats]) are counted in a log field of the state. *)

From Stdlib Require Import ZArith QArith Qround Qminmax Lia Strings.Byte Strings.Ascii.
From stdpp Require Import base list strings gmap.

Local Open Scope nat_scope.

(** ** JavaScript primitives used by the components *)

Module JS.

(** [Array.prototype.slice(start, end)] for integers [0 <= start] and
    [0 <= end]; an [end] beyond the length is clamped. *)
Definition slice {A : Type} (l : list A) (start stop : nat) : list A :=
  take (stop - start) (drop start l).

(** [Math.ceil(a / b)] for non-negative integers [a] and [b >= 1].  For the
    array lengths a browser allows (below 2^32) the floating-point quotient
    never rounds to an integer below the exact one, so the result is the
    integer ceiling.  [b = 0] (an [Infinity] or [NaN] in JavaScript) is
    outside the model: the layout provider yields [columnCount >= 1]. *)
Definition ceil_div (a b : nat) : nat := (a + (b - 1)) / b.

(** [String.prototype.trim].  A string is held as its UTF-8 bytes, the form
    every well-formed string has.  [trim] removes from both ends the code
    points of WhiteSpace (TAB, VT, FF, ZWNBSP and the category Zs) and of
    LineTerminator (LF, CR, LS, PS), listed here by their UTF-8 bytes. *)
Definition utf8 (bytes : list nat) : list ascii := ascii_of_nat <$> bytes.

Definition WhiteSpace : list (list ascii) :=
  utf8 <$> [ [9]; [11]; [12];          (* U+0009 TAB, U+000B VT, U+000C FF *)
             [239; 187; 191];          (* U+FEFF ZWNBSP *)
             [32]; [194; 160];         (* U+0020 SP, U+00A0 NBSP *)
             [225; 154; 128];          (* U+1680 *)
             [226; 128; 128]; [226; 128; 129]; [226; 128; 130];
             [226; 128; 131]; [226; 128; 132]; [226; 128; 133];
             [226; 128; 134]; [226; 128; 135]; [226; 128; 136];
             [226; 128; 137]; [226; 128; 138];  (* U+2000 .. U+200A *)
             [226; 128; 175];          (* U+202F *)
             [226; 129; 159];          (* U+205F *)
             [227; 128; 128] ].        (* U+3000 *)

Definition LineTerminator : list (list ascii) :=
  utf8 <$> [ [10]; [13];               (* U+000A LF, U+000D CR *)
             [226; 128; 168];          (* U+2028 LS *)
             [226; 128; 169] ].        (* U+2029 PS *)

(** The text [l] without the code point of [ws] it starts with, if it
    starts with one. *)
Definition strip_one (ws : list (list ascii)) (l : list ascii)
    : option (list ascii) :=
  (fun w => drop (length w) l)
  <$> List.find (fun w => bool_decide (take (length w) l = w)) ws.

(** At most [fuel] leading code points of [ws] removed; [length l] is
    always enough ([strip_exhausts] below). *)
Fixpoint strip (fuel : nat) (ws : list (list ascii)) (l : list ascii)
    : list ascii :=
  match fuel with
  | 0 => l
  | S fuel' =>
      match strip_one ws l with
      | Some l' => strip fuel' ws l'
      | None => l
      end
  end.

Definition trim_start (l : list ascii) : list ascii :=
  strip (length l) (WhiteSpace ++ LineTerminator) l.

Definition trim_end (l : list ascii) : list ascii :=
  reverse (strip (length l) (reverse <$> WhiteSpace ++ LineTerminator)
             (reverse l)).

Definition trim (s : string) : string :=
  String.string_of_list_ascii
    (trim_end (trim_start (String.list_ascii_of_string s))).

(** [a || b] on strings: the empty string is falsy. *)
Definition or_else (a b : string) : string :=
  if decide (a = EmptyString) then b else a.

End JS.

(** The [style] object react-window hands to a cell: the geometric slot. *)
Record Style := { st_left : nat; st_top : nat; st_width : nat; st_height : nat }.

(** ** VirtualDoubanGrid (src/unnamed/part_000, lines 1-258) *)

Module DoubanGrid.

Record DoubanItem := {
  di_id : string;
  di_title : string;
  di_poster : string;
  di_year : string;
  di_rate : string;
}.

Inductive ContentType := Movie | Tv | Show | Anime.
Inductive CardType := CardMovie | CardTv.

Definition INITIAL_BATCH_SIZE : nat := 16.
Definition LOAD_MORE_BATCH_SIZE : nat := 16.
Definition LOAD_MORE_THRESHOLD : Z := 5.

(** The [useMemo] of lines 55-65. *)
Record Exposure := {
  displayItemCount : nat;
  displayData : list DoubanItem;
  hasNextPage : bool;
}.

Definition exposure (visibleItemCount : nat) (doubanData : list DoubanItem)
    (hasMore : bool) : Exposure :=
  let itemCount := Nat.min visibleItemCount (length doubanData) in
  let data := JS.slice doubanData 0 itemCount in
  let hasNext := (itemCount <? length doubanData) || hasMore in
  {| displayItemCount := itemCount; displayData := data; hasNextPage := hasNext |}.

(** The [useMemo] of lines 87-89. *)
Definition rowCount (displayItemCount columnCount : nat) : nat :=
  Nat.max 1 (JS.ceil_div displayItemCount columnCount).

(** What one render binds and its callbacks close over. *)
Record Render := {
  r_isLoadingMore : bool;
  r_hasMore : bool;
  r_dataLength : nat;
  r_displayItemCount : nat;
  r_hasNextPage : bool;
  r_rowCount : nat;
}.

(** A pending [setTimeout] callback: the time at which it is due and the
    render its closure captured. *)
Record Timer := { due : nat; closure : Render }.

(** The component instance: props, state, refs, the host's pending timers
    and the call log. *)
Record Component := {
  doubanData : list DoubanItem;
  isLoadingMore : bool;
  hasMore : bool;
  columnCount : nat;
  visibleItemCount : nat;
  debounceRef : option nat;
  timers : list (nat * Timer);
  nextTimer : nat;
  loadMoreItemsCalls : nat;
  onLoadMoreCalls : nat;
}.

Definition mount (data : list DoubanItem) (loadingMore more : bool)
    (columns : nat) : Component :=
  {| doubanData := data; isLoadingMore := loadingMore; hasMore := more;
     columnCount := columns; visibleItemCount := INITIAL_BATCH_SIZE;
     debounceRef := None; timers := []; nextTimer := 1;
     loadMoreItemsCalls := 0; onLoadMoreCalls := 0 |}.

Definition render (c : Component) : Render :=
  let e := exposure (visibleItemCount c) (doubanData c) (hasMore c) in
  {| r_isLoadingMore := isLoadingMore c;
     r_hasMore := hasMore c;
     r_dataLength := length (doubanData c);
     r_displayItemCount := displayItemCount e;
     r_hasNextPage := hasNextPage e;
     r_rowCount := rowCount (displayItemCount e) (columnCount c) |}.

Definition setVisibleItemCount (f : nat -> nat) (c : Component) : Component :=
  {| doubanData := doubanData c; isLoadingMore := isLoadingMore c;
     hasMore := hasMore c; columnCount := columnCount c;
     visibleItemCount := f (visibleItemCount c);
     debounceRef := debounceRef c; timers := timers c;
     nextTimer := nextTimer c;
     loadMoreItemsCalls := loadMoreItemsCalls c;
     onLoadMoreCalls := onLoadMoreCalls c |}.

(** A call of the [onLoadMore] prop: the parent's code, of which only the
    call itself is recorded. *)
Definition onLoadMore (c : Component) : Component :=
  {| doubanData := doubanData c; isLoadingMore := isLoadingMore c;
     hasMore := hasMore c; columnCount := columnCount c;
     visibleItemCount := visibleItemCount c;
     debounceRef := debounceRef c; timers := timers c;
     nextTimer := nextTimer c;
     loadMoreItemsCalls := loadMoreItemsCalls c;
     onLoadMoreCalls := S (onLoadMoreCalls c) |}.

Definition logLoadMoreItems (c : Component) : Component :=
  {| doubanData := doubanData c; isLoadingMore := isLoadingMore c;
     hasMore := hasMore c; columnCount := columnCount c;
     visibleItemCount := visibleItemCount c;
     debounceRef := debounceRef c; timers := timers c;
     nextTimer := nextTimer c;
     loadMoreItemsCalls := S (loadMoreItemsCalls c);
     onLoadMoreCalls := onLoadMoreCalls c |}.

Definition setTimers (ts : list (nat * Timer)) (c : Component) : Component :=
  {| doubanData := doubanData c; isLoadingMore := isLoadingMore c;
     hasMore := hasMore c; columnCount := columnCount c;
     visibleItemCount := visibleItemCount c;
     debounceRef := debounceRef c; timers := ts;
     nextTimer := nextTimer c;
     loadMoreItemsCalls := loadMoreItemsCalls c;
     onLoadMoreCalls := onLoadMoreCalls c |}.

Definition clearTimeout (id : nat) (c : Component) : Component :=
  setTimers (filter (fun t => t.1 <> id) (timers c)) c.

(** [debounceRef.current = setTimeout(callback, 150)] at time [now]. *)
Definition setDebounce (now : nat) (r : Render) (c : Component) : Component :=
  {| doubanData := doubanData c; isLoadingMore := isLoadingMore c;
     hasMore := hasMore c; columnCount := columnCount c;
     visibleItemCount := visibleItemCount c;
     debounceRef := Some (nextTimer c);
     timers := timers c ++ [(nextTimer c, {| due := now + 150; closure := r |})];
     nextTimer := S (nextTimer c);
     loadMoreItemsCalls := loadMoreItemsCalls c;
     onLoadMoreCalls := onLoadMoreCalls c |}.

(** [loadMoreItems] (lines 73-84), as created by render [r]. *)
Definition loadMoreItems (r : Render) (c : Component) : Component :=
  if r_isLoadingMore r then c
  else if r_displayItemCount r <? r_dataLength r then
    setVisibleItemCount
      (fun prev => Nat.min (prev + LOAD_MORE_BATCH_SIZE) (r_dataLength r)) c
  else if r_hasMore r && negb (r_isLoadingMore r) then onLoadMore c
  else c.

(** The callback handed to [setTimeout] at lines 188-192. *)
Definition debounced (r : Render) (c : Component) : Component :=
  if negb (r_isLoadingMore r) && r_hasNextPage r
  then loadMoreItems r (logLoadMoreItems c)
  else c.

(** [memoizedOnCellsRendered] (lines 180-194), as created by render [r] and
    called at time [now]. *)
Definition memoizedOnCellsRendered (now : nat) (r : Render)
    (rowStopIndex : nat) (c : Component) : Component :=
  let c1 := match debounceRef c with
            | Some id => clearTimeout id c
            | None => c
            end in
  if (Z.of_nat (r_rowCount r) - LOAD_MORE_THRESHOLD <=? Z.of_nat rowStopIndex)%Z
     && r_hasNextPage r && negb (r_isLoadingMore r)
  then setDebounce now r c1
  else c1.

(** The host runs the pending timer [id]. *)
Definition fire (id : nat) (c : Component) : Component :=
  match list_find (fun t => t.1 = id) (timers c) with
  | Some (_, (_, t)) => debounced (closure t) (clearTimeout id c)
  | None => c
  end.

(** The parent passes a new [doubanData] array: the effect of lines 68-70
    runs. *)
Definition changeData (data : list DoubanItem) (c : Component) : Component :=
  {| doubanData := data; isLoadingMore := isLoadingMore c;
     hasMore := hasMore c; columnCount := columnCount c;
     visibleItemCount := INITIAL_BATCH_SIZE;
     debounceRef := debounceRef c; timers := timers c;
     nextTimer := nextTimer c;
     loadMoreItemsCalls := loadMoreItemsCalls c;
     onLoadMoreCalls := onLoadMoreCalls c |}.

(** The parent changes [isLoadingMore] and [hasMore]; the layout provider
    changes [columnCount]. *)
Definition changeFlags (loadingMore more : bool) (c : Component) : Component :=
  {| doubanData := doubanData c; isLoadingMore := loadingMore;
     hasMore := more; columnCount := columnCount c;
     visibleItemCount := visibleItemCount c;
     debounceRef := debounceRef c; timers := timers c;
     nextTimer := nextTimer c;
     loadMoreItemsCalls := loadMoreItemsCalls c;
     onLoadMoreCalls := onLoadMoreCalls c |}.

Definition changeColumns (columns : nat) (c : Component) : Component :=
  {| doubanData := doubanData c; isLoadingMore := isLoadingMore c;
     hasMore := hasMore c; columnCount := columns;
     visibleItemCount := visibleItemCount c;
     debounceRef := debounceRef c; timers := timers c;
     nextTimer := nextTimer c;
     loadMoreItemsCalls := loadMoreItemsCalls c;
     onLoadMoreCalls := onLoadMoreCalls c |}.

(** Everything that can happen to a mounted component.  A visible-range
    notification reaches the callback of the latest render. *)
Inductive Event :=
  | CellsRendered (rowStopIndex : nat)
  | TimerFires (id : nat)
  | DataChanges (data : list DoubanItem)
  | FlagsChange (loadingMore more : bool)
  | ColumnsChange (columns : nat).

(** One event, happening at time [te.1] (milliseconds). *)
Definition step (c : Component) (te : nat * Event) : Component :=
  match te.2 with
  | CellsRendered row => memoizedOnCellsRendered te.1 (render c) row c
  | TimerFires id => fire id c
  | DataChanges data => changeData data c
  | FlagsChange l m => changeFlags l m c
  | ColumnsChange n => changeColumns n c
  end.

Definition run (c : Component) (es : list (nat * Event)) : Component :=
  foldl step c es.

(** A trace respects the host's clock when its times do not decrease, no
    pending timer is overdue when an event is handled, and a timer runs
    exactly when it is due, the earliest first. *)
Definition on_time (now : nat) (c : Component) (te : nat * Event) : bool :=
  (now <=? te.1)
  && forallb (fun t => te.1 <=? due t.2) (timers c)
  && match te.2 with
     | TimerFires id =>
         match list_find (fun t => t.1 = id) (timers c) with
         | Some (_, (_, t)) => due t =? te.1
         | None => false
         end
     | _ => true
     end.

Fixpoint legal (now : nat) (c : Component) (es : list (nat * Event)) : bool :=
  match es with
  | [] => true
  | te :: es' => on_time now c te && legal te.1 (step c te) es'
  end.

(** The events that change the identity of the data source. *)
Definition is_data_change (e : Event) : bool :=
  match e with
  | DataChanges _ => true
  | _ => false
  end.

(** [CellComponent] (lines 92-138). *)
Record VideoCard := {
  vc_id : string;
  vc_title : string;
  vc_poster : string;
  vc_year : string;
  vc_douban_id : string;
  vc_type : CardType;
  vc_rate : string;
}.

Inductive Cell :=
  | EmptyCell (style : Style)
  | CardCell (style : Style) (card : VideoCard).

Definition CellComponent (columnIndex rowIndex : nat) (style : Style)
    (getDisplayData : list DoubanItem) (getType : ContentType)
    (cellColumnCount cellDisplayItemCount : nat) : Cell :=
  let index := rowIndex * cellColumnCount + columnIndex in
  if cellDisplayItemCount <=? index then EmptyCell style
  else
    match getDisplayData !! index with
    | None => EmptyCell style
    | Some item =>
        CardCell style
          {| vc_id := di_id item; vc_title := di_title item;
             vc_poster := di_poster item;
             vc_year := JS.or_else (di_year item) "";
             vc_douban_id := di_id item;
             vc_type := match getType with Movie => CardMovie | _ => CardTv end;
             vc_rate := di_rate item |}
    end.

End DoubanGrid.

(** ** VirtualSearchGrid (src/src/components/VirtualSearchGrid.tsx) *)

Module SearchGrid.

Record SearchResult := {
  sr_id : string;
  sr_title : string;
  sr_poster : string;
  sr_episodes : list string;
  sr_source : string;
  sr_source_name : string;
  sr_douban_id : option nat;
  sr_year : string;
}.

Inductive ViewMode := Agg | All.
Inductive CardType := CardMovie | CardTv.

Definition INITIAL_BATCH_SIZE : nat := 12.
Definition LOAD_MORE_BATCH_SIZE : nat := 8.
Definition LOAD_MORE_THRESHOLD : Z := 5.

(** [data] of line 67: the aggregated groups or the flat results.  The tag
    is the [viewMode] the array was selected by; every consumer receives
    the two together. *)
Inductive DataSource :=
  | AggData (groups : list (string * list SearchResult))
  | AllData (results : list SearchResult).

Definition data_length (d : DataSource) : nat :=
  match d with
  | AggData g => length g
  | AllData r => length r
  end.

Definition data_slice (d : DataSource) (start stop : nat) : DataSource :=
  match d with
  | AggData g => AggData (JS.slice g start stop)
  | AllData r => AllData (JS.slice r start stop)
  end.

(** The first [n] entries of a data source. *)
Definition data_take (n : nat) (d : DataSource) : DataSource :=
  match d with
  | AggData g => AggData (take n g)
  | AllData r => AllData (take n r)
  end.

(** The [useMemo] of lines 66-80. *)
Record Exposure := {
  currentData : DataSource;
  totalItemCount : nat;
  displayItemCount : nat;
  displayData : DataSource;
  hasNextPage : bool;
}.

Definition exposure (viewMode : ViewMode)
    (filteredAggResults : list (string * list SearchResult))
    (filteredResults : list SearchResult) (visibleItemCount : nat) : Exposure :=
  let data := match viewMode with
              | Agg => AggData filteredAggResults
              | All => AllData filteredResults
              end in
  let total := data_length data in
  let itemCount := Nat.min visibleItemCount total in
  let slicedData := data_slice data 0 itemCount in
  let hasNext := itemCount <? total in
  {| currentData := data; totalItemCount := total;
     displayItemCount := itemCount; displayData := slicedData;
     hasNextPage := hasNext |}.

(** The [useMemo] of lines 111-116. *)
Definition rowCount (displayItemCount columnCount : nat) : nat :=
  let actualRows := JS.ceil_div displayItemCount columnCount in
  let bufferRows := JS.ceil_div 30 columnCount in
  Nat.max 1 (actualRows + bufferRows).

(** What one render binds and its callbacks close over. *)
Record Render := {
  r_isLoadingMore : bool;
  r_hasNextPage : bool;
  r_totalItemCount : nat;
  r_displayItemCount : nat;
  r_columnCount : nat;
}.

(** The two callbacks the component hands to [setTimeout]: the debounced
    trigger of lines 280-284, closing over a render, and the deferred
    reveal of lines 104-107, closing over [totalItemCount]. *)
Inductive Callback :=
  | Debounced (r : Render)
  | Reveal (totalItemCount : nat).

Record Timer := { due : nat; callback : Callback }.

Record Component := {
  filteredResults : list SearchResult;
  filteredAggResults : list (string * list SearchResult);
  viewMode : ViewMode;
  columnCount : nat;
  visibleItemCount : nat;
  isLoadingMore : bool;
  debounceRef : option nat;
  timers : list (nat * Timer);
  nextTimer : nat;
  loadMoreItemsCalls : nat;
}.

Definition mount (results : list SearchResult)
    (aggResults : list (string * list SearchResult)) (mode : ViewMode)
    (columns : nat) : Component :=
  {| filteredResults := results; filteredAggResults := aggResults;
     viewMode := mode; columnCount := columns;
     visibleItemCount := INITIAL_BATCH_SIZE; isLoadingMore := false;
     debounceRef := None; timers := []; nextTimer := 1;
     loadMoreItemsCalls := 0 |}.

Definition exposed (c : Component) : Exposure :=
  exposure (viewMode c) (filteredAggResults c) (filteredResults c)
    (visibleItemCount c).

Definition render (c : Component) : Render :=
  {| r_isLoadingMore := isLoadingMore c;
     r_hasNextPage := hasNextPage (exposed c);
     r_totalItemCount := totalItemCount (exposed c);
     r_displayItemCount := displayItemCount (exposed c);
     r_columnCount := columnCount c |}.

Definition setVisibleItemCount (f : nat -> nat) (c : Component) : Component :=
  {| filteredResults := filteredResults c;
     filteredAggResults := filteredAggResults c;
     viewMode := viewMode c; columnCount := columnCount c;
     visibleItemCount := f (visibleItemCount c);
     isLoadingMore := isLoadingMore c;
     debounceRef := debounceRef c; timers := timers c;
     nextTimer := nextTimer c; loadMoreItemsCalls := loadMoreItemsCalls c |}.

Definition setIsLoadingMore (b : bool) (c : Component) : Component :=
  {| filteredResults := filteredResults c;
     filteredAggResults := filteredAggResults c;
     viewMode := viewMode c; columnCount := columnCount c;
     visibleItemCount := visibleItemCount c;
     isLoadingMore := b;
     debounceRef := debounceRef c; timers := timers c;
     nextTimer := nextTimer c; loadMoreItemsCalls := loadMoreItemsCalls c |}.

Definition logLoadMoreItems (c : Component) : Component :=
  {| filteredResults := filteredResults c;
     filteredAggResults := filteredAggResults c;
     viewMode := viewMode c; columnCount := columnCount c;
     visibleItemCount := visibleItemCount c;
     isLoadingMore := isLoadingMore c;
     debounceRef := debounceRef c; timers := timers c;
     nextTimer := nextTimer c;
     loadMoreItemsCalls := S (loadMoreItemsCalls c) |}.

Definition setTimers (ts : list (nat * Timer)) (c : Component) : Component :=
  {| filteredResults := filteredResults c;
     filteredAggResults := filteredAggResults c;
     viewMode := viewMode c; columnCount := columnCount c;
     visibleItemCount := visibleItemCount c;
     isLoadingMore := isLoadingMore c;
     debounceRef := debounceRef c; timers := ts;
     nextTimer := nextTimer c; loadMoreItemsCalls := loadMoreItemsCalls c |}.

Definition setDebounceRef (id : nat) (c : Component) : Component :=
  {| filteredResults := filteredResults c;
     filteredAggResults := filteredAggResults c;
     viewMode := viewMode c; columnCount := columnCount c;
     visibleItemCount := visibleItemCount c;
     isLoadingMore := isLoadingMore c;
     debounceRef := Some id; timers := timers c;
     nextTimer := nextTimer c; loadMoreItemsCalls := loadMoreItemsCalls c |}.

Definition clearTimeout (id : nat) (c : Component) : Component :=
  setTimers (filter (fun t => t.1 <> id) (timers c)) c.

(** [setTimeout(cb, delay)] at time [now]: the new timer's id and the
    component with the timer pending. *)
Definition setTimeout (now : nat) (cb : Callback) (delay : nat)
    (c : Component) : nat * Component :=
  (nextTimer c,
   {| filteredResults := filteredResults c;
      filteredAggResults := filteredAggResults c;
      viewMode := viewMode c; columnCount := columnCount c;
      visibleItemCount := visibleItemCount c;
      isLoadingMore := isLoadingMore c;
      debounceRef := debounceRef c;
      timers := timers c ++ [(nextTimer c, {| due := now + delay; callback := cb |})];
      nextTimer := S (nextTimer c);
      loadMoreItemsCalls := loadMoreItemsCalls c |}).

(** [loadMoreItems] (lines 98-108), as created by render [r] and called at
    time [now]. *)
Definition loadMoreItems (now : nat) (r : Render) (c : Component) : Component :=
  if r_isLoadingMore r || negb (r_hasNextPage r) then c
  else (setTimeout now (Reveal (r_totalItemCount r)) 100
          (setIsLoadingMore true c)).2.

(** The callback of lines 104-107. *)
Definition reveal (totalItemCount : nat) (c : Component) : Component :=
  setIsLoadingMore false
    (setVisibleItemCount
       (fun prev => Nat.min (prev + LOAD_MORE_BATCH_SIZE) totalItemCount) c).

(** The callback of lines 280-284. *)
Definition debounced (now : nat) (r : Render) (c : Component) : Component :=
  if negb (r_isLoadingMore r) && r_hasNextPage r
  then loadMoreItems now r (logLoadMoreItems c)
  else c.

(** [memoizedOnCellsRendered] (lines 268-286), as created by render [r] and
    called at time [now]. *)
Definition memoizedOnCellsRendered (now : nat) (r : Render)
    (rowStopIndex : nat) (c : Component) : Component :=
  let c1 := match debounceRef c with
            | Some id => clearTimeout id c
            | None => c
            end in
  let actualRowCount := JS.ceil_div (r_displayItemCount r) (r_columnCount r) in
  if (Z.of_nat actualRowCount - LOAD_MORE_THRESHOLD <=? Z.of_nat rowStopIndex)%Z
     && r_hasNextPage r && negb (r_isLoadingMore r)
  then
    let (id, c2) := setTimeout now (Debounced r) 150 c1 in
    setDebounceRef id c2
  else c1.

(** The host runs the pending timer [id] at time [now]. *)
Definition fire (now : nat) (id : nat) (c : Component) : Component :=
  match list_find (fun t => t.1 = id) (timers c) with
  | Some (_, (_, t)) =>
      match callback t with
      | Debounced r => debounced now r (clearTimeout id c)
      | Reveal total => reveal total (clearTimeout id c)
      end
  | None => c
  end.

(** The parent passes a different [currentData] array or [viewMode]: the
    effect of lines 83-86 runs. *)
Definition changeSource (results : list SearchResult)
    (aggResults : list (string * list SearchResult)) (mode : ViewMode)
    (c : Component) : Component :=
  {| filteredResults := results; filteredAggResults := aggResults;
     viewMode := mode; columnCount := columnCount c;
     visibleItemCount := INITIAL_BATCH_SIZE;
     isLoadingMore := false;
     debounceRef := debounceRef c; timers := timers c;
     nextTimer := nextTimer c; loadMoreItemsCalls := loadMoreItemsCalls c |}.

Definition changeColumns (columns : nat) (c : Component) : Component :=
  {| filteredResults := filteredResults c;
     filteredAggResults := filteredAggResults c;
     viewMode := viewMode c; columnCount := columns;
     visibleItemCount := visibleItemCount c;
     isLoadingMore := isLoadingMore c;
     debounceRef := debounceRef c; timers := timers c;
     nextTimer := nextTimer c; loadMoreItemsCalls := loadMoreItemsCalls c |}.

Inductive Event :=
  | CellsRendered (rowStopIndex : nat)
  | TimerFires (id : nat)
  | SourceChanges (results : list SearchResult)
      (aggResults : list (string * list SearchResult)) (mode : ViewMode)
  | ColumnsChange (columns : nat).

(** One event, happening at time [te.1] (milliseconds). *)
Definition step (c : Component) (te : nat * Event) : Component :=
  match te.2 with
  | CellsRendered row => memoizedOnCellsRendered te.1 (render c) row c
  | TimerFires id => fire te.1 id c
  | SourceChanges r a m => changeSource r a m c
  | ColumnsChange n => changeColumns n c
  end.

Definition run (c : Component) (es : list (nat * Event)) : Component :=
  foldl step c es.

(** A trace respects the host's clock when its times do not decrease, no
    pending timer is overdue when an event is handled, and a timer runs
    exactly when it is due, the earliest first. *)
Definition on_time (now : nat) (c : Component) (te : nat * Event) : bool :=
  (now <=? te.1)
  && forallb (fun t => te.1 <=? due t.2) (timers c)
  && match te.2 with
     | TimerFires id =>
         match list_find (fun t => t.1 = id) (timers c) with
         | Some (_, (_, t)) => due t =? te.1
         | None => false
         end
     | _ => true
     end.

Fixpoint legal_for (step : Component -> nat * Event -> Component) (now : nat)
    (c : Component) (es : list (nat * Event)) : bool :=
  match es with
  | [] => true
  | te :: es' => on_time now c te && legal_for step te.1 (step c te) es'
  end.

Definition legal : nat -> Component -> list (nat * Event) -> bool :=
  legal_for step.

(** The events that change the identity of the data source. *)
Definition is_source_change (e : Event) : bool :=
  match e with
  | SourceChanges _ _ _ => true
  | _ => false
  end.

(** The pending debounced triggers, and the value a pending callback
    captured for [totalItemCount]. *)
Definition is_debounced (cb : Callback) : bool :=
  match cb with
  | Debounced _ => true
  | Reveal _ => false
  end.

Definition pendingDebounced (c : Component) : list (nat * Timer) :=
  filter (fun t => is_debounced (callback t.2) = true) (timers c).

Definition captured_total (cb : Callback) : nat :=
  match cb with
  | Debounced r => r_totalItemCount r
  | Reveal total => total
  end.

(** The condition of line 278 under which a notification schedules the
    deferred call. *)
Definition near_end (r : Render) (rowStopIndex : nat) : bool :=
  (Z.of_nat (JS.ceil_div (r_displayItemCount r) (r_columnCount r))
   - LOAD_MORE_THRESHOLD <=? Z.of_nat rowStopIndex)%Z
  && r_hasNextPage r && negb (r_isLoadingMore r).

(** A burst of visible-range notifications, each a time and a last visible
    row. *)
Definition notifications (burst : list (nat * nat)) : list (nat * Event) :=
  map (fun p => (p.1, CellsRendered p.2)) burst.

(** *** The cell resolver (lines 119-215) *)

Record GroupStats := {
  episodes : nat;
  source_names : list string;
  douban_id : option nat;
}.

(** [cellDataRef.current]: what [getCellData()] returns.  [getGroupRef]
    yields the handle of the card's ref. *)
Record CellData := {
  cd_displayData : DataSource;
  cd_searchQuery : string;
  cd_columnCount : nat;
  cd_displayItemCount : nat;
  cd_getGroupRef : string -> nat;
  cd_computeGroupStats : list SearchResult -> GroupStats;
}.

(** The mutable objects a cell reaches: [groupStatsRef.current], and the log
    of the calls of [computeGroupStats], each with the key of the group it
    was called for. *)
Record Store := {
  groupStats : gmap string GroupStats;
  computeGroupStatsCalls : list string;
}.

Record AggregateCard := {
  ac_ref : nat;
  ac_title : string;
  ac_poster : string;
  ac_year : string;
  ac_episodes : nat;
  ac_source_names : list string;
  ac_douban_id : option nat;
  ac_query : string;
  ac_type : CardType;
}.

Record ItemCard := {
  ic_id : string;
  ic_title : string;
  ic_poster : string;
  ic_episodes : nat;
  ic_source : string;
  ic_source_name : string;
  ic_douban_id : option nat;
  ic_query : string;
  ic_year : string;
  ic_type : CardType;
}.

Inductive Cell :=
  | EmptyCell (style : Style)
  | AggregateCell (style : Style) (card : AggregateCard)
  | ItemCell (style : Style) (card : ItemCard).

Definition query_for (searchQuery title : string) : string :=
  if decide (JS.trim searchQuery = title) then "" else JS.trim searchQuery.

Definition aggregateCell (style : Style) (cd : CellData)
    (item : string * list SearchResult) (st : Store) : Cell * Store :=
  let (mapKey, group) := item in
  let title := JS.or_else (from_option sr_title "" (head group)) "" in
  let poster := JS.or_else (from_option sr_poster "" (head group)) "" in
  let year := JS.or_else (from_option sr_year "" (head group)) "unknown" in
  let stats := cd_computeGroupStats cd group in
  let type := if episodes stats =? 1 then CardMovie else CardTv in
  let cache := match groupStats st !! mapKey with
               | Some _ => groupStats st
               | None => <[mapKey := stats]> (groupStats st)
               end in
  (AggregateCell style
     {| ac_ref := cd_getGroupRef cd mapKey; ac_title := title;
        ac_poster := poster; ac_year := year;
        ac_episodes := episodes stats;
        ac_source_names := source_names stats;
        ac_douban_id := douban_id stats;
        ac_query := query_for (cd_searchQuery cd) title;
        ac_type := type |},
   {| groupStats := cache;
      computeGroupStatsCalls := computeGroupStatsCalls st ++ [mapKey] |}).

Definition itemCell (style : Style) (cd : CellData) (searchItem : SearchResult)
    : Cell :=
  ItemCell style
    {| ic_id := sr_id searchItem; ic_title := sr_title searchItem;
       ic_poster := sr_poster searchItem;
       ic_episodes := length (sr_episodes searchItem);
       ic_source := sr_source searchItem;
       ic_source_name := sr_source_name searchItem;
       ic_douban_id := sr_douban_id searchItem;
       ic_query := query_for (cd_searchQuery cd) (sr_title searchItem);
       ic_year := sr_year searchItem;
       ic_type := if 1 <? length (sr_episodes searchItem)
                  then CardTv else CardMovie |}.

Definition CellComponent (columnIndex rowIndex : nat) (style : Style)
    (cd : CellData) (st : Store) : Cell * Store :=
  let index := rowIndex * cd_columnCount cd + columnIndex in
  if cd_displayItemCount cd <=? index then (EmptyCell style, st)
  else
    match cd_displayData cd with
    | AggData groups =>
        match groups !! index with
        | None => (EmptyCell style, st)
        | Some item => aggregateCell style cd item st
        end
    | AllData results =>
        match results !! index with
        | None => (EmptyCell style, st)
        | Some searchItem => (itemCell style cd searchItem, st)
        end
    end.

(** One call of the cell renderer by the grid, and a sequence of them, each
    with the cell data current at that time. *)
Record CellRequest := {
  cr_columnIndex : nat;
  cr_rowIndex : nat;
  cr_style : Style;
  cr_data : CellData;
}.

Definition resolve (st : Store) (q : CellRequest) : Store :=
  (CellComponent (cr_columnIndex q) (cr_rowIndex q) (cr_style q) (cr_data q) st).2.

Definition resolveAll (st : Store) (qs : list CellRequest) : Store :=
  foldl resolve st qs.

(** The cell data the effect of lines 236-247 stores after a render. *)
Definition cellData (c : Component) (searchQuery : string)
    (getGroupRef : string -> nat)
    (computeGroupStats : list SearchResult -> GroupStats) : CellData :=
  {| cd_displayData := displayData (exposed c);
     cd_searchQuery := searchQuery;
     cd_columnCount := columnCount c;
     cd_displayItemCount := displayItemCount (exposed c);
     cd_getGroupRef := getGroupRef;
     cd_computeGroupStats := computeGroupStats |}.

End SearchGrid.

(** ** The earlier VirtualSearchGrid (src/unnamed/part_000, lines 521-823)

    Its state, exposure, [loadMoreItems] and cell resolver are those of
    [SearchGrid]; the row count and the visible-range callback differ. *)

Module LegacySearchGrid.

Import SearchGrid.

(** The [useMemo] of lines 625-627. *)
Definition rowCount (displayItemCount columnCount : nat) : nat :=
  Nat.max 1 (JS.ceil_div displayItemCount columnCount).

(** [memoizedOnCellsRendered] (lines 748-759), as created by render [r] and
    called at time [now]: the timer's id is not kept. *)
Definition memoizedOnCellsRendered (now : nat) (r : Render)
    (rowStopIndex : nat) (c : Component) : Component :=
  let visibleStopIndex := rowStopIndex in
  if (Z.of_nat (rowCount (r_displayItemCount r) (r_columnCount r))
        - LOAD_MORE_THRESHOLD <=? Z.of_nat visibleStopIndex)%Z
     && r_hasNextPage r && negb (r_isLoadingMore r)
  then (setTimeout now (Debounced r) 100 c).2
  else c.

Definition step (c : Component) (te : nat * Event) : Component :=
  match te.2 with
  | CellsRendered row => memoizedOnCellsRendered te.1 (render c) row c
  | _ => SearchGrid.step c te
  end.

Definition run (c : Component) (es : list (nat * Event)) : Component :=
  foldl step c es.

Definition legal : nat -> Component -> list (nat * Event) -> bool :=
  legal_for step.

End LegacySearchGrid.

(** ** The spider.jar provider (src/unnamed/part_001) *)

Module SpiderJar.

Definition Buffer := list byte.

Definition CANDIDATES : list string := [
  "https://gitcode.net/qq_26898231/TVBox/-/raw/main/JAR/XC.jar";
  "https://gitee.com/q215613905/TVBoxOS/raw/main/JAR/XC.jar";
  "https://cdn.jsdelivr.net/gh/hjdhnx/dr_py@main/js/drpy.jar";
  "https://cdn.jsdelivr.net/gh/FongMi/CatVodSpider@main/jar/spider.jar";
  "https://raw.githubusercontent.com/hjdhnx/dr_py/main/js/drpy.jar";
  "https://raw.githubusercontent.com/FongMi/CatVodSpider/main/jar/spider.jar";
  "https://ghproxy.com/https://raw.githubusercontent.com/hjdhnx/dr_py/main/js/drpy.jar"
]%string.

Definition FALLBACK_JAR_BASE64 : string :=
  ("UEsDBBQAAAAIAI2JZFMAAAAAAAAAAAAAAAAJAAAATUVUQS1JTkYvUEsDBBQAAAAIAI2JZFN2y5eRAAAAACAAAAAUAAAATUVUQS1JTkYvTUFOSUZFU1QuTUZNYW5pZmVzdC1WZXJzaW9uOiAxLjAKCkNyZWF0ZWQtQnk6IEx1bmFUViBGYWxsYmFjawpQS"
   +:+ "sHCO8JVu8/AAAAOAAAAFBLAQIUABQAAAAIAI2JZFMA7wlW7z8AAABOAAAAJAAAAAAAAAAAAAAAAAAAAAAATUVUQS1JTkYvUEsBAhQAFAAAAAgAjYlkU3bLl5EAAAAAIAAAABQAAAAAAAAAAAAAAAADgAAABNRVRBLUlORi9NQU5JRkVTVC5NRlBLBQYAAAAAAgACAHAAAABNAAAAAAA=")%string.

Definition TTL : Z := 6 * 60 * 60 * 1000.

Record SpiderJarInfo := {
  buffer : Buffer;
  md5_hex : string;
  source : string;
  success : bool;
  cached : bool;
  timestamp : Z;
  size : nat;
  tried : nat;
}.

(** How an awaited promise ends: it settles with a value, or it stays
    pending for ever. *)
Inductive Awaited (A : Type) :=
  | Settled (a : A)
  | Pending.

Arguments Settled {A} a.
Arguments Pending {A}.

(** How [resp.arrayBuffer()] ends (line 75): it rejects, it yields the
    body, or it never settles, the peer neither finishing the body nor
    closing the connection.  By then the abort timer of line 54 has been
    cleared (line 72), so nothing ends the wait. *)
Inductive BodyOutcome :=
  | BodyRejected
  | BodyPending
  | Body (ab : Buffer).

(** How [fetch(url)] ends (line 67): it rejects (network or TLS failure, or
    the abort of line 54 when no response has come within the timeout), or
    it resolves to a response. *)
Inductive FetchOutcome :=
  | Rejected
  | Response (ok : bool) (status : nat) (body : BodyOutcome).

(** [fetchRemote] (lines 48-83), given how the request ends.  A rejection
    at either [await] is caught at line 79. *)
Definition fetchRemote (outcome : FetchOutcome) : Awaited (option Buffer) :=
  match outcome with
  | Rejected => Settled None
  | Response ok status body =>
      if negb ok || (400 <=? status) then Settled None
      else match body with
           | BodyRejected => Settled None
           | BodyPending => Pending
           | Body ab =>
               if length ab <? 1000 then Settled None
               else Settled (Some (ab : Buffer))
           end
  end.

(** [{ ...cache, cached: true }]. *)
Definition mark_cached (c : SpiderJarInfo) : SpiderJarInfo :=
  {| buffer := buffer c; md5_hex := md5_hex c; source := source c;
     success := success c; cached := true; timestamp := timestamp c;
     size := size c; tried := tried c |}.

(** What one call leaves behind: the value its promise resolves to, if it
    does, the module's [cache] variable, and the URLs requested, in
    order. *)
Record Outcome := {
  resolved : Awaited SpiderJarInfo;
  cache_after : option SpiderJarInfo;
  requested : list string;
}.

Section Provider.

(** [crypto.createHash('md5')...digest('hex')] and
    [Buffer.from(_, 'base64')] are Node's. *)
Variable md5 : Buffer -> string.
Variable from_base64 : string -> Buffer.

(** The [info] of lines 105-114, for the candidate [url] that yielded
    [buf]. *)
Definition remote_jar (now : Z) (url : string) (buf : Buffer)
    (tried : nat) : SpiderJarInfo :=
  {| buffer := buf; md5_hex := md5 buf;
     source := url; success := true;
     cached := false; timestamp := now;
     size := length buf; tried := tried |}.

(** The [info] of lines 123-133: the embedded jar. *)
Definition fallback_jar (now : Z) (tried : nat) : SpiderJarInfo :=
  let fb := from_base64 FALLBACK_JAR_BASE64 in
  {| buffer := fb; md5_hex := md5 fb;
     source := "fallback"; success := false;
     cached := false; timestamp := now;
     size := length fb; tried := tried |}.

(** The network during one call. *)
Variable net : string -> FetchOutcome.

(** The [for] loop of lines 100-119 over the remaining candidates, [tried]
    of them having been tried and [log] requested already. *)
Fixpoint probe (now : Z) (urls : list string) (tried : nat) (log : list string)
    : Awaited (option SpiderJarInfo) * nat * list string :=
  match urls with
  | [] => (Settled None, tried, log)
  | url :: rest =>
      let tried := tried + 1 in
      match fetchRemote (net url) with
      | Settled (Some buf) =>
          (Settled (Some (remote_jar now url buf tried)), tried, log ++ [url])
      | Settled None => probe now rest tried (log ++ [url])
      | Pending => (Pending, tried, log ++ [url])
      end
  end.

(** The test of line 93: [!forceRefresh && cache && now - cache.timestamp < TTL]. *)
Definition cache_hit (forceRefresh : bool) (now : Z)
    (cache : option SpiderJarInfo) : option SpiderJarInfo :=
  match cache with
  | Some c => if negb forceRefresh && (now - timestamp c <? TTL)%Z
              then Some c else None
  | None => None
  end.

(** [getSpiderJar] (lines 89-137) called at time [now] ([Date.now()]) with
    the module variable [cache]. *)
Definition getSpiderJar (forceRefresh : bool) (now : Z)
    (cache : option SpiderJarInfo) : Outcome :=
  match cache_hit forceRefresh now cache with
  | Some c =>
      {| resolved := Settled (mark_cached c); cache_after := cache;
         requested := [] |}
  | None =>
      match probe now CANDIDATES 0 [] with
      | (Settled (Some info), _, log) =>
          {| resolved := Settled info; cache_after := Some info;
             requested := log |}
      | (Settled None, tried, log) =>
          let info := fallback_jar now tried in
          {| resolved := Settled info; cache_after := Some info;
             requested := log |}
      | (Pending, _, log) =>
          {| resolved := Pending; cache_after := cache; requested := log |}
      end
  end.

End Provider.

End SpiderJar.

(** ** The progressive reveal controller as the specification words it *)

Module Spec.

Record ExposureState := {
  revealedCount : nat;
  remoteLoadInFlight : bool;
}.

(** Section 4.1, [requestMore]: the state afterwards and the number of calls
    of [onRemoteFetch]. *)
Definition requestMore (LOAD_MORE_BATCH len : nat) (remoteHasMore : bool)
    (s : ExposureState) : ExposureState * nat :=
  let exposedCount := Nat.min (revealedCount s) len in
  if remoteLoadInFlight s then (s, 0)
  else if exposedCount <? len then
    ({| revealedCount := Nat.min (revealedCount s + LOAD_MORE_BATCH) len;
        remoteLoadInFlight := remoteLoadInFlight s |}, 0)
  else if remoteHasMore then
    ({| revealedCount := revealedCount s; remoteLoadInFlight := true |}, 1)
  else (s, 0).

(** The exposure state of the two components. *)
Definition ofDouban (c : DoubanGrid.Component) : ExposureState :=
  {| revealedCount := DoubanGrid.visibleItemCount c;
     remoteLoadInFlight := DoubanGrid.isLoadingMore c |}.

Definition ofSearch (c : SearchGrid.Component) : ExposureState :=
  {| revealedCount := SearchGrid.visibleItemCount c;
     remoteLoadInFlight := SearchGrid.isLoadingMore c |}.

End Spec.

(** ** Concrete inputs for the scenarios below *)

Module Samples.

Definition slot : Style :=
  {| st_left := 0; st_top := 0; st_width := 160; st_height := 240 |}.

Definition doubanItem : DoubanGrid.DoubanItem :=
  {| DoubanGrid.di_id := "1292052"; DoubanGrid.di_title := "A";
     DoubanGrid.di_poster := "a.jpg"; DoubanGrid.di_year := "1994";
     DoubanGrid.di_rate := "9.7" |}.

Definition doubanItems (n : nat) : list DoubanGrid.DoubanItem :=
  replicate n doubanItem.

Definition searchResult (episodes : nat) : SearchGrid.SearchResult :=
  {| SearchGrid.sr_id := "42"; SearchGrid.sr_title := "B";
     SearchGrid.sr_poster := "b.jpg";
     SearchGrid.sr_episodes := replicate episodes "ep.m3u8";
     SearchGrid.sr_source := "src"; SearchGrid.sr_source_name := "Source";
     SearchGrid.sr_douban_id := None; SearchGrid.sr_year := "2020" |}.

Definition searchResults (n : nat) : list SearchGrid.SearchResult :=
  replicate n (searchResult 1).

(** A [computeGroupStats]: the longest episode list of the group, the
    source names, the first catalog id. *)
Definition computeGroupStats (group : list SearchGrid.SearchResult)
    : SearchGrid.GroupStats :=
  {| SearchGrid.episodes :=
       foldr Nat.max 0 (map (fun r => length (SearchGrid.sr_episodes r)) group);
     SearchGrid.source_names := map SearchGrid.sr_source_name group;
     SearchGrid.douban_id := head group ≫= SearchGrid.sr_douban_id |}.

Definition emptyStore : SearchGrid.Store :=
  {| SearchGrid.groupStats := ∅; SearchGrid.computeGroupStatsCalls := [] |}.

(** The cell data of an aggregated view showing one group. *)
Definition oneGroup (key : string) (group : list SearchGrid.SearchResult)
    : SearchGrid.CellData :=
  {| SearchGrid.cd_displayData := SearchGrid.AggData [(key, group)];
     SearchGrid.cd_searchQuery := "B";
     SearchGrid.cd_columnCount := 4;
     SearchGrid.cd_displayItemCount := 1;
     SearchGrid.cd_getGroupRef := fun _ => 0;
     SearchGrid.cd_computeGroupStats := computeGroupStats |}.

(** A network on which the first candidate answers with 999 bytes, the
    second with a 404, the third with a jar of 1000 bytes, and every other
    request fails; one on which every request fails; and one on which the
    first candidate answers 200 and never finishes its body. *)
Definition thirdAnswers (url : string) : SpiderJar.FetchOutcome :=
  if decide (url = "https://gitcode.net/qq_26898231/TVBox/-/raw/main/JAR/XC.jar")
  then SpiderJar.Response true 200 (SpiderJar.Body (replicate 999 x50))
  else if decide (url = "https://gitee.com/q215613905/TVBoxOS/raw/main/JAR/XC.jar")
  then SpiderJar.Response false 404 (SpiderJar.Body [])
  else if decide (url = "https://cdn.jsdelivr.net/gh/hjdhnx/dr_py@main/js/drpy.jar")
  then SpiderJar.Response true 200 (SpiderJar.Body (replicate 1000 x50))
  else SpiderJar.Rejected.

Definition offline (url : string) : SpiderJar.FetchOutcome :=
  SpiderJar.Rejected.

Definition stalled (url : string) : SpiderJar.FetchOutcome :=
  if decide (url = "https://gitcode.net/qq_26898231/TVBox/-/raw/main/JAR/XC.jar")
  then SpiderJar.Response true 200 SpiderJar.BodyPending
  else SpiderJar.Rejected.

(** Stand-ins for Node's digest and base64 decoder. *)
Definition digest (buf : SpiderJar.Buffer) : string :=
  if decide (buf = []) then "d41d8cd98f00b204e9800998ecf8427e" else "md5".

Definition decode (text : string) : SpiderJar.Buffer :=
  replicate (String.length text / 4 * 3) x00.

End Samples.

(** ** What the components render (the JSX each returns) *)

Module View.

(** What [useResponsiveGrid] yields besides [columnCount], and
    [window.innerHeight] when there is a [window].  The numbers are finite;
    they need not be integers. *)
Record Layout := {
  containerWidth : Q;
  itemWidth : Q;
  itemHeight : Q;
  innerHeight : option Q;
}.

(** The props the component computes for react-window's [Grid].  The cell
    renderer, its props, the style and the visible-range callback are the
    functions modelled above. *)
Record GridProps := {
  g_key : Z * nat;
  g_columnCount : nat;
  g_columnWidth : Q;
  g_defaultHeight : Q;
  g_defaultWidth : Q;
  g_rowCount : nat;
  g_rowHeight : Q;
  g_overscanCount : nat;
}.

Inductive Body :=
  | Spinner
  | NothingFound
  | Initializing (roundedWidth : Z)
  | Grid (props : GridProps).

(** The body, the "loading more" indicator, and the "all N results shown"
    notice with its N. *)
Record Rendered := {
  body : Body;
  loadingMoreIndicator : bool;
  allShownNotice : option nat;
}.

(** [Math.min(typeof window !== 'undefined' ? window.innerHeight - 200 : 600,
    800)]. *)
Definition gridHeight (l : Layout) : Q :=
  Qmin (match innerHeight l with
        | Some h => (h - 200)%Q
        | None => 600%Q
        end) 800%Q.

(** [Math.round] and [Math.floor]. *)
Definition round (x : Q) : Z := Qfloor (x + (1 # 2))%Q.
Definition floor (x : Q) : Z := Qfloor x.

(** [containerWidth > 100]. *)
Definition wide (l : Layout) : bool :=
  negb (Qle_bool (containerWidth l) 100%Q).

(** The JSX of VirtualDoubanGrid (src/unnamed/part_000, lines 196-256), for
    the props [loading] and those held by the component. *)
Definition douban (loading : bool) (l : Layout) (c : DoubanGrid.Component)
    : Rendered :=
  let r := DoubanGrid.render c in
  {| body :=
       if length (DoubanGrid.doubanData c) =? 0 then
         if loading then Spinner else NothingFound
       else if Qle_bool (containerWidth l) 100%Q then
         Initializing (round (containerWidth l))
       else
         Grid {| g_key := (floor (containerWidth l / 100)%Q,
                           DoubanGrid.columnCount c);
                 g_columnCount := DoubanGrid.columnCount c;
                 g_columnWidth := (itemWidth l + 16)%Q;
                 g_defaultHeight := gridHeight l;
                 g_defaultWidth := containerWidth l;
                 g_rowCount := DoubanGrid.r_rowCount r;
                 g_rowHeight := (itemHeight l + 16)%Q;
                 g_overscanCount := 3 |};
     loadingMoreIndicator := wide l && DoubanGrid.isLoadingMore c;
     allShownNotice :=
       if wide l && negb (DoubanGrid.r_hasNextPage r)
          && (DoubanGrid.INITIAL_BATCH_SIZE <? DoubanGrid.r_displayItemCount r)
       then Some (DoubanGrid.r_displayItemCount r) else None |}.

(** The JSX of VirtualSearchGrid (VirtualSearchGrid.tsx, lines 288-348), for
    the prop [isLoading] and those held by the component. *)
Definition search (isLoading : bool) (l : Layout) (c : SearchGrid.Component)
    : Rendered :=
  let e := SearchGrid.exposed c in
  {| body :=
       if SearchGrid.totalItemCount e =? 0 then
         if isLoading then Spinner else NothingFound
       else if Qle_bool (containerWidth l) 100%Q then
         Initializing (round (containerWidth l))
       else
         Grid {| g_key := (floor (containerWidth l / 100)%Q,
                           SearchGrid.columnCount c);
                 g_columnCount := SearchGrid.columnCount c;
                 g_columnWidth := (itemWidth l + 16)%Q;
                 g_defaultHeight := gridHeight l;
                 g_defaultWidth := containerWidth l;
                 g_rowCount := SearchGrid.rowCount (SearchGrid.displayItemCount e)
                                 (SearchGrid.columnCount c);
                 g_rowHeight := (itemHeight l + 16)%Q;
                 g_overscanCount := 3 |};
     loadingMoreIndicator := wide l && SearchGrid.isLoadingMore c;
     allShownNotice :=
       if wide l && negb (SearchGrid.hasNextPage e)
          && (SearchGrid.INITIAL_BATCH_SIZE <? SearchGrid.displayItemCount e)
       then Some (SearchGrid.displayItemCount e) else None |}.

End View.

(** ** The cards of the Douban grid, and the groups a cell request reaches *)

Module Cells.

(** The [VideoCard] props of part_000, lines 126-135. *)
Definition doubanCard (item : DoubanGrid.DoubanItem)
    (type : DoubanGrid.ContentType) : DoubanGrid.VideoCard :=
  {| DoubanGrid.vc_id := DoubanGrid.di_id item;
     DoubanGrid.vc_title := DoubanGrid.di_title item;
     DoubanGrid.vc_poster := DoubanGrid.di_poster item;
     DoubanGrid.vc_year := JS.or_else (DoubanGrid.di_year item) "";
     DoubanGrid.vc_douban_id := DoubanGrid.di_id item;
     DoubanGrid.vc_type := match type with
                           | DoubanGrid.Movie => DoubanGrid.CardMovie
                           | _ => DoubanGrid.CardTv
                           end;
     DoubanGrid.vc_rate := DoubanGrid.di_rate item |}.

(** [dataContextRef.current] (part_000, lines 147-158): the slice and the
    type of the first render, then those of the last render whose effect
    has run.  The effect runs after the render's cells have been
    rendered. *)
Record DataContext := {
  getDisplayData : list DoubanGrid.DoubanItem;
  getType : DoubanGrid.ContentType;
}.

(** What the ref holds once the effect of a render over [doubanData] with
    [visibleItemCount] and [type] has run. *)
Definition published (visibleItemCount : nat)
    (doubanData : list DoubanGrid.DoubanItem) (hasMore : bool)
    (type : DoubanGrid.ContentType) : DataContext :=
  {| getDisplayData :=
       DoubanGrid.displayData
         (DoubanGrid.exposure visibleItemCount doubanData hasMore);
     getType := type |}.

(** A cell as the grid renders it with [stableCellProps] (lines 161-166):
    [columnCount] and [displayItemCount] are those of the current render,
    the slice and the type are read through the ref. *)
Definition doubanCell (ctx : DataContext) (columnCount displayItemCount : nat)
    (rowIndex columnIndex : nat) (style : Style) : DoubanGrid.Cell :=
  DoubanGrid.CellComponent columnIndex rowIndex style
    (getDisplayData ctx) (getType ctx) columnCount displayItemCount.

(** The group whose card a cell request renders, if it renders one. *)
Definition requestedGroup (q : SearchGrid.CellRequest)
    : option (string * list SearchGrid.SearchResult) :=
  let cd := SearchGrid.cr_data q in
  let index := SearchGrid.cr_rowIndex q * SearchGrid.cd_columnCount cd
               + SearchGrid.cr_columnIndex q in
  if SearchGrid.cd_displayItemCount cd <=? index then None
  else match SearchGrid.cd_displayData cd with
       | SearchGrid.AggData groups => groups !! index
       | SearchGrid.AllData _ => None
       end.

(** The statistics computed by the first request of [qs] that renders the
    group with key [k]. *)
Fixpoint firstStats (k : string) (qs : list SearchGrid.CellRequest)
    : option SearchGrid.GroupStats :=
  match qs with
  | [] => None
  | q :: qs' =>
      match requestedGroup q with
      | Some (key, group) =>
          if decide (key = k)
          then Some (SearchGrid.cd_computeGroupStats (SearchGrid.cr_data q) group)
          else firstStats k qs'
      | None => firstStats k qs'
      end
  end.

End Cells.

(** ** The rest of the jar provider's interface (src/unnamed/part_001) *)

Module SpiderStatus.

(** [Omit<SpiderJarInfo, 'buffer'>]. *)
Record Status := {
  md5_hex : string;
  source : string;
  success : bool;
  cached : bool;
  timestamp : Z;
  size : nat;
  tried : nat;
}.

(** [getSpiderStatus] (lines 139-143), given the module variable [cache]. *)
Definition getSpiderStatus (cache : option SpiderJar.SpiderJarInfo)
    : option Status :=
  match cache with
  | None => None
  | Some c =>
      Some {| md5_hex := SpiderJar.md5_hex c; source := SpiderJar.source c;
              success := SpiderJar.success c; cached := SpiderJar.cached c;
              timestamp := SpiderJar.timestamp c; size := SpiderJar.size c;
              tried := SpiderJar.tried c |}
  end.

(** [getCandidates] (lines 145-147). *)
Definition getCandidates : list string := SpiderJar.CANDIDATES.

(** One call of [getSpiderJar]: its argument, the clock, and how the
    network answers during it. *)
Record Call := {
  forceRefresh : bool;
  now : Z;
  net : string -> SpiderJar.FetchOutcome;
}.

Section Calls.

Variable md5 : SpiderJar.Buffer -> string.
Variable from_base64 : string -> SpiderJar.Buffer.

Definition call (cache : option SpiderJar.SpiderJarInfo) (k : Call)
    : SpiderJar.Outcome :=
  SpiderJar.getSpiderJar md5 from_base64 (net k) (forceRefresh k) (now k) cache.

(** The module variable [cache] after a sequence of calls, one after the
    other. *)
Definition cacheAfter (cache : option SpiderJar.SpiderJarInfo)
    (ks : list Call) : option SpiderJar.SpiderJarInfo :=
  foldl (fun ch k => SpiderJar.cache_after (call ch k)) cache ks.

(** What a jar stored by [getSpiderJar] looks like. *)
Definition stored (j : SpiderJar.SpiderJarInfo) : Prop :=
  SpiderJar.cached j = false
  /\ SpiderJar.md5_hex j = md5 (SpiderJar.buffer j)
  /\ SpiderJar.size j = length (SpiderJar.buffer j)
  /\ 1 <= SpiderJar.tried j <= length SpiderJar.CANDIDATES
  /\ (if SpiderJar.success j
      then SpiderJar.CANDIDATES !! (SpiderJar.tried j - 1)
           = Some (SpiderJar.source j)
           /\ 1000 <= SpiderJar.size j
      else SpiderJar.source j = "fallback"
           /\ SpiderJar.buffer j = from_base64 SpiderJar.FALLBACK_JAR_BASE64
           /\ SpiderJar.tried j = length SpiderJar.CANDIDATES).

End Calls.

End SpiderStatus.

(** ** Invariants of the components *)

(** Every pending debounced callback captured values that pass its own
    test: it was scheduled under the same test of the same render. *)
Definition armed (c : SearchGrid.Component) : Prop :=
  Forall (fun t => match SearchGrid.callback t.2 with
                   | SearchGrid.Debounced r =>
                       negb (SearchGrid.r_isLoadingMore r)
                       && SearchGrid.r_hasNextPage r = true
                   | SearchGrid.Reveal _ => True
                   end) (SearchGrid.timers c).

(** The trigger's invariant in the current search grid: a pending debounced
    callback is the one [debounceRef] names, and timer ids are fresh. *)
Definition trigger_inv (c : SearchGrid.Component) : Prop :=
  Forall (fun t => SearchGrid.is_debounced (SearchGrid.callback t.2) = true ->
                   SearchGrid.debounceRef c = Some t.1) (SearchGrid.timers c)
  /\ Forall (fun t => t.1 < SearchGrid.nextTimer c) (SearchGrid.timers c).

(** At most one deferred call is pending, the one [debounceRef] names; the
    data length it captured leaves room for the current count. *)
Definition douban_inv (c : DoubanGrid.Component) : Prop :=
  DoubanGrid.INITIAL_BATCH_SIZE <= DoubanGrid.visibleItemCount c
  /\ (DoubanGrid.timers c = []
      \/ exists id t,
           DoubanGrid.timers c = [(id, t)]
           /\ DoubanGrid.debounceRef c = Some id
           /\ (DoubanGrid.r_displayItemCount (DoubanGrid.closure t)
               < DoubanGrid.r_dataLength (DoubanGrid.closure t) ->
               DoubanGrid.visibleItemCount c
               <= DoubanGrid.r_dataLength (DoubanGrid.closure t)
               /\ DoubanGrid.INITIAL_BATCH_SIZE
                  <= DoubanGrid.r_dataLength (DoubanGrid.closure t))).

(** Every pending callback captured the length of the current data source,
    and while any is pending the revealed count is within that length. *)
Definition search_inv (c : SearchGrid.Component) : Prop :=
  Forall (fun t => SearchGrid.captured_total (SearchGrid.callback t.2)
                   = SearchGrid.totalItemCount (SearchGrid.exposed c))
    (SearchGrid.timers c)
  /\ (SearchGrid.timers c <> [] ->
      SearchGrid.visibleItemCount c
      <= SearchGrid.totalItemCount (SearchGrid.exposed c)).

(** The host's timers in the search grid: ids are not reused, the id in
    [debounceRef] has been handed out, and the timer it names, while
    pending, is a debounced trigger. *)
Definition host_inv (c : SearchGrid.Component) : Prop :=
  NoDup (SearchGrid.timers c).*1
  /\ Forall (fun t => t.1 < SearchGrid.nextTimer c) (SearchGrid.timers c)
  /\ (forall id, SearchGrid.debounceRef c = Some id ->
                 id < SearchGrid.nextTimer c)
  /\ Forall (fun t => SearchGrid.debounceRef c = Some t.1 ->
                      SearchGrid.is_debounced (SearchGrid.callback t.2) = true)
       (SearchGrid.timers c).

(** While [isLoadingMore] is set, the reveal that will clear it is
    pending. *)
Definition flag_inv (c : SearchGrid.Component) : Prop :=
  SearchGrid.isLoadingMore c = true ->
  Exists (fun t => SearchGrid.is_debounced (SearchGrid.callback t.2) = false)
    (SearchGrid.timers c).

(** The revealed count is at least the initial batch, and so is any cap a
    pending callback can apply. *)
Definition floor_inv (c : SearchGrid.Component) : Prop :=
  SearchGrid.INITIAL_BATCH_SIZE <= SearchGrid.visibleItemCount c
  /\ Forall (fun t => match SearchGrid.callback t.2 with
                      | SearchGrid.Debounced r =>
                          SearchGrid.r_hasNextPage r = true ->
                          SearchGrid.INITIAL_BATCH_SIZE
                          < SearchGrid.r_totalItemCount r
                      | SearchGrid.Reveal total =>
                          SearchGrid.INITIAL_BATCH_SIZE < total
                      end) (SearchGrid.timers c).

(** The condition of line 186 of the Douban grid under which a
    notification schedules the deferred call. *)
Definition douban_near_end (r : DoubanGrid.Render) (rowStopIndex : nat) : bool :=
  (Z.of_nat (DoubanGrid.r_rowCount r) - DoubanGrid.LOAD_MORE_THRESHOLD
   <=? Z.of_nat rowStopIndex)%Z
  && DoubanGrid.r_hasNextPage r && negb (DoubanGrid.r_isLoadingMore r).

(** The timers that survive the [clearTimeout(debounceRef.current)] of
    lines 182-184 of the Douban grid. *)
Definition douban_kept_by_notification (c : DoubanGrid.Component)
    : list (nat * DoubanGrid.Timer) :=
  match DoubanGrid.debounceRef c with
  | Some id => filter (fun t => t.1 <> id) (DoubanGrid.timers c)
  | None => DoubanGrid.timers c
  end.

(** The timers that survive the [clearTimeout(debounceRef.current)] of
    lines 270-272 of the search grid. *)
Definition kept_by_notification (c : SearchGrid.Component)
    : list (nat * SearchGrid.Timer) :=
  match SearchGrid.debounceRef c with
  | Some id => filter (fun t => t.1 <> id) (SearchGrid.timers c)
  | None => SearchGrid.timers c
  end.

(** * Properties *)

(** ** Arithmetic and array facts *)

Lemma slice_from_zero {A : Type} (l : list A) (n : nat) :
  JS.slice l 0 n = take n l.
Proof. unfold JS.slice. by rewrite Nat.sub_0_r, drop_0. Qed.

(** [ceil_div a b] is the least [q] with [a <= q * b]. *)
Lemma ceil_div_upper (a b : nat) : 1 <= b -> a <= JS.ceil_div a b * b.
Proof.
  intros Hb. unfold JS.ceil_div.
  pose proof (Nat.div_mod (a + (b - 1)) b ltac:(lia)) as Hdm.
  pose proof (Nat.mod_upper_bound (a + (b - 1)) b ltac:(lia)) as Hlt.
  nia.
Qed.

Lemma ceil_div_least (a b q : nat) : 1 <= b -> a <= q * b -> JS.ceil_div a b <= q.
Proof.
  intros Hb Hq. unfold JS.ceil_div.
  apply Nat.lt_succ_r, Nat.Div0.div_lt_upper_bound. nia.
Qed.

Lemma filter_empty {A : Type} (P : A -> Prop) `{!forall x, Decision (P x)}
    (l : list A) :
  Forall (fun x => ~ P x) l -> filter P l = [].
Proof.
  induction 1 as [|x l Hx _ IH]; [done|].
  by rewrite filter_cons_False.
Qed.

Lemma ceil_div_zero (b : nat) : 1 <= b -> JS.ceil_div 0 b = 0.
Proof.
  intros Hb. pose proof (ceil_div_least 0 b 0 Hb). lia.
Qed.

Lemma ceil_div_pos (a b : nat) : 1 <= b -> 1 <= a -> 1 <= JS.ceil_div a b.
Proof.
  intros Hb Ha. pose proof (ceil_div_upper a b Hb). nia.
Qed.

(** ** Trimming *)

Lemma strip_one_shorter (ws : list (list ascii)) (l l' : list ascii) :
  Forall (fun w => w <> []) ws ->
  JS.strip_one ws l = Some l' -> length l' < length l.
Proof.
  intros Hws. unfold JS.strip_one.
  destruct (List.find _ ws) as [w|] eqn:Hfind; [|done].
  intros [= <-]. apply find_some in Hfind as [Hin Hw].
  apply bool_decide_eq_true_1 in Hw.
  assert (Hne : w <> []).
  { rewrite Forall_forall in Hws. apply Hws. by apply list_elem_of_In. }
  assert (Hlen : length w <= length l).
  { rewrite <- Hw at 1. rewrite length_take. lia. }
  rewrite length_drop. destruct w; [done|]. cbn in *. lia.
Qed.

(** The fuel of [strip] suffices: what is left starts with none of the
    code points to remove. *)
Lemma strip_exhausts (fuel : nat) (ws : list (list ascii)) (l : list ascii) :
  Forall (fun w => w <> []) ws ->
  length l <= fuel ->
  JS.strip_one ws (JS.strip fuel ws l) = None.
Proof.
  intros Hws. revert l. induction fuel as [|fuel IH]; intros l Hl; cbn.
  - destruct (JS.strip_one ws l) as [l'|] eqn:Hone; [|done].
    apply strip_one_shorter in Hone; [lia | done].
  - destruct (JS.strip_one ws l) as [l'|] eqn:Hone; [|done].
    apply IH. apply strip_one_shorter in Hone; [lia | done].
Qed.

Lemma trim_start_exhausts (l : list ascii) :
  JS.strip_one (JS.WhiteSpace ++ JS.LineTerminator) (JS.trim_start l) = None.
Proof.
  apply strip_exhausts; [|done].
  apply (bool_decide_unpack _). by vm_compute.
Qed.

Lemma trim_end_exhausts (l : list ascii) :
  JS.strip_one (reverse <$> JS.WhiteSpace ++ JS.LineTerminator)
    (reverse (JS.trim_end l)) = None.
Proof.
  unfold JS.trim_end. rewrite reverse_involutive.
  apply strip_exhausts; [|by rewrite length_reverse].
  apply (bool_decide_unpack _). by vm_compute.
Qed.

(** ASCII and other white space goes at both ends, inner white space and
    everything else stays: an ideographic space (U+3000), a no-break space
    (U+00A0) and a byte-order mark (U+FEFF) around a title. *)
Example trim_scenarios :
  JS.trim "  a b	" = "a b"
  /\ JS.trim "　中文 标题　" = "中文 标题"
  /\ JS.trim (String.string_of_list_ascii
                (JS.utf8 [194; 160; 239; 187; 191; 66; 194; 160])) = "B"
  /\ JS.trim "B" = "B"
  /\ JS.trim " 
 " = "".
Proof. repeat split; vm_compute; reflexivity. Qed.

(** ** The exposure computation *)

(** C2.  For every data source, [revealedCount] and [remoteHasMore], the
    exposure computation yields [exposedCount = min(revealedCount, len)],
    the exposed slice is the first [exposedCount] entries of the data
    source, and [hasNextPage = (exposedCount < len) || remoteHasMore].  The
    Douban grid takes [remoteHasMore] from its [hasMore] prop.  The search
    grid has no remote source, which is the case [remoteHasMore = false];
    its data source is the list of groups in the aggregated view and the
    list of results in the flat view. *)
Theorem exposure_is_capped_prefix :
  forall (revealedCount : nat),
    (forall (dataSource : list DoubanGrid.DoubanItem) (remoteHasMore : bool),
       let e := DoubanGrid.exposure revealedCount dataSource remoteHasMore in
       DoubanGrid.displayItemCount e = Nat.min revealedCount (length dataSource)
       /\ DoubanGrid.displayData e = take (DoubanGrid.displayItemCount e) dataSource
       /\ length (DoubanGrid.displayData e) = DoubanGrid.displayItemCount e
       /\ DoubanGrid.hasNextPage e
          = (DoubanGrid.displayItemCount e <? length dataSource) || remoteHasMore)
    /\ (forall (agg : list (string * list SearchGrid.SearchResult))
               (flat : list SearchGrid.SearchResult),
       let e := SearchGrid.exposure SearchGrid.Agg agg flat revealedCount in
       SearchGrid.currentData e = SearchGrid.AggData agg
       /\ SearchGrid.totalItemCount e = length agg
       /\ SearchGrid.displayItemCount e = Nat.min revealedCount (length agg)
       /\ SearchGrid.displayData e
          = SearchGrid.AggData (take (SearchGrid.displayItemCount e) agg)
       /\ length (take (SearchGrid.displayItemCount e) agg)
          = SearchGrid.displayItemCount e
       /\ SearchGrid.hasNextPage e
          = (SearchGrid.displayItemCount e <? length agg) || false)
    /\ (forall (agg : list (string * list SearchGrid.SearchResult))
               (flat : list SearchGrid.SearchResult),
       let e := SearchGrid.exposure SearchGrid.All agg flat revealedCount in
       SearchGrid.currentData e = SearchGrid.AllData flat
       /\ SearchGrid.totalItemCount e = length flat
       /\ SearchGrid.displayItemCount e = Nat.min revealedCount (length flat)
       /\ SearchGrid.displayData e
          = SearchGrid.AllData (take (SearchGrid.displayItemCount e) flat)
       /\ length (take (SearchGrid.displayItemCount e) flat)
          = SearchGrid.displayItemCount e
       /\ SearchGrid.hasNextPage e
          = (SearchGrid.displayItemCount e <? length flat) || false).
Proof.
  intros n. split; [|split].
  - intros data more. cbn. rewrite slice_from_zero.
    repeat split. rewrite length_take. lia.
  - intros agg flat. cbn. rewrite orb_false_r, slice_from_zero, length_take.
    repeat split. lia.
  - intros agg flat. cbn. rewrite orb_false_r, slice_from_zero, length_take.
    repeat split. lia.
Qed.

(** ** Window geometry *)

(** C7, as stated, fails for the buffered policy on an empty exposure: with
    four columns the search grid has 8 rows, not the 1 + 8 that adding the
    buffer rows to the exact row count gives. *)
Lemma buffered_rowCount_differs_on_empty_exposure :
  SearchGrid.rowCount 0 4 = 8
  /\ DoubanGrid.rowCount 0 4 + JS.ceil_div 30 4 = 9.
Proof. split; reflexivity. Qed.

(** C7, amended.  For [columnCount >= 1] the exact policy gives
    [max(1, ceil(min(revealedCount, N) / columnCount))], the ceiling being
    the least number of rows that holds the exposed items.  The buffered
    policy gives [max(1, ceil(exposedCount / columnCount) + ceil(30 /
    columnCount))], which is the data rows plus exactly the buffer rows; it
    exceeds the exact row count by exactly the buffer rows when at least one
    item is exposed, and by one row less when none is. *)
Theorem rowCount_policies :
  forall (revealedCount N columnCount : nat),
    1 <= columnCount ->
    let exposedCount := Nat.min revealedCount N in
    let rows := JS.ceil_div exposedCount columnCount in
    let bufferRows := JS.ceil_div 30 columnCount in
    (exposedCount <= rows * columnCount
     /\ forall q, exposedCount <= q * columnCount -> rows <= q)
    /\ DoubanGrid.rowCount exposedCount columnCount = Nat.max 1 rows
    /\ LegacySearchGrid.rowCount exposedCount columnCount = Nat.max 1 rows
    /\ 1 <= bufferRows
    /\ SearchGrid.rowCount exposedCount columnCount = rows + bufferRows
    /\ (1 <= exposedCount ->
        SearchGrid.rowCount exposedCount columnCount
        = DoubanGrid.rowCount exposedCount columnCount + bufferRows)
    /\ (exposedCount = 0 ->
        SearchGrid.rowCount exposedCount columnCount + 1
        = DoubanGrid.rowCount exposedCount columnCount + bufferRows).
Proof.
  intros revealed N cols Hc exposedCount rows bufferRows.
  assert (Hbuf : 1 <= bufferRows) by (apply ceil_div_pos; lia).
  split; [split|].
  - by apply ceil_div_upper.
  - intros q. by apply ceil_div_least.
  - unfold DoubanGrid.rowCount, LegacySearchGrid.rowCount, SearchGrid.rowCount.
    fold rows bufferRows. repeat split; try lia.
    + intros Hpos. pose proof (ceil_div_pos exposedCount cols Hc Hpos).
      fold rows in H. lia.
    + intros Hz. subst rows. rewrite Hz, ceil_div_zero by done. lia.
Qed.

Lemma rowCount_policies_witness :
  DoubanGrid.rowCount (Nat.min 16 40) 4 = Nat.max 1 (JS.ceil_div (Nat.min 16 40) 4)
  /\ SearchGrid.rowCount (Nat.min 12 40) 4
     = JS.ceil_div (Nat.min 12 40) 4 + JS.ceil_div 30 4.
Proof.
  destruct (rowCount_policies 16 40 4) as (_ & H16 & _); [lia|].
  destruct (rowCount_policies 12 40 4) as (_ & _ & _ & _ & H12 & _); [lia|].
  split; [exact H16 | exact H12].
Defined.

(** ** The cell resolver *)

(** C9.  For every cell coordinate, with [index = row * columnCount +
    column]: when [index >= exposedCount], or the exposed slice holds no
    item at [index], the resolver returns the empty placeholder carrying the
    cell's own [style] (its geometric slot).  It returns normally: no
    exception, no write to the statistics cache, no call of
    [computeGroupStats]. *)
Theorem out_of_range_cell_is_placeholder :
  forall (rowIndex columnIndex columnCount exposedCount : nat) (style : Style),
    let index := rowIndex * columnCount + columnIndex in
    (forall (exposedSlice : list DoubanGrid.DoubanItem)
            (type : DoubanGrid.ContentType),
        exposedCount <= index \/ exposedSlice !! index = None ->
        DoubanGrid.CellComponent columnIndex rowIndex style exposedSlice type
          columnCount exposedCount
        = DoubanGrid.EmptyCell style)
    /\ (forall (cd : SearchGrid.CellData) (st : SearchGrid.Store),
        SearchGrid.cd_columnCount cd = columnCount ->
        SearchGrid.cd_displayItemCount cd = exposedCount ->
        exposedCount <= index
        \/ SearchGrid.data_length (SearchGrid.cd_displayData cd) <= index ->
        SearchGrid.CellComponent columnIndex rowIndex style cd st
        = (SearchGrid.EmptyCell style, st)).
Proof.
  intros row col cols count style index. split.
  - intros slice type H. unfold DoubanGrid.CellComponent. fold index.
    destruct (Nat.leb_spec count index) as [|Hlt]; [done|].
    destruct H as [H|H]; [lia|]. by rewrite H.
  - intros cd st Hcols Hcount H. unfold SearchGrid.CellComponent.
    rewrite Hcols, Hcount. fold index.
    destruct (Nat.leb_spec count index) as [|Hlt]; [done|].
    destruct H as [H|H]; [lia|].
    destruct (SearchGrid.cd_displayData cd) as [g|r]; cbn in H;
      by rewrite (lookup_ge_None_2 _ _ H).
Qed.

(** Sixteen items in four columns: the cell at row 4, column 0 is past the
    exposed items, and a slice of three items has nothing at row 1,
    column 1. *)
Lemma out_of_range_cell_is_placeholder_witness :
  DoubanGrid.CellComponent 0 4 Samples.slot (Samples.doubanItems 16)
    DoubanGrid.Movie 4 16
  = DoubanGrid.EmptyCell Samples.slot
  /\ DoubanGrid.CellComponent 1 1 Samples.slot (Samples.doubanItems 3)
       DoubanGrid.Tv 4 16
     = DoubanGrid.EmptyCell Samples.slot
  /\ SearchGrid.CellComponent 1 0 Samples.slot
       (Samples.oneGroup "k" (Samples.searchResults 2)) Samples.emptyStore
     = (SearchGrid.EmptyCell Samples.slot, Samples.emptyStore).
Proof.
  destruct (out_of_range_cell_is_placeholder 4 0 4 16 Samples.slot) as [H1 _].
  destruct (out_of_range_cell_is_placeholder 1 1 4 16 Samples.slot) as [H2 _].
  destruct (out_of_range_cell_is_placeholder 0 1 4 1 Samples.slot) as [_ H3].
  split; [apply H1; left; cbn; lia|].
  split; [apply H2; right; reflexivity|].
  apply H3; [reflexivity | reflexivity | left; cbn; lia].
Defined.

(** ** The spider.jar provider *)

Section ProviderFacts.

Variable md5 : SpiderJar.Buffer -> string.
Variable from_base64 : string -> SpiderJar.Buffer.
Variable net : string -> SpiderJar.FetchOutcome.

Lemma fetchRemote_rejects (outcome : SpiderJar.FetchOutcome) :
  SpiderJar.fetchRemote outcome = SpiderJar.Settled None
  <-> outcome = SpiderJar.Rejected
      \/ exists ok status body,
           outcome = SpiderJar.Response ok status body
           /\ (ok = false \/ 400 <= status \/ body = SpiderJar.BodyRejected
               \/ exists ab, body = SpiderJar.Body ab /\ length ab < 1000).
Proof.
  unfold SpiderJar.fetchRemote.
  destruct outcome as [|ok status body]; [naive_solver|].
  destruct ok; [|naive_solver].
  destruct (Nat.leb_spec 400 status) as [Hs|Hs]; [naive_solver|].
  cbn [negb orb].
  destruct body as [| |ab]; [naive_solver| |].
  - split; [done|]. intros [|(ok & st & b & Heq & Hc)]; [done|].
    simplify_eq. destruct Hc as [|[|[|(ab' & ? & ?)]]]; try done. lia.
  - destruct (Nat.ltb_spec (length ab) 1000) as [Hl|Hl]; [naive_solver|].
    split; [done|]. intros [|(ok & st & b & Heq & Hc)]; [done|].
    simplify_eq. destruct Hc as [|[|[|(ab' & ? & ?)]]]; try done; try lia.
    simplify_eq. lia.
Qed.

Lemma fetchRemote_accepts (outcome : SpiderJar.FetchOutcome)
    (buf : SpiderJar.Buffer) :
  SpiderJar.fetchRemote outcome = SpiderJar.Settled (Some buf)
  <-> exists status,
        outcome = SpiderJar.Response true status (SpiderJar.Body buf)
        /\ status < 400 /\ 1000 <= length buf.
Proof.
  unfold SpiderJar.fetchRemote.
  destruct outcome as [|ok status body];
    [split; [done | by intros (? & ? & _)]|].
  destruct ok; [|split; [done | by intros (? & ? & _)]].
  destruct (Nat.leb_spec 400 status) as [Hs|Hs]; cbn [negb orb].
  { split; [done|]. intros (st & Heq & ? & ?). simplify_eq. lia. }
  destruct body as [| |ab]; [split; [done | by intros (? & ? & _)]..|].
  destruct (Nat.ltb_spec (length ab) 1000) as [Hl|Hl].
  { split; [done|]. intros (st & Heq & ? & ?). simplify_eq. lia. }
  split.
  - intros [= <-]. by exists status.
  - intros (st & Heq & ? & ?). by simplify_eq.
Qed.

(** [fetchRemote] stays pending exactly on a response that is [ok], has a
    status below 400, and whose body never ends. *)
Lemma fetchRemote_pending (outcome : SpiderJar.FetchOutcome) :
  SpiderJar.fetchRemote outcome = SpiderJar.Pending
  <-> exists status,
        outcome = SpiderJar.Response true status SpiderJar.BodyPending
        /\ status < 400.
Proof.
  unfold SpiderJar.fetchRemote.
  destruct outcome as [|ok status body];
    [split; [done | by intros (? & ? & _)]|].
  destruct ok; [|split; [done | by intros (? & ? & _)]].
  destruct (Nat.leb_spec 400 status) as [Hs|Hs]; cbn [negb orb].
  { split; [done|]. intros (st & Heq & ?). simplify_eq. lia. }
  destruct body as [| |ab].
  - split; [done | by intros (? & ? & _)].
  - split; [|done]. intros _. by exists status.
  - split; [by destruct (_ <? _) | by intros (? & ? & _)].
Qed.

(** The loop requests the candidates in order and stops at the first one
    that [fetchRemote] accepts, or at the first one whose body never
    ends. *)
Lemma probe_spec (now : Z) (urls : list string) (tried : nat)
    (log : list string) :
  match SpiderJar.probe md5 net now urls tried log with
  | (SpiderJar.Settled (Some info), t, log') =>
      exists n url buf,
        urls !! n = Some url
        /\ SpiderJar.fetchRemote (net url) = SpiderJar.Settled (Some buf)
        /\ (forall m u, m < n -> urls !! m = Some u ->
                        SpiderJar.fetchRemote (net u) = SpiderJar.Settled None)
        /\ log' = log ++ take (S n) urls
        /\ t = tried + S n
        /\ info = SpiderJar.remote_jar md5 now url buf (tried + S n)
  | (SpiderJar.Settled None, t, log') =>
      Forall (fun u => SpiderJar.fetchRemote (net u) = SpiderJar.Settled None)
        urls
      /\ log' = log ++ urls
      /\ t = tried + length urls
  | (SpiderJar.Pending, t, log') =>
      exists n url,
        urls !! n = Some url
        /\ SpiderJar.fetchRemote (net url) = SpiderJar.Pending
        /\ (forall m u, m < n -> urls !! m = Some u ->
                        SpiderJar.fetchRemote (net u) = SpiderJar.Settled None)
        /\ log' = log ++ take (S n) urls
        /\ t = tried + S n
  end.
Proof.
  revert tried log. induction urls as [|url rest IH]; intros tried log; cbn.
  - split; [constructor|]. rewrite app_nil_r. split; [done | lia].
  - destruct (SpiderJar.fetchRemote (net url)) as [[buf|]|] eqn:Hf.
    + exists 0, url, buf. cbn. rewrite Nat.add_1_r.
      repeat split; try done. intros m u Hm. lia.
    + specialize (IH (tried + 1) (log ++ [url])).
      destruct (SpiderJar.probe md5 net now rest (tried + 1) (log ++ [url]))
        as [[[[info|]|] t] log'].
      * destruct IH as (n & u & buf & Hn & Hu & Hbefore & Hlog & Ht & Hinfo).
        exists (S n), u, buf. cbn. repeat split; try done.
        -- intros [|m] u' Hm Hlook; cbn in Hlook; [by simplify_eq|].
           apply (Hbefore m); [lia | done].
        -- by rewrite Hlog, <- app_assoc.
        -- lia.
        -- rewrite Hinfo. f_equal. lia.
      * destruct IH as (Hall & Hlog & Ht). repeat split.
        -- by constructor.
        -- by rewrite Hlog, <- app_assoc.
        -- cbn. lia.
      * destruct IH as (n & u & Hn & Hu & Hbefore & Hlog & Ht).
        exists (S n), u. cbn. repeat split; try done.
        -- intros [|m] u' Hm Hlook; cbn in Hlook; [by simplify_eq|].
           apply (Hbefore m); [lia | done].
        -- by rewrite Hlog, <- app_assoc.
        -- lia.
    + exists 0, url. cbn. rewrite Nat.add_1_r.
      repeat split; try done. intros m u Hm. lia.
Qed.

Lemma cache_hit_cases (forceRefresh : bool) (now : Z)
    (cache : option SpiderJar.SpiderJarInfo) :
  match SpiderJar.cache_hit forceRefresh now cache with
  | Some c => cache = Some c /\ forceRefresh = false
              /\ (now - SpiderJar.timestamp c < SpiderJar.TTL)%Z
  | None => forceRefresh = true \/ cache = None
            \/ exists c, cache = Some c
                         /\ (SpiderJar.TTL <= now - SpiderJar.timestamp c)%Z
  end.
Proof.
  unfold SpiderJar.cache_hit. destruct cache as [c|]; [|by right; left].
  destruct forceRefresh; cbn [negb andb]; [by left|].
  destruct (Z.ltb_spec (now - SpiderJar.timestamp c) SpiderJar.TTL); [done|].
  right. right. by exists c.
Qed.

(** Every way a call of [getSpiderJar] can go.  Within the TTL and without
    [forceRefresh] it answers from the cache.  Otherwise it requests the
    candidates in their declared order and ends at the first whose
    response is accepted, or with the embedded jar when every candidate is
    rejected, or never, at the first candidate whose body does not end. *)
Lemma getSpiderJar_cases (forceRefresh : bool) (now : Z)
    (cache : option SpiderJar.SpiderJarInfo) :
  let out := SpiderJar.getSpiderJar md5 from_base64 net forceRefresh now cache in
  (exists c, cache = Some c /\ forceRefresh = false
             /\ (now - SpiderJar.timestamp c < SpiderJar.TTL)%Z
             /\ out = {| SpiderJar.resolved :=
                           SpiderJar.Settled (SpiderJar.mark_cached c);
                         SpiderJar.cache_after := Some c;
                         SpiderJar.requested := [] |})
  \/ ((forceRefresh = true \/ cache = None
       \/ exists c, cache = Some c
                    /\ (SpiderJar.TTL <= now - SpiderJar.timestamp c)%Z)
      /\ ((exists n url buf,
              SpiderJar.CANDIDATES !! n = Some url
              /\ SpiderJar.fetchRemote (net url) = SpiderJar.Settled (Some buf)
              /\ (forall m u, m < n -> SpiderJar.CANDIDATES !! m = Some u ->
                    SpiderJar.fetchRemote (net u) = SpiderJar.Settled None)
              /\ out = {| SpiderJar.resolved :=
                            SpiderJar.Settled
                              (SpiderJar.remote_jar md5 now url buf (S n));
                          SpiderJar.cache_after :=
                            Some (SpiderJar.remote_jar md5 now url buf (S n));
                          SpiderJar.requested :=
                            take (S n) SpiderJar.CANDIDATES |})
          \/ (Forall (fun u => SpiderJar.fetchRemote (net u)
                               = SpiderJar.Settled None) SpiderJar.CANDIDATES
              /\ out = {| SpiderJar.resolved :=
                            SpiderJar.Settled
                              (SpiderJar.fallback_jar md5 from_base64 now
                                 (length SpiderJar.CANDIDATES));
                          SpiderJar.cache_after :=
                            Some (SpiderJar.fallback_jar md5 from_base64 now
                                    (length SpiderJar.CANDIDATES));
                          SpiderJar.requested := SpiderJar.CANDIDATES |})
          \/ (exists n url,
                SpiderJar.CANDIDATES !! n = Some url
                /\ SpiderJar.fetchRemote (net url) = SpiderJar.Pending
                /\ (forall m u, m < n -> SpiderJar.CANDIDATES !! m = Some u ->
                      SpiderJar.fetchRemote (net u) = SpiderJar.Settled None)
                /\ out = {| SpiderJar.resolved := SpiderJar.Pending;
                            SpiderJar.cache_after := cache;
                            SpiderJar.requested :=
                              take (S n) SpiderJar.CANDIDATES |}))).
Proof.
  intros out. subst out. unfold SpiderJar.getSpiderJar.
  pose proof (cache_hit_cases forceRefresh now cache) as Hhit.
  destruct (SpiderJar.cache_hit forceRefresh now cache) as [c|].
  - left. destruct Hhit as (-> & -> & Hlt). by exists c.
  - right. split; [done|].
    pose proof (probe_spec now SpiderJar.CANDIDATES 0 []) as Hp.
    destruct (SpiderJar.probe md5 net now SpiderJar.CANDIDATES 0 [])
      as [[[[info|]|] t] log].
    + destruct Hp as (n & url & buf & Hn & Hu & Hbefore & -> & _ & ->).
      left. exists n, url, buf. by repeat split.
    + destruct Hp as (Hall & -> & ->). right. left. by split.
    + destruct Hp as (n & url & Hn & Hu & Hbefore & -> & _).
      right. right. exists n, url. by repeat split.
Qed.

(** C10.  [getSpiderJar] does not always resolve.  On a call that misses
    the cache, let a candidate answer [ok] with a status below 400 and a
    body that never ends, every candidate before it having been rejected.
    Then the promise of [getSpiderJar] stays pending: the candidates up to
    that one have been requested, none after it is tried, the embedded jar
    is not returned and the cache is left as it was.  The abort timer set
    at line 54 for [timeoutMs] is cleared at line 72, before the body is
    awaited at line 75. *)
Theorem getSpiderJar_pending_on_endless_body (forceRefresh : bool) (now : Z)
    (cache : option SpiderJar.SpiderJarInfo) (n : nat) (url : string)
    (status : nat) :
  SpiderJar.cache_hit forceRefresh now cache = None ->
  SpiderJar.CANDIDATES !! n = Some url ->
  net url = SpiderJar.Response true status SpiderJar.BodyPending ->
  status < 400 ->
  (forall m u, m < n -> SpiderJar.CANDIDATES !! m = Some u ->
               SpiderJar.fetchRemote (net u) = SpiderJar.Settled None) ->
  let out := SpiderJar.getSpiderJar md5 from_base64 net forceRefresh now cache in
  SpiderJar.resolved out = SpiderJar.Pending
  /\ SpiderJar.requested out = take (S n) SpiderJar.CANDIDATES
  /\ SpiderJar.cache_after out = cache.
Proof.
  intros Hmiss Hn Hnet Hstatus Hbefore out.
  assert (Hpend : SpiderJar.fetchRemote (net url) = SpiderJar.Pending).
  { apply fetchRemote_pending. by exists status. }
  assert (Hsame : forall k v, SpiderJar.CANDIDATES !! k = Some v ->
            SpiderJar.fetchRemote (net v) <> SpiderJar.Settled None ->
            (forall m u, m < k -> SpiderJar.CANDIDATES !! m = Some u ->
               SpiderJar.fetchRemote (net u) = SpiderJar.Settled None) ->
            k = n).
  { intros k v Hk Hv Hbefore'.
    destruct (Nat.lt_trichotomy k n) as [Hlt|[->|Hgt]]; [|done|].
    - by destruct Hv; apply (Hbefore k).
    - specialize (Hbefore' n url Hgt Hn). congruence. }
  destruct (getSpiderJar_cases forceRefresh now cache)
    as [(c & -> & -> & Hlt & _)|(_ & [Hc|[Hc|Hc]])].
  - unfold SpiderJar.cache_hit in Hmiss. cbn [negb andb] in Hmiss.
    by destruct (Z.ltb_spec (now - SpiderJar.timestamp c) SpiderJar.TTL);
      [|lia].
  - destruct Hc as (k & v & buf & Hk & Hv & Hbefore' & _).
    assert (k = n) as -> by (apply (Hsame k v); [done | congruence | done]).
    congruence.
  - destruct Hc as (Hall & _).
    rewrite Forall_forall in Hall.
    specialize (Hall url (list_elem_of_lookup_2 _ _ _ Hn)). congruence.
  - destruct Hc as (k & v & Hk & Hv & Hbefore' & Hout).
    assert (k = n) as -> by (apply (Hsame k v); [done | congruence | done]).
    fold out in Hout. by rewrite Hout.
Qed.

(** A call within the TTL that does not force a refresh answers from the
    cache and leaves it as it is; in particular the embedded jar, once
    returned, is what later calls within the TTL get. *)
Lemma getSpiderJar_within_TTL (now : Z) (c : SpiderJar.SpiderJarInfo) :
  (now - SpiderJar.timestamp c < SpiderJar.TTL)%Z ->
  SpiderJar.getSpiderJar md5 from_base64 net false now (Some c)
  = {| SpiderJar.resolved := SpiderJar.Settled (SpiderJar.mark_cached c);
       SpiderJar.cache_after := Some c;
       SpiderJar.requested := [] |}.
Proof.
  intros Hlt. unfold SpiderJar.getSpiderJar, SpiderJar.cache_hit. cbn [negb andb].
  by destruct (Z.ltb_spec (now - SpiderJar.timestamp c) SpiderJar.TTL);
    [|lia].
Qed.

End ProviderFacts.

Lemma getSpiderJar_pending_on_endless_body_witness :
  let out := SpiderJar.getSpiderJar Samples.digest Samples.decode
               Samples.stalled false 1000%Z None in
  SpiderJar.resolved out = SpiderJar.Pending
  /\ SpiderJar.requested out
     = ["https://gitcode.net/qq_26898231/TVBox/-/raw/main/JAR/XC.jar"]
  /\ SpiderJar.cache_after out = None.
Proof.
  apply (getSpiderJar_pending_on_endless_body Samples.digest Samples.decode
           Samples.stalled false 1000%Z None 0
           "https://gitcode.net/qq_26898231/TVBox/-/raw/main/JAR/XC.jar" 200).
  - reflexivity.
  - reflexivity.
  - reflexivity.
  - lia.
  - intros m u Hm. lia.
Defined.

(** The third candidate is the first to be accepted: three requests, in the
    declared order.  On a dead network all seven are requested and the
    embedded jar is returned and cached; a second call an hour later gets it
    from the cache without a request. *)
Example getSpiderJar_scenarios :
  let get := SpiderJar.getSpiderJar Samples.digest Samples.decode in
  let first := get Samples.thirdAnswers false 1000%Z None in
  let dead := get Samples.offline false 1000%Z None in
  let again :=
    get Samples.offline false 3601000%Z (SpiderJar.cache_after dead) in
  let jar out := match SpiderJar.resolved out with
                 | SpiderJar.Settled j =>
                     Some (SpiderJar.source j, SpiderJar.success j,
                           SpiderJar.cached j, SpiderJar.tried j,
                           SpiderJar.size j)
                 | SpiderJar.Pending => None
                 end in
  SpiderJar.requested first = take 3 SpiderJar.CANDIDATES
  /\ jar first
     = Some ("https://cdn.jsdelivr.net/gh/hjdhnx/dr_py@main/js/drpy.jar",
             true, false, 3, 1000)
  /\ SpiderJar.requested dead = SpiderJar.CANDIDATES
  /\ jar dead = Some ("fallback", false, false, 7, 300)
  /\ SpiderJar.cache_after dead
     = match SpiderJar.resolved dead with
       | SpiderJar.Settled j => Some j
       | SpiderJar.Pending => None
       end
  /\ SpiderJar.requested again = []
  /\ jar again = Some ("fallback", false, true, 7, 300).
Proof. cbv zeta. repeat split; vm_compute; reflexivity. Qed.

(** ** The progressive reveal controller *)

(** C1, as stated, fails on both components.  In the search grid, 12 of 40
    local results being exposed, a call neither raises [visibleItemCount]
    nor leaves the in-flight flag alone: it sets the flag and defers the
    reveal to a timer.  In the Douban grid, all 16 local items being exposed
    and the remote having more, a call invokes [onLoadMore] but sets no
    flag. *)
Lemma loadMoreItems_is_not_requestMore :
  let s := SearchGrid.mount (Samples.searchResults 40) [] SearchGrid.All 4 in
  let d := DoubanGrid.mount (Samples.doubanItems 16) false true 4 in
  Spec.requestMore SearchGrid.LOAD_MORE_BATCH_SIZE 40 false (Spec.ofSearch s)
  = ({| Spec.revealedCount := 20; Spec.remoteLoadInFlight := false |}, 0)
  /\ Spec.ofSearch (SearchGrid.loadMoreItems 0 (SearchGrid.render s) s)
     = {| Spec.revealedCount := 12; Spec.remoteLoadInFlight := true |}
  /\ Spec.requestMore DoubanGrid.LOAD_MORE_BATCH_SIZE 16 true (Spec.ofDouban d)
     = ({| Spec.revealedCount := 16; Spec.remoteLoadInFlight := true |}, 1)
  /\ Spec.ofDouban (DoubanGrid.loadMoreItems (DoubanGrid.render d) d)
     = {| Spec.revealedCount := 16; Spec.remoteLoadInFlight := false |}
  /\ DoubanGrid.onLoadMoreCalls
       (DoubanGrid.loadMoreItems (DoubanGrid.render d) d) = 1.
Proof. repeat split. Qed.

(** C1, amended.  A call of [loadMoreItems] sees the values of the render
    [r] that created it.

    Douban grid: when [isLoadingMore] is set the call changes nothing;
    otherwise, when [displayItemCount < doubanData.length], it raises
    [visibleItemCount] to [min(visibleItemCount + 16, doubanData.length)] at
    once and does not call [onLoadMore]; otherwise, when [hasMore], it calls
    [onLoadMore] once and changes nothing of its own (the in-flight flag is
    a prop); otherwise it changes nothing.

    Search grid: when [isLoadingMore] is set or nothing more is local the
    call changes nothing; otherwise it sets [isLoadingMore], leaves
    [visibleItemCount], and leaves one more timer pending, due in 100 ms,
    whose callback raises [visibleItemCount] to [min(visibleItemCount + 8,
    totalItemCount of r)] and clears [isLoadingMore]. *)
Theorem loadMoreItems_cases :
  (forall (r : DoubanGrid.Render) (c : DoubanGrid.Component),
      let c' := DoubanGrid.loadMoreItems r c in
      (DoubanGrid.r_isLoadingMore r = true -> c' = c)
      /\ (DoubanGrid.r_isLoadingMore r = false ->
          DoubanGrid.r_displayItemCount r < DoubanGrid.r_dataLength r ->
          DoubanGrid.visibleItemCount c'
          = Nat.min (DoubanGrid.visibleItemCount c
                     + DoubanGrid.LOAD_MORE_BATCH_SIZE)
                    (DoubanGrid.r_dataLength r)
          /\ DoubanGrid.onLoadMoreCalls c' = DoubanGrid.onLoadMoreCalls c
          /\ c' = DoubanGrid.setVisibleItemCount
                    (fun _ => DoubanGrid.visibleItemCount c') c)
      /\ (DoubanGrid.r_isLoadingMore r = false ->
          DoubanGrid.r_dataLength r <= DoubanGrid.r_displayItemCount r ->
          DoubanGrid.r_hasMore r = true ->
          DoubanGrid.onLoadMoreCalls c' = S (DoubanGrid.onLoadMoreCalls c)
          /\ DoubanGrid.visibleItemCount c' = DoubanGrid.visibleItemCount c
          /\ DoubanGrid.isLoadingMore c' = DoubanGrid.isLoadingMore c
          /\ c' = DoubanGrid.onLoadMore c)
      /\ (DoubanGrid.r_isLoadingMore r = false ->
          DoubanGrid.r_dataLength r <= DoubanGrid.r_displayItemCount r ->
          DoubanGrid.r_hasMore r = false -> c' = c))
  /\ (forall (c : DoubanGrid.Component),
      DoubanGrid.isLoadingMore c = false ->
      DoubanGrid.visibleItemCount c < length (DoubanGrid.doubanData c) ->
      DoubanGrid.visibleItemCount c
      < DoubanGrid.visibleItemCount
          (DoubanGrid.loadMoreItems (DoubanGrid.render c) c)
      <= length (DoubanGrid.doubanData c))
  /\ (forall (now : nat) (r : SearchGrid.Render) (c : SearchGrid.Component),
      let c' := SearchGrid.loadMoreItems now r c in
      (SearchGrid.r_isLoadingMore r = true \/ SearchGrid.r_hasNextPage r = false ->
       c' = c)
      /\ (SearchGrid.r_isLoadingMore r = false ->
          SearchGrid.r_hasNextPage r = true ->
          SearchGrid.visibleItemCount c' = SearchGrid.visibleItemCount c
          /\ SearchGrid.isLoadingMore c' = true
          /\ SearchGrid.timers c'
             = SearchGrid.timers c
               ++ [(SearchGrid.nextTimer c,
                    {| SearchGrid.due := now + 100;
                       SearchGrid.callback :=
                         SearchGrid.Reveal (SearchGrid.r_totalItemCount r) |})]))
  /\ (forall (total : nat) (c : SearchGrid.Component),
      SearchGrid.visibleItemCount (SearchGrid.reveal total c)
      = Nat.min (SearchGrid.visibleItemCount c + SearchGrid.LOAD_MORE_BATCH_SIZE)
                total
      /\ SearchGrid.isLoadingMore (SearchGrid.reveal total c) = false).
Proof.
  split; [|split; [|split]].
  - intros r c c'. subst c'. unfold DoubanGrid.loadMoreItems.
    destruct (DoubanGrid.r_isLoadingMore r); [by repeat split|].
    destruct (Nat.ltb_spec (DoubanGrid.r_displayItemCount r)
                (DoubanGrid.r_dataLength r)) as [Hlt|Hge].
    + split; [done|]. split; [by intros _ _|].
      split; intros _ Hle; lia.
    + split; [done|]. split; [intros _ Hlt; lia|].
      destruct (DoubanGrid.r_hasMore r); cbn; by split.
  - intros c Hl Hlt. unfold DoubanGrid.loadMoreItems, DoubanGrid.render.
    cbn [DoubanGrid.r_isLoadingMore DoubanGrid.r_displayItemCount
         DoubanGrid.r_dataLength DoubanGrid.exposure
         DoubanGrid.displayItemCount].
    rewrite Hl.
    destruct (Nat.ltb_spec
                (Nat.min (DoubanGrid.visibleItemCount c)
                   (length (DoubanGrid.doubanData c)))
                (length (DoubanGrid.doubanData c))) as [_|Hge]; [|lia].
    unfold DoubanGrid.setVisibleItemCount, DoubanGrid.LOAD_MORE_BATCH_SIZE.
    cbn [DoubanGrid.visibleItemCount]. lia.
  - intros now r c c'. subst c'. unfold SearchGrid.loadMoreItems. split.
    + by intros [->| ->]; [|rewrite orb_true_r].
    + by intros -> ->.
  - intros total c. by split.
Qed.

(** ** The group statistics cache *)

(** A cell never overwrites an entry of [groupStatsRef.current]. *)
Lemma CellComponent_keeps_entries (columnIndex rowIndex : nat) (style : Style)
    (cd : SearchGrid.CellData) (st : SearchGrid.Store) (k : string)
    (v : SearchGrid.GroupStats) :
  SearchGrid.groupStats st !! k = Some v ->
  SearchGrid.groupStats
    (SearchGrid.CellComponent columnIndex rowIndex style cd st).2 !! k = Some v.
Proof.
  intros Hk. unfold SearchGrid.CellComponent.
  destruct (_ <=? _); [done|].
  destruct (SearchGrid.cd_displayData cd) as [groups|results].
  - destruct (groups !! _) as [[key group]|]; [|done].
    cbn. destruct (SearchGrid.groupStats st !! key) eqn:Hkey; [done|].
    rewrite lookup_insert_ne; [done|]. intros ->. congruence.
  - by destruct (results !! _).
Qed.

Lemma resolveAll_keeps_entries (qs : list SearchGrid.CellRequest)
    (st : SearchGrid.Store) (k : string) (v : SearchGrid.GroupStats) :
  SearchGrid.groupStats st !! k = Some v ->
  SearchGrid.groupStats (SearchGrid.resolveAll st qs) !! k = Some v.
Proof.
  revert st. induction qs as [|q qs IH]; intros st Hk; [done|].
  cbn. apply IH. by apply CellComponent_keeps_entries.
Qed.

(** C6, as stated, fails: resolving the cell of group "k" twice calls
    [computeGroupStats] twice, also when the group has not changed; and
    when the group has grown from a one-episode result to include a
    three-episode one, the second card shows the recomputed statistics (3
    episodes, a series) while the cache still holds the first (1 episode). *)
Lemma groupStats_recomputed_on_each_resolution :
  let unchanged :=
    SearchGrid.resolveAll Samples.emptyStore
      [ {| SearchGrid.cr_columnIndex := 0; SearchGrid.cr_rowIndex := 0;
           SearchGrid.cr_style := Samples.slot;
           SearchGrid.cr_data :=
             Samples.oneGroup "k" [Samples.searchResult 1] |};
        {| SearchGrid.cr_columnIndex := 0; SearchGrid.cr_rowIndex := 0;
           SearchGrid.cr_style := Samples.slot;
           SearchGrid.cr_data :=
             Samples.oneGroup "k" [Samples.searchResult 1] |} ] in
  let first :=
    SearchGrid.CellComponent 0 0 Samples.slot
      (Samples.oneGroup "k" [Samples.searchResult 1]) Samples.emptyStore in
  let second :=
    SearchGrid.CellComponent 0 0 Samples.slot
      (Samples.oneGroup "k" [Samples.searchResult 1; Samples.searchResult 3])
      first.2 in
  SearchGrid.computeGroupStatsCalls unchanged = ["k"; "k"]
  /\ SearchGrid.computeGroupStatsCalls second.2 = ["k"; "k"]
  /\ SearchGrid.episodes <$> (SearchGrid.groupStats second.2 !! "k") = Some 1
  /\ exists card,
       second.1 = SearchGrid.AggregateCell Samples.slot card
       /\ SearchGrid.ac_episodes card = 3
       /\ SearchGrid.ac_type card = SearchGrid.CardTv.
Proof.
  cbv zeta. split; [reflexivity|]. split; [reflexivity|]. split.
  - vm_compute. reflexivity.
  - eexists. split; [reflexivity|]. split; reflexivity.
Qed.

(** C6, amended.  Resolving the cell of a group with key [k] calls
    [computeGroupStats] every time and renders the card from that fresh
    result.  The result is written to the cache only when [k] has no entry
    yet; entries of other keys are untouched; and an entry, once present,
    survives every later resolution unchanged, whatever the groups then
    hold. *)
Theorem groupStats_written_once :
  forall (columnIndex rowIndex : nat) (style : Style)
         (cd : SearchGrid.CellData) (st : SearchGrid.Store)
         (groups : list (string * list SearchGrid.SearchResult))
         (k : string) (group : list SearchGrid.SearchResult),
    SearchGrid.cd_displayData cd = SearchGrid.AggData groups ->
    rowIndex * SearchGrid.cd_columnCount cd + columnIndex
    < SearchGrid.cd_displayItemCount cd ->
    groups !! (rowIndex * SearchGrid.cd_columnCount cd + columnIndex)
    = Some (k, group) ->
    let fresh := SearchGrid.cd_computeGroupStats cd group in
    let out := SearchGrid.CellComponent columnIndex rowIndex style cd st in
    SearchGrid.computeGroupStatsCalls out.2
    = SearchGrid.computeGroupStatsCalls st ++ [k]
    /\ (exists card,
          out.1 = SearchGrid.AggregateCell style card
          /\ SearchGrid.ac_episodes card = SearchGrid.episodes fresh
          /\ SearchGrid.ac_source_names card = SearchGrid.source_names fresh
          /\ SearchGrid.ac_douban_id card = SearchGrid.douban_id fresh)
    /\ SearchGrid.groupStats out.2 !! k
       = Some (default fresh (SearchGrid.groupStats st !! k))
    /\ (forall k', k' <> k ->
          SearchGrid.groupStats out.2 !! k' = SearchGrid.groupStats st !! k')
    /\ (forall (later : list SearchGrid.CellRequest),
          SearchGrid.groupStats (SearchGrid.resolveAll out.2 later) !! k
          = SearchGrid.groupStats out.2 !! k).
Proof.
  intros col row style cd st groups k group Hdata Hlt Hlook fresh out.
  assert (Hout : out = SearchGrid.aggregateCell style cd (k, group) st).
  { subst out. unfold SearchGrid.CellComponent.
    destruct (Nat.leb_spec (SearchGrid.cd_displayItemCount cd)
                (row * SearchGrid.cd_columnCount cd + col)); [lia|].
    by rewrite Hdata, Hlook. }
  assert (Hk : SearchGrid.groupStats out.2 !! k
               = Some (default fresh (SearchGrid.groupStats st !! k))).
  { rewrite Hout. cbn. destruct (SearchGrid.groupStats st !! k) eqn:Hc; cbn.
    - done.
    - by rewrite lookup_insert_eq. }
  split; [by rewrite Hout|]. split; [rewrite Hout; by eexists|].
  split; [done|]. split.
  - intros k' Hne. rewrite Hout. cbn.
    destruct (SearchGrid.groupStats st !! k); [done|].
    by rewrite lookup_insert_ne.
  - intros later. rewrite Hk. by apply resolveAll_keeps_entries.
Qed.

Lemma groupStats_written_once_witness :
  SearchGrid.computeGroupStatsCalls
    (SearchGrid.CellComponent 0 0 Samples.slot
       (Samples.oneGroup "k" [Samples.searchResult 1]) Samples.emptyStore).2
  = [] ++ ["k"].
Proof.
  refine (proj1 (groupStats_written_once 0 0 Samples.slot
                   (Samples.oneGroup "k" [Samples.searchResult 1])
                   Samples.emptyStore
                   [("k", [Samples.searchResult 1])] "k"
                   [Samples.searchResult 1] _ _ _)).
  - reflexivity.
  - cbn. lia.
  - reflexivity.
Defined.

(** ** The search grid as a machine *)

Lemma search_fire_cases (now id : nat) (c : SearchGrid.Component) :
  (list_find (fun t => t.1 = id) (SearchGrid.timers c) = None
   /\ SearchGrid.fire now id c = c)
  \/ exists i t,
       list_find (fun t => t.1 = id) (SearchGrid.timers c) = Some (i, (id, t))
       /\ (id, t) ∈ SearchGrid.timers c
       /\ SearchGrid.fire now id c
          = match SearchGrid.callback t with
            | SearchGrid.Debounced r =>
                SearchGrid.debounced now r (SearchGrid.clearTimeout id c)
            | SearchGrid.Reveal total =>
                SearchGrid.reveal total (SearchGrid.clearTimeout id c)
            end.
Proof.
  unfold SearchGrid.fire.
  destruct (list_find _ _) as [[i [id' t]]|] eqn:Hfind; [|by left].
  right. apply list_find_Some in Hfind as Hf.
  destruct Hf as (Hlook & Hid & _). cbn in Hid. subst id'.
  exists i, t. split; [done|]. split; [by eapply list_elem_of_lookup_2|].
  by destruct (SearchGrid.callback t).
Qed.

Lemma search_loadMoreItems_calls (now : nat) (r : SearchGrid.Render)
    (c : SearchGrid.Component) :
  SearchGrid.loadMoreItemsCalls (SearchGrid.loadMoreItems now r c)
  = SearchGrid.loadMoreItemsCalls c.
Proof.
  unfold SearchGrid.loadMoreItems. by destruct (_ || _).
Qed.

Lemma search_loadMoreItems_visible (now : nat) (r : SearchGrid.Render)
    (c : SearchGrid.Component) :
  SearchGrid.visibleItemCount (SearchGrid.loadMoreItems now r c)
  = SearchGrid.visibleItemCount c.
Proof.
  unfold SearchGrid.loadMoreItems. by destruct (_ || _).
Qed.

Lemma armed_filter (P : nat * SearchGrid.Timer -> Prop)
    `{!forall t, Decision (P t)} (c : SearchGrid.Component) :
  armed c -> armed (SearchGrid.setTimers (filter P (SearchGrid.timers c)) c).
Proof.
  unfold armed. cbn. rewrite !Forall_forall. intros Hall t Ht.
  apply Hall. by apply list_elem_of_filter in Ht as [_ Ht].
Qed.

Lemma armed_loadMoreItems (now : nat) (r : SearchGrid.Render)
    (c : SearchGrid.Component) :
  armed c -> armed (SearchGrid.loadMoreItems now r c).
Proof.
  unfold armed, SearchGrid.loadMoreItems. intros H.
  destruct (_ || _); [done|]. cbn. apply Forall_app. split; [done|].
  by repeat constructor.
Qed.

Lemma armed_fire (now id : nat) (c : SearchGrid.Component) :
  armed c -> armed (SearchGrid.fire now id c).
Proof.
  intros H. destruct (search_fire_cases now id c)
    as [[_ ->]|(i & t & _ & _ & ->)]; [done|].
  pose proof (armed_filter (fun t => t.1 <> id) c H) as Hc.
  destruct (SearchGrid.callback t) as [r|total].
  - unfold SearchGrid.debounced. destruct (_ && _); [|done].
    by apply armed_loadMoreItems.
  - done.
Qed.

Lemma armed_cellsRendered (now row : nat) (r : SearchGrid.Render)
    (c : SearchGrid.Component) :
  armed c -> armed (SearchGrid.memoizedOnCellsRendered now r row c).
Proof.
  intros H. unfold SearchGrid.memoizedOnCellsRendered.
  set (c1 := match SearchGrid.debounceRef c with
             | Some id => SearchGrid.clearTimeout id c
             | None => c
             end).
  assert (H1 : armed c1).
  { subst c1. destruct (SearchGrid.debounceRef c); [|done].
    by apply armed_filter. }
  destruct (_ && _ && _) eqn:Hcond; [|done].
  unfold armed. cbn. apply Forall_app. split; [done|].
  repeat constructor. cbn.
  apply andb_prop in Hcond as [Hcond Hl]. apply andb_prop in Hcond as [_ Hn].
  by rewrite Hl, Hn.
Qed.

Lemma armed_legacy_cellsRendered (now row : nat) (r : SearchGrid.Render)
    (c : SearchGrid.Component) :
  armed c -> armed (LegacySearchGrid.memoizedOnCellsRendered now r row c).
Proof.
  intros H. unfold LegacySearchGrid.memoizedOnCellsRendered.
  destruct (_ && _ && _) eqn:Hcond; [|done].
  unfold armed. cbn. apply Forall_app. split; [done|].
  repeat constructor. cbn.
  apply andb_prop in Hcond as [Hcond Hl]. apply andb_prop in Hcond as [_ Hn].
  by rewrite Hl, Hn.
Qed.

Lemma armed_step (c : SearchGrid.Component) (te : nat * SearchGrid.Event) :
  armed c -> armed (SearchGrid.step c te).
Proof.
  intros H. destruct te as [now [row|id|r a m|n]]; cbn.
  - by apply armed_cellsRendered.
  - by apply armed_fire.
  - done.
  - done.
Qed.

Lemma armed_legacy_step (c : SearchGrid.Component)
    (te : nat * SearchGrid.Event) :
  armed c -> armed (LegacySearchGrid.step c te).
Proof.
  intros H. destruct te as [now [row|id|r a m|n]]; cbn.
  - by apply armed_legacy_cellsRendered.
  - by apply armed_fire.
  - done.
  - done.
Qed.

Lemma armed_run (c : SearchGrid.Component)
    (es : list (nat * SearchGrid.Event)) :
  armed c -> armed (SearchGrid.run c es).
Proof.
  revert c. induction es as [|te es IH]; intros c H; [done|].
  cbn. apply IH. by apply armed_step.
Qed.

(** Whatever the component's state when a debounced callback runs, it calls
    [loadMoreItems]: the values it tests are those under which it was
    scheduled.  Afterwards it is no longer pending. *)
Lemma debounced_callback_always_calls (now id i : nat)
    (c : SearchGrid.Component) (t : SearchGrid.Timer) (r : SearchGrid.Render) :
  armed c ->
  list_find (fun t => t.1 = id) (SearchGrid.timers c) = Some (i, (id, t)) ->
  SearchGrid.callback t = SearchGrid.Debounced r ->
  SearchGrid.fire now id c
  = SearchGrid.loadMoreItems now r
      (SearchGrid.logLoadMoreItems (SearchGrid.clearTimeout id c))
  /\ SearchGrid.loadMoreItemsCalls (SearchGrid.fire now id c)
     = S (SearchGrid.loadMoreItemsCalls c).
Proof.
  intros Harmed Hfind Hcb.
  assert (Hin : (id, t) ∈ SearchGrid.timers c).
  { apply list_find_Some in Hfind as (Hlook & _).
    by eapply list_elem_of_lookup_2. }
  unfold armed in Harmed. rewrite Forall_forall in Harmed.
  specialize (Harmed _ Hin). cbn in Harmed. rewrite Hcb in Harmed.
  unfold SearchGrid.fire. rewrite Hfind, Hcb.
  unfold SearchGrid.debounced. rewrite Harmed.
  split; [done|]. by rewrite search_loadMoreItems_calls.
Qed.

(** ** The scroll-proximity trigger *)

Lemma trigger_inv_mount results agg mode columns :
  trigger_inv (SearchGrid.mount results agg mode columns).
Proof. split; constructor. Qed.

Lemma pendingDebounced_cleared (c : SearchGrid.Component) :
  trigger_inv c ->
  filter (fun t => SearchGrid.is_debounced (SearchGrid.callback t.2) = true)
    (SearchGrid.timers
       (match SearchGrid.debounceRef c with
        | Some id => SearchGrid.clearTimeout id c
        | None => c
        end)) = [].
Proof.
  intros [Hone _]. rewrite Forall_forall in Hone.
  apply filter_empty, Forall_forall. intros t Ht Hd.
  destruct (SearchGrid.debounceRef c) as [id|] eqn:Hr.
  - cbn in Ht. apply list_elem_of_filter in Ht as [Hne Ht].
    specialize (Hone t Ht Hd). congruence.
  - specialize (Hone t Ht Hd). congruence.
Qed.

Lemma cleared_ids_below (c : SearchGrid.Component) :
  trigger_inv c ->
  Forall (fun t => t.1 < SearchGrid.nextTimer c)
    (SearchGrid.timers
       (match SearchGrid.debounceRef c with
        | Some id => SearchGrid.clearTimeout id c
        | None => c
        end)).
Proof.
  intros [_ Hbelow]. destruct (SearchGrid.debounceRef c); [|done].
  cbn. apply Forall_forall. intros t Ht.
  apply list_elem_of_filter in Ht as [_ Ht].
  rewrite Forall_forall in Hbelow. by apply Hbelow.
Qed.

(** One notification that satisfies the condition of line 278 leaves
    exactly one deferred call pending: its own. *)
Lemma cellsRendered_reschedules (now row : nat) (c : SearchGrid.Component) :
  trigger_inv c ->
  SearchGrid.near_end (SearchGrid.render c) row = true ->
  let c' := SearchGrid.step c (now, SearchGrid.CellsRendered row) in
  let t := {| SearchGrid.due := now + 150;
              SearchGrid.callback := SearchGrid.Debounced (SearchGrid.render c) |} in
  SearchGrid.pendingDebounced c' = [(SearchGrid.nextTimer c, t)]
  /\ (exists i, list_find (fun t => t.1 = SearchGrid.nextTimer c)
                  (SearchGrid.timers c')
                = Some (i, (SearchGrid.nextTimer c, t)))
  /\ SearchGrid.render c' = SearchGrid.render c
  /\ SearchGrid.loadMoreItemsCalls c' = SearchGrid.loadMoreItemsCalls c
  /\ SearchGrid.nextTimer c' = S (SearchGrid.nextTimer c)
  /\ trigger_inv c'.
Proof.
  intros Hinv Hnear c' t. subst c'. cbn.
  unfold SearchGrid.memoizedOnCellsRendered.
  unfold SearchGrid.near_end in Hnear. rewrite Hnear.
  pose proof (pendingDebounced_cleared c Hinv) as Hnil.
  pose proof (cleared_ids_below c Hinv) as Hbelow.
  set (c1 := match SearchGrid.debounceRef c with
             | Some id => SearchGrid.clearTimeout id c
             | None => c
             end) in *.
  assert (Hnext : SearchGrid.nextTimer c1 = SearchGrid.nextTimer c).
  { subst c1. by destruct (SearchGrid.debounceRef c). }
  assert (Hrender : SearchGrid.render c1 = SearchGrid.render c).
  { subst c1. by destruct (SearchGrid.debounceRef c). }
  assert (Hcalls : SearchGrid.loadMoreItemsCalls c1
                   = SearchGrid.loadMoreItemsCalls c).
  { subst c1. by destruct (SearchGrid.debounceRef c). }
  cbn. rewrite Hnext. fold t.
  split; [|split; [|split; [|split; [|split]]]].
  - unfold SearchGrid.pendingDebounced. cbn.
    rewrite filter_app, Hnil. by rewrite filter_cons_True.
  - exists (length (SearchGrid.timers c1)).
    apply list_find_Some. split; [|split; [done|]].
    + by apply list_lookup_middle.
    + intros j [id' t'] Hj Hlt Heq. cbn in Heq. subst id'.
      rewrite lookup_app_l in Hj by done.
      rewrite Forall_forall in Hbelow.
      apply list_elem_of_lookup_2, Hbelow in Hj. cbn in Hj. lia.
  - done.
  - done.
  - done.
  - split; cbn.
    + apply Forall_app. split; [|by repeat constructor].
      apply Forall_forall. intros x Hx Hd.
      assert (Hx' : x ∈ filter
                (fun t => SearchGrid.is_debounced (SearchGrid.callback t.2) = true)
                (SearchGrid.timers c1)) by by apply list_elem_of_filter.
      rewrite Hnil in Hx'. by apply not_elem_of_nil in Hx'.
    + apply Forall_app. split; [|repeat constructor; cbn; lia].
      eapply Forall_impl; [exact Hbelow|]. cbn. intros; lia.
Qed.

Lemma trigger_idle_after_fire (now id i : nat) (c : SearchGrid.Component)
    (t : SearchGrid.Timer) (r : SearchGrid.Render) :
  armed c ->
  SearchGrid.pendingDebounced c = [(id, t)] ->
  list_find (fun t => t.1 = id) (SearchGrid.timers c) = Some (i, (id, t)) ->
  SearchGrid.callback t = SearchGrid.Debounced r ->
  SearchGrid.pendingDebounced (SearchGrid.fire now id c) = [].
Proof.
  intros Harmed Hpending Hfind Hcb.
  destruct (debounced_callback_always_calls now id i c t r) as [-> _];
    try done.
  assert (Hcleared :
    filter (fun t => SearchGrid.is_debounced (SearchGrid.callback t.2) = true)
      (filter (fun t => t.1 <> id) (SearchGrid.timers c)) = []).
  { rewrite list_filter_filter.
    rewrite (list_filter_iff _
               (fun a => a.1 <> id
                         /\ SearchGrid.is_debounced (SearchGrid.callback a.2) = true))
      by (intros a; tauto).
    rewrite <- list_filter_filter.
    unfold SearchGrid.pendingDebounced in Hpending. rewrite Hpending.
    by rewrite filter_cons_False by (cbn; congruence). }
  unfold SearchGrid.pendingDebounced, SearchGrid.loadMoreItems.
  destruct (_ || _); cbn; [done|].
  by rewrite filter_app, Hcleared.
Qed.

(** The current search grid coalesces a burst.  From any state in which the
    trigger's invariant holds, [N >= 1] notifications that each satisfy the
    condition of line 278, with no timer running in between, leave exactly
    one deferred call pending, the one of the last notification; none of
    them calls [loadMoreItems]; and when the deferred call runs it calls
    [loadMoreItems] exactly once and leaves none pending. *)
Lemma search_burst_is_coalesced (burst : list (nat * nat)) :
  forall (c : SearchGrid.Component) (tlast rowlast : nat),
    trigger_inv c -> armed c ->
    Forall (fun p => SearchGrid.near_end (SearchGrid.render c) p.2 = true)
      (burst ++ [(tlast, rowlast)]) ->
    let c' := SearchGrid.run c
                (SearchGrid.notifications (burst ++ [(tlast, rowlast)])) in
    let id := SearchGrid.nextTimer c + length burst in
    let t := {| SearchGrid.due := tlast + 150;
                SearchGrid.callback := SearchGrid.Debounced (SearchGrid.render c) |} in
    SearchGrid.pendingDebounced c' = [(id, t)]
    /\ SearchGrid.loadMoreItemsCalls c' = SearchGrid.loadMoreItemsCalls c
    /\ forall now,
         SearchGrid.loadMoreItemsCalls (SearchGrid.fire now id c')
         = S (SearchGrid.loadMoreItemsCalls c)
         /\ SearchGrid.pendingDebounced (SearchGrid.fire now id c') = [].
Proof.
  induction burst as [|[t0 row0] burst IH]; intros c tlast rowlast Hinv Harmed Hall.
  - cbn [app] in Hall. apply Forall_cons in Hall as [Hall _]. cbn in Hall.
    destruct (cellsRendered_reschedules tlast rowlast c Hinv Hall)
      as (Hpending & [i Hfind] & _ & Hcalls & _ & _).
    cbn -[SearchGrid.step]. rewrite Nat.add_0_r.
    split; [done|]. split; [done|]. intros now.
    pose proof (armed_step c (tlast, SearchGrid.CellsRendered rowlast) Harmed)
      as Harmed'.
    split.
    + destruct (debounced_callback_always_calls now _ i _ _ _
                  Harmed' Hfind eq_refl) as [_ ->].
      by rewrite Hcalls.
    + by eapply trigger_idle_after_fire.
  - cbn [app] in Hall. apply Forall_cons in Hall as [H0 Hall]. cbn in H0.
    destruct (cellsRendered_reschedules t0 row0 c Hinv H0)
      as (_ & _ & Hrender & Hcalls & Hnext & Hinv').
    pose proof (armed_step c (t0, SearchGrid.CellsRendered row0) Harmed)
      as Harmed'.
    rewrite <- Hrender in Hall.
    specialize (IH _ tlast rowlast Hinv' Harmed' Hall).
    cbn -[SearchGrid.step] in IH |- *.
    rewrite Hrender, Hcalls, Hnext in IH.
    by rewrite <- Nat.add_succ_comm.
Qed.

Lemma trigger_inv_fire (now id : nat) (c : SearchGrid.Component) :
  trigger_inv c -> trigger_inv (SearchGrid.fire now id c).
Proof.
  intros [Hone Hbelow].
  destruct (search_fire_cases now id c)
    as [[_ ->]|(i & t & _ & _ & ->)]; [done|].
  assert (Hc : trigger_inv (SearchGrid.clearTimeout id c)).
  { split; cbn; apply Forall_forall; intros x Hx;
      apply list_elem_of_filter in Hx as [_ Hx].
    - rewrite Forall_forall in Hone. by apply Hone.
    - rewrite Forall_forall in Hbelow. by apply Hbelow. }
  destruct (SearchGrid.callback t) as [r|total]; [|done].
  unfold SearchGrid.debounced. destruct (_ && _); [|done].
  unfold SearchGrid.loadMoreItems. destruct (_ || _); [done|].
  destruct Hc as [Hone' Hbelow']. split; cbn in *.
  - apply Forall_app. split; [done|]. by repeat constructor.
  - apply Forall_app. split; [|repeat constructor; cbn; lia].
    eapply Forall_impl; [exact Hbelow'|]. cbn. intros; lia.
Qed.

Lemma trigger_inv_step (c : SearchGrid.Component)
    (te : nat * SearchGrid.Event) :
  trigger_inv c -> trigger_inv (SearchGrid.step c te).
Proof.
  intros Hinv. destruct te as [now [row|id|r a m|n]]; cbn.
  - destruct (SearchGrid.near_end (SearchGrid.render c) row) eqn:Hnear.
    + by destruct (cellsRendered_reschedules now row c Hinv Hnear)
        as (_ & _ & _ & _ & _ & H).
    + unfold SearchGrid.memoizedOnCellsRendered.
      unfold SearchGrid.near_end in Hnear. rewrite Hnear.
      pose proof (pendingDebounced_cleared c Hinv) as Hnil.
      pose proof (cleared_ids_below c Hinv) as Hbelow.
      split.
      * apply Forall_forall. intros x Hx Hd.
        by destruct (filter_nil_not_elem_of _ _ x Hnil Hd).
      * by destruct (SearchGrid.debounceRef c).
  - by apply trigger_inv_fire.
  - done.
  - done.
Qed.

Lemma trigger_inv_run (c : SearchGrid.Component)
    (es : list (nat * SearchGrid.Event)) :
  trigger_inv c -> trigger_inv (SearchGrid.run c es).
Proof.
  revert c. induction es as [|te es IH]; intros c H; [done|].
  cbn. apply IH. by apply trigger_inv_step.
Qed.

(** C4 on the earlier search grid (src/unnamed/part_000, lines 748-759):
    two notifications 10 ms apart, both within the window, leave two
    deferred calls pending; both run, [loadMoreItems] is called twice and 16
    results are revealed instead of 8.  On the same events the current
    search grid calls [loadMoreItems] once and reveals 8. *)
Theorem legacy_burst_is_not_coalesced :
  let c := SearchGrid.mount (Samples.searchResults 100) [] SearchGrid.All 4 in
  let burst := SearchGrid.notifications [(0, 0); (10, 0)] in
  let legacy :=
    burst ++ [(100, SearchGrid.TimerFires 1); (110, SearchGrid.TimerFires 2);
              (200, SearchGrid.TimerFires 3); (210, SearchGrid.TimerFires 4)] in
  let current :=
    burst ++ [(160, SearchGrid.TimerFires 2); (260, SearchGrid.TimerFires 3)] in
  LegacySearchGrid.legal 0 c legacy = true
  /\ length (SearchGrid.pendingDebounced (LegacySearchGrid.run c burst)) = 2
  /\ SearchGrid.loadMoreItemsCalls (LegacySearchGrid.run c legacy) = 2
  /\ SearchGrid.visibleItemCount (LegacySearchGrid.run c legacy) = 28
  /\ SearchGrid.timers (LegacySearchGrid.run c legacy) = []
  /\ SearchGrid.legal 0 c current = true
  /\ length (SearchGrid.pendingDebounced (SearchGrid.run c burst)) = 1
  /\ SearchGrid.loadMoreItemsCalls (SearchGrid.run c current) = 1
  /\ SearchGrid.visibleItemCount (SearchGrid.run c current) = 20
  /\ SearchGrid.timers (SearchGrid.run c current) = [].
Proof. cbv zeta. repeat split; vm_compute; reflexivity. Qed.

(** ** Values seen by the deferred call *)

(** C5 on both components.  Search grid: the deferred call is scheduled
    while 12 of 100 results are exposed; the results then shrink to 5, so
    that [hasNextPage] is false when the call runs 150 ms later; it calls
    [loadMoreItems] all the same, which sets [isLoadingMore] and schedules a
    reveal.  Douban grid: the deferred call is scheduled while nothing is
    loading; the parent then sets [isLoadingMore]; the call still runs
    [loadMoreItems], which calls [onLoadMore]. *)
Theorem deferred_call_tests_captured_values :
  let s0 := SearchGrid.mount (Samples.searchResults 100) [] SearchGrid.All 4 in
  let before :=
    [(0, SearchGrid.CellsRendered 0);
     (50, SearchGrid.SourceChanges (Samples.searchResults 5) [] SearchGrid.All)] in
  let s := SearchGrid.run s0 before in
  let s' := SearchGrid.step s (150, SearchGrid.TimerFires 1) in
  let d0 := DoubanGrid.mount (Samples.doubanItems 16) false true 4 in
  let dbefore :=
    [(0, DoubanGrid.CellsRendered 0); (50, DoubanGrid.FlagsChange true true)] in
  let d := DoubanGrid.run d0 dbefore in
  let d' := DoubanGrid.step d (150, DoubanGrid.TimerFires 1) in
  (SearchGrid.legal 0 s0 (before ++ [(150, SearchGrid.TimerFires 1)]) = true
   /\ SearchGrid.hasNextPage (SearchGrid.exposed s) = false
   /\ SearchGrid.loadMoreItemsCalls s = 0
   /\ SearchGrid.loadMoreItemsCalls s' = 1
   /\ SearchGrid.isLoadingMore s' = true
   /\ SearchGrid.pendingDebounced s' = []
   /\ length (SearchGrid.timers s') = 1)
  /\ (DoubanGrid.legal 0 d0 (dbefore ++ [(150, DoubanGrid.TimerFires 1)]) = true
      /\ DoubanGrid.isLoadingMore d = true
      /\ DoubanGrid.loadMoreItemsCalls d = 0
      /\ DoubanGrid.onLoadMoreCalls d = 0
      /\ DoubanGrid.loadMoreItemsCalls d' = 1
      /\ DoubanGrid.onLoadMoreCalls d' = 1
      /\ DoubanGrid.timers d' = []).
Proof. cbv zeta. repeat split; vm_compute; reflexivity. Qed.

(** ** Loads that outlive their data source *)

Ltac search_fields :=
  cbn [SearchGrid.visibleItemCount SearchGrid.isLoadingMore SearchGrid.timers
       SearchGrid.nextTimer SearchGrid.debounceRef SearchGrid.loadMoreItemsCalls
       SearchGrid.columnCount SearchGrid.viewMode SearchGrid.filteredResults
       SearchGrid.filteredAggResults SearchGrid.setVisibleItemCount
       SearchGrid.setIsLoadingMore SearchGrid.logLoadMoreItems
       SearchGrid.setTimers SearchGrid.setDebounceRef SearchGrid.clearTimeout
       SearchGrid.setTimeout SearchGrid.reveal SearchGrid.changeSource
       SearchGrid.changeColumns fst snd] in *.

Lemma cellsRendered_shape (now row : nat) (c : SearchGrid.Component) :
  let c' := SearchGrid.memoizedOnCellsRendered now (SearchGrid.render c) row c in
  SearchGrid.visibleItemCount c' = SearchGrid.visibleItemCount c
  /\ SearchGrid.isLoadingMore c' = SearchGrid.isLoadingMore c
  /\ SearchGrid.loadMoreItemsCalls c' = SearchGrid.loadMoreItemsCalls c
  /\ ((SearchGrid.near_end (SearchGrid.render c) row = true
       /\ SearchGrid.timers c'
          = kept_by_notification c
            ++ [(SearchGrid.nextTimer c,
                 {| SearchGrid.due := now + 150;
                    SearchGrid.callback :=
                      SearchGrid.Debounced (SearchGrid.render c) |})]
       /\ SearchGrid.debounceRef c' = Some (SearchGrid.nextTimer c)
       /\ SearchGrid.nextTimer c' = S (SearchGrid.nextTimer c))
      \/ (SearchGrid.near_end (SearchGrid.render c) row = false
          /\ SearchGrid.timers c' = kept_by_notification c
          /\ SearchGrid.debounceRef c' = SearchGrid.debounceRef c
          /\ SearchGrid.nextTimer c' = SearchGrid.nextTimer c)).
Proof.
  unfold SearchGrid.memoizedOnCellsRendered, SearchGrid.near_end,
    kept_by_notification.
  destruct (_ && _ && _); destruct (SearchGrid.debounceRef c) eqn:Href;
    search_fields; repeat split; try done; (by left) || (by right).
Qed.

Lemma near_end_true (r : SearchGrid.Render) (row : nat) :
  SearchGrid.near_end r row = true ->
  SearchGrid.r_hasNextPage r = true /\ SearchGrid.r_isLoadingMore r = false.
Proof.
  unfold SearchGrid.near_end. intros [[_ H1]%andb_prop H2]%andb_prop.
  split; [done|]. by destruct (SearchGrid.r_isLoadingMore r).
Qed.

(** C3, as stated, fails: a reveal requested for 100 results is still
    pending when the results are replaced by 30 others; the reset puts
    [visibleItemCount] at 12, and the pending reveal then raises it to 20. *)
Lemma stale_reveal_changes_the_new_source :
  let c := SearchGrid.mount (Samples.searchResults 100) [] SearchGrid.All 4 in
  let requested :=
    [(0, SearchGrid.CellsRendered 0); (150, SearchGrid.TimerFires 1)] in
  let replaced :=
    requested
    ++ [(200, SearchGrid.SourceChanges (Samples.searchResults 30) []
                SearchGrid.All)] in
  let completed := replaced ++ [(250, SearchGrid.TimerFires 2)] in
  SearchGrid.legal 0 c completed = true
  /\ SearchGrid.isLoadingMore (SearchGrid.run c requested) = true
  /\ SearchGrid.visibleItemCount (SearchGrid.run c replaced) = 12
  /\ SearchGrid.isLoadingMore (SearchGrid.run c replaced) = false
  /\ SearchGrid.visibleItemCount (SearchGrid.run c completed) = 20.
Proof. cbv zeta. repeat split; vm_compute; reflexivity. Qed.

(** Source changes leave the host's timers and the call log alone; the
    last of them leaves [visibleItemCount] at [INITIAL_BATCH_SIZE] and
    [isLoadingMore] clear. *)
Lemma run_source_changes (es : list (nat * SearchGrid.Event))
    (c : SearchGrid.Component) :
  Forall (fun te => SearchGrid.is_source_change te.2 = true) es ->
  let c' := SearchGrid.run c es in
  SearchGrid.timers c' = SearchGrid.timers c
  /\ SearchGrid.nextTimer c' = SearchGrid.nextTimer c
  /\ SearchGrid.loadMoreItemsCalls c' = SearchGrid.loadMoreItemsCalls c
  /\ (es = [] -> c' = c)
  /\ (es <> [] ->
      SearchGrid.visibleItemCount c' = SearchGrid.INITIAL_BATCH_SIZE
      /\ SearchGrid.isLoadingMore c' = false).
Proof.
  induction es as [|[t e] es IH] using rev_ind; intros Hall c'; subst c'.
  { by repeat split. }
  apply Forall_app in Hall as [Hes He]. apply Forall_cons in He as [He _].
  destruct (IH Hes) as (Ht & Hn & Hcalls & _).
  unfold SearchGrid.run in *. rewrite foldl_app. cbn [foldl].
  destruct e as [row|id|results agg mode|cols]; try done.
  cbn [SearchGrid.step SearchGrid.changeSource snd SearchGrid.timers
       SearchGrid.nextTimer SearchGrid.loadMoreItemsCalls
       SearchGrid.visibleItemCount SearchGrid.isLoadingMore].
  repeat split; try done. intros Hnil. by destruct es.
Qed.

(** C3, amended.  Let the data source change, any number of times, between
    a visible-range notification that qualifies and the completion of the
    load it leads to: before the deferred call runs, after it, or both.
    Every change resets [visibleItemCount] to [INITIAL_BATCH_SIZE] and
    clears [isLoadingMore], and leaves the pending timers as they are:
    there is no source-identity token and no cancellation.  The deferred
    call still requests the load, and the load's completion sets the
    current source's [visibleItemCount] to [min(INITIAL_BATCH_SIZE +
    LOAD_MORE_BATCH_SIZE, total)] and clears [isLoadingMore], [total] being
    the length the data source had when the notification was handled,
    whatever sources came after. *)
Theorem stale_reveal_is_applied :
  forall (c : SearchGrid.Component) (now row : nat)
         (before after : list (nat * SearchGrid.Event)),
    SearchGrid.timers c = [] ->
    SearchGrid.near_end (SearchGrid.render c) row = true ->
    Forall (fun te => SearchGrid.is_source_change te.2 = true) before ->
    Forall (fun te => SearchGrid.is_source_change te.2 = true) after ->
    before ++ after <> [] ->
    let id := SearchGrid.nextTimer c in
    let total := SearchGrid.totalItemCount (SearchGrid.exposed c) in
    let scheduled := (now, SearchGrid.CellsRendered row) :: before in
    let requested := scheduled ++ [(now + 150, SearchGrid.TimerFires id)] in
    let replaced := requested ++ after in
    let completed := replaced ++ [(now + 250, SearchGrid.TimerFires (S id))] in
    SearchGrid.timers (SearchGrid.run c scheduled)
    = [(id, {| SearchGrid.due := now + 150;
               SearchGrid.callback :=
                 SearchGrid.Debounced (SearchGrid.render c) |})]
    /\ (before <> [] ->
        SearchGrid.visibleItemCount (SearchGrid.run c scheduled)
        = SearchGrid.INITIAL_BATCH_SIZE
        /\ SearchGrid.isLoadingMore (SearchGrid.run c scheduled) = false)
    /\ SearchGrid.timers (SearchGrid.run c replaced)
       = [(S id, {| SearchGrid.due := now + 150 + 100;
                    SearchGrid.callback := SearchGrid.Reveal total |})]
    /\ SearchGrid.loadMoreItemsCalls (SearchGrid.run c replaced)
       = S (SearchGrid.loadMoreItemsCalls c)
    /\ SearchGrid.visibleItemCount (SearchGrid.run c replaced)
       = SearchGrid.INITIAL_BATCH_SIZE
    /\ (after <> [] -> SearchGrid.isLoadingMore (SearchGrid.run c replaced) = false)
    /\ SearchGrid.visibleItemCount (SearchGrid.run c completed)
       = Nat.min (SearchGrid.INITIAL_BATCH_SIZE + SearchGrid.LOAD_MORE_BATCH_SIZE)
                 total
    /\ SearchGrid.isLoadingMore (SearchGrid.run c completed) = false
    /\ SearchGrid.timers (SearchGrid.run c completed) = [].
Proof.
  intros c now row before after Hidle Hnear Hbefore Hafter Hchange
    id total scheduled requested replaced completed.
  destruct (near_end_true _ _ Hnear) as [Hnext Hload].
  (* the notification *)
  set (c1 := SearchGrid.step c (now, SearchGrid.CellsRendered row)).
  assert (H1 : SearchGrid.timers c1
               = [(id, {| SearchGrid.due := now + 150;
                          SearchGrid.callback :=
                            SearchGrid.Debounced (SearchGrid.render c) |})]
               /\ SearchGrid.nextTimer c1 = S id
               /\ SearchGrid.visibleItemCount c1 = SearchGrid.visibleItemCount c
               /\ SearchGrid.loadMoreItemsCalls c1
                  = SearchGrid.loadMoreItemsCalls c).
  { subst c1. cbn [SearchGrid.step fst snd].
    destruct (cellsRendered_shape now row c)
      as (Hv & _ & Hcalls & [(_ & Ht & _ & Hn)|(Hno & _)]); [|congruence].
    rewrite Ht, Hn, Hv, Hcalls. unfold kept_by_notification. rewrite Hidle.
    split; [by destruct (SearchGrid.debounceRef c) | done]. }
  destruct H1 as (Ht1 & Hn1 & Hv1 & Hcalls1).
  (* the changes before the deferred call *)
  set (c1' := SearchGrid.run c scheduled).
  assert (Hc1' : c1' = SearchGrid.run c1 before) by reflexivity.
  destruct (run_source_changes before c1 Hbefore)
    as (Ht1' & Hn1' & Hcalls1' & Hsame1 & Hreset1).
  rewrite <- Hc1' in Ht1', Hn1', Hcalls1', Hsame1, Hreset1.
  rewrite Ht1 in Ht1'. rewrite Hn1 in Hn1'. rewrite Hcalls1 in Hcalls1'.
  (* the deferred call *)
  set (c2 := SearchGrid.run c requested).
  assert (Hc2 : c2 = SearchGrid.fire (now + 150) id c1').
  { subst c2 requested c1'. unfold SearchGrid.run. by rewrite foldl_app. }
  assert (H2 : SearchGrid.timers c2
               = [(S id, {| SearchGrid.due := now + 150 + 100;
                            SearchGrid.callback := SearchGrid.Reveal total |})]
               /\ SearchGrid.visibleItemCount c2 = SearchGrid.visibleItemCount c1'
               /\ SearchGrid.loadMoreItemsCalls c2
                  = S (SearchGrid.loadMoreItemsCalls c)).
  { rewrite Hc2. unfold SearchGrid.fire. rewrite Ht1'.
    cbn [list_find]. rewrite decide_True by done.
    cbn [SearchGrid.callback fmap option_fmap option_map prod_map fst snd].
    unfold SearchGrid.debounced. rewrite Hload, Hnext. cbn [negb andb].
    unfold SearchGrid.loadMoreItems. rewrite Hload, Hnext. cbn [negb orb].
    search_fields. rewrite Ht1', Hn1', Hcalls1'.
    rewrite filter_cons_False by (cbn; tauto). by rewrite filter_nil. }
  destruct H2 as (Ht2 & Hv2 & Hcalls2).
  (* the changes after it *)
  set (c2' := SearchGrid.run c replaced).
  assert (Hc2' : c2' = SearchGrid.run c2 after).
  { subst c2' replaced c2. unfold SearchGrid.run. by rewrite foldl_app. }
  destruct (run_source_changes after c2 Hafter)
    as (Ht2' & _ & Hcalls2' & Hsame2 & Hreset2).
  rewrite <- Hc2' in Ht2', Hcalls2', Hsame2, Hreset2.
  rewrite Ht2 in Ht2'. rewrite Hcalls2 in Hcalls2'.
  assert (Hv2' : SearchGrid.visibleItemCount c2' = SearchGrid.INITIAL_BATCH_SIZE).
  { destruct after as [|e after'].
    - rewrite (Hsame2 eq_refl), Hv2.
      apply Hreset1. intros ->. by apply Hchange.
    - by apply Hreset2. }
  (* the reveal *)
  set (c3 := SearchGrid.run c completed).
  assert (Hc3 : c3 = SearchGrid.fire (now + 250) (S id) c2').
  { subst c3 completed c2'. unfold SearchGrid.run. by rewrite foldl_app. }
  assert (H3 : SearchGrid.timers c3 = []
               /\ SearchGrid.visibleItemCount c3
                  = Nat.min (SearchGrid.visibleItemCount c2'
                             + SearchGrid.LOAD_MORE_BATCH_SIZE) total
               /\ SearchGrid.isLoadingMore c3 = false).
  { rewrite Hc3. unfold SearchGrid.fire. rewrite Ht2'.
    cbn [list_find]. rewrite decide_True by done.
    cbn [SearchGrid.callback fmap option_fmap option_map prod_map fst snd].
    search_fields. rewrite Ht2'.
    rewrite filter_cons_False by (cbn; tauto). by rewrite filter_nil. }
  destruct H3 as (Ht3 & Hv3 & Hl3).
  rewrite Hv2' in Hv3.
  split; [done|]. split; [exact Hreset1|].
  repeat split; try done. intros Hne. by apply Hreset2.
Qed.

(** The data is replaced once before the deferred call and once after it:
    a list of 100 by one of 13, then by one of 30.  The reveal is capped by
    100. *)
Lemma stale_reveal_is_applied_witness :
  let c := SearchGrid.mount (Samples.searchResults 100) [] SearchGrid.All 4 in
  let trace :=
    [(0, SearchGrid.CellsRendered 0);
     (100, SearchGrid.SourceChanges (Samples.searchResults 13) [] SearchGrid.All);
     (150, SearchGrid.TimerFires 1);
     (200, SearchGrid.SourceChanges (Samples.searchResults 30) [] SearchGrid.All);
     (250, SearchGrid.TimerFires 2)] in
  SearchGrid.legal 0 c trace = true
  /\ SearchGrid.visibleItemCount (SearchGrid.run c trace)
     = Nat.min (SearchGrid.INITIAL_BATCH_SIZE + SearchGrid.LOAD_MORE_BATCH_SIZE)
               100.
Proof.
  cbv zeta. split; [vm_compute; reflexivity|].
  refine (proj1 (proj2 (proj2 (proj2 (proj2 (proj2 (proj2
            (stale_reveal_is_applied
               (SearchGrid.mount (Samples.searchResults 100) [] SearchGrid.All 4)
               0 0
               [(100, SearchGrid.SourceChanges (Samples.searchResults 13) []
                        SearchGrid.All)]
               [(200, SearchGrid.SourceChanges (Samples.searchResults 30) []
                        SearchGrid.All)]
               _ _ _ _ _)))))))).
  - reflexivity.
  - vm_compute. reflexivity.
  - by repeat constructor.
  - by repeat constructor.
  - discriminate.
Defined.

(** ** Monotonicity of the revealed count *)

(** *** Douban grid *)

Lemma douban_fire_cases (id : nat) (c : DoubanGrid.Component) :
  (list_find (fun t => t.1 = id) (DoubanGrid.timers c) = None
   /\ DoubanGrid.fire id c = c)
  \/ exists i t,
       list_find (fun t => t.1 = id) (DoubanGrid.timers c) = Some (i, (id, t))
       /\ (id, t) ∈ DoubanGrid.timers c
       /\ DoubanGrid.fire id c
          = DoubanGrid.debounced (DoubanGrid.closure t)
              (DoubanGrid.clearTimeout id c).
Proof.
  unfold DoubanGrid.fire.
  destruct (list_find _ _) as [[i [id' t]]|] eqn:Hfind; [|by left].
  right. apply list_find_Some in Hfind as Hf.
  destruct Hf as (Hlook & Hid & _). cbn in Hid. subst id'.
  exists i, t. split; [done|]. split; [by eapply list_elem_of_lookup_2|done].
Qed.

Lemma douban_inv_mount data loadingMore more columns :
  douban_inv (DoubanGrid.mount data loadingMore more columns).
Proof. split; [done | by left]. Qed.

Lemma douban_cleared (c : DoubanGrid.Component) :
  douban_inv c ->
  DoubanGrid.timers
    (match DoubanGrid.debounceRef c with
     | Some id => DoubanGrid.clearTimeout id c
     | None => c
     end) = [].
Proof.
  intros [_ [Hnil|(id & t & Ht & Href & _)]].
  - destruct (DoubanGrid.debounceRef c); cbn; by rewrite Hnil.
  - rewrite Href. cbn. rewrite Ht. by rewrite filter_cons_False by (cbn; tauto).
Qed.

Lemma douban_inv_step (c : DoubanGrid.Component)
    (te : nat * DoubanGrid.Event) :
  douban_inv c ->
  douban_inv (DoubanGrid.step c te)
  /\ (DoubanGrid.is_data_change te.2 = false ->
      DoubanGrid.visibleItemCount c
      <= DoubanGrid.visibleItemCount (DoubanGrid.step c te)).
Proof.
  intros Hinv. pose proof Hinv as [H16 Htimers].
  destruct te as [now [row|id|data|l m|n]]; cbn [DoubanGrid.step fst snd].
  - (* a notification *)
    pose proof (douban_cleared c Hinv) as Hnil.
    unfold DoubanGrid.memoizedOnCellsRendered.
    set (c1 := match DoubanGrid.debounceRef c with
               | Some id => DoubanGrid.clearTimeout id c
               | None => c
               end) in *.
    assert (Hv : DoubanGrid.visibleItemCount c1 = DoubanGrid.visibleItemCount c)
      by (subst c1; by destruct (DoubanGrid.debounceRef c)).
    destruct (_ && _ && _) eqn:Hcond.
    + split; [|intros _; cbn; lia]. split; [cbn; lia|]. right.
      eexists _, _. cbn. rewrite Hnil. split; [done|]. split; [done|].
      cbn. unfold DoubanGrid.INITIAL_BATCH_SIZE in *. lia.
    + split; [|intros _; lia]. split; [lia | by left].
  - (* a timer *)
    destruct (douban_fire_cases id c) as [[_ ->]|(i & t & _ & Hin & ->)];
      [by split|].
    destruct Htimers as [Hnil|(id' & t' & Ht & Href & Hroom)];
      [rewrite Hnil in Hin; by apply not_elem_of_nil in Hin|].
    rewrite Ht in Hin. apply list_elem_of_singleton in Hin.
    injection Hin as -> ->.
    assert (Hc : DoubanGrid.timers (DoubanGrid.clearTimeout id' c) = []).
    { cbn. rewrite Ht. by rewrite filter_cons_False by (cbn; tauto). }
    unfold DoubanGrid.debounced, DoubanGrid.loadMoreItems.
    destruct (_ && DoubanGrid.r_hasNextPage _); [|by split; [split; [|left]|]].
    destruct (DoubanGrid.r_isLoadingMore _); [by split; [split; [|left]|]|].
    destruct (Nat.ltb_spec (DoubanGrid.r_displayItemCount (DoubanGrid.closure t'))
                (DoubanGrid.r_dataLength (DoubanGrid.closure t'))) as [Hlt|Hge].
    + specialize (Hroom Hlt).
      unfold DoubanGrid.INITIAL_BATCH_SIZE, DoubanGrid.LOAD_MORE_BATCH_SIZE in *.
      split; [split; [cbn [DoubanGrid.setVisibleItemCount
                           DoubanGrid.visibleItemCount
                           DoubanGrid.logLoadMoreItems DoubanGrid.clearTimeout
                           DoubanGrid.setTimers];
                      unfold DoubanGrid.INITIAL_BATCH_SIZE; lia
                     | by left]|].
      intros _. cbn [DoubanGrid.setVisibleItemCount DoubanGrid.visibleItemCount
                     DoubanGrid.logLoadMoreItems DoubanGrid.clearTimeout
                     DoubanGrid.setTimers]. lia.
    + destruct (_ && _); by split; [split; [|left]|].
  - (* new data *)
    split; [|done]. split; [done|].
    destruct Htimers as [Hnil|(id' & t' & Ht & Href & Hroom)]; [by left|].
    right. exists id', t'. cbn. split; [done|]. split; [done|].
    intros Hlt. specialize (Hroom Hlt). lia.
  - by split.
  - by split.
Qed.

Lemma douban_inv_run (es : list (nat * DoubanGrid.Event))
    (c : DoubanGrid.Component) :
  douban_inv c -> douban_inv (DoubanGrid.run c es).
Proof.
  revert c. induction es as [|te es IH]; intros c H; [done|].
  cbn. apply IH. by apply douban_inv_step.
Qed.

Lemma douban_monotone (es : list (nat * DoubanGrid.Event))
    (c : DoubanGrid.Component) :
  douban_inv c ->
  Forall (fun te => DoubanGrid.is_data_change te.2 = false) es ->
  DoubanGrid.visibleItemCount c
  <= DoubanGrid.visibleItemCount (DoubanGrid.run c es).
Proof.
  revert c. induction es as [|te es IH]; intros c Hinv Hes; [done|].
  apply Forall_cons in Hes as [Hte Hes].
  destruct (douban_inv_step c te Hinv) as [Hinv' Hle].
  cbn. etrans; [by apply Hle|]. by apply IH.
Qed.

(** *** Search grid *)

Lemma Forall_filter_keep {A : Type} (P Q : A -> Prop)
    `{!forall x, Decision (Q x)} (l : list A) :
  Forall P l -> Forall P (filter Q l).
Proof.
  rewrite !Forall_forall. intros Hall x Hx.
  apply list_elem_of_filter in Hx as [_ Hx]. by apply Hall.
Qed.

Lemma filter_nonempty {A : Type} (Q : A -> Prop)
    `{!forall x, Decision (Q x)} (l : list A) :
  filter Q l <> [] -> l <> [].
Proof. by intros Hne ->. Qed.

Lemma search_hasNextPage_lt (c : SearchGrid.Component) :
  SearchGrid.hasNextPage (SearchGrid.exposed c) = true ->
  SearchGrid.visibleItemCount c
  < SearchGrid.totalItemCount (SearchGrid.exposed c).
Proof.
  unfold SearchGrid.exposed, SearchGrid.exposure.
  cbn [SearchGrid.hasNextPage SearchGrid.totalItemCount].
  intros H%Nat.ltb_lt. lia.
Qed.

Lemma search_inv_idle (c : SearchGrid.Component) :
  SearchGrid.timers c = [] -> search_inv c.
Proof. intros H. split; rewrite H; [constructor | done]. Qed.

Lemma search_inv_clearTimeout (id : nat) (c : SearchGrid.Component) :
  search_inv c -> search_inv (SearchGrid.clearTimeout id c).
Proof.
  intros [Hall Hle]. split.
  - by apply Forall_filter_keep.
  - intros Hne%filter_nonempty. by apply Hle.
Qed.

Lemma search_inv_cellsRendered (now row : nat) (c : SearchGrid.Component) :
  search_inv c ->
  search_inv (SearchGrid.memoizedOnCellsRendered now (SearchGrid.render c) row c)
  /\ SearchGrid.visibleItemCount
       (SearchGrid.memoizedOnCellsRendered now (SearchGrid.render c) row c)
     = SearchGrid.visibleItemCount c.
Proof.
  intros Hinv. unfold SearchGrid.memoizedOnCellsRendered.
  set (c1 := match SearchGrid.debounceRef c with
             | Some id => SearchGrid.clearTimeout id c
             | None => c
             end).
  assert (H1 : search_inv c1
               /\ SearchGrid.visibleItemCount c1 = SearchGrid.visibleItemCount c
               /\ SearchGrid.exposed c1 = SearchGrid.exposed c).
  { subst c1. destruct (SearchGrid.debounceRef c); [|done].
    split; [by apply search_inv_clearTimeout | done]. }
  destruct H1 as ([Hall Hle] & Hv & He).
  destruct (_ && _ && _) eqn:Hcond; [|done].
  apply andb_prop in Hcond as [Hcond _]. apply andb_prop in Hcond as [_ Hnext].
  apply search_hasNextPage_lt in Hnext.
  split; [|done]. split.
  - change (Forall
              (fun t => SearchGrid.captured_total (SearchGrid.callback t.2)
                        = SearchGrid.totalItemCount (SearchGrid.exposed c1))
              (SearchGrid.timers c1
               ++ [(SearchGrid.nextTimer c1,
                    {| SearchGrid.due := now + 150;
                       SearchGrid.callback :=
                         SearchGrid.Debounced (SearchGrid.render c) |})])).
    apply Forall_app. split; [exact Hall|].
    repeat constructor. by rewrite He.
  - intros _.
    change (SearchGrid.visibleItemCount c1
            <= SearchGrid.totalItemCount (SearchGrid.exposed c1)).
    rewrite Hv, He. lia.
Qed.

Lemma search_inv_fire (now id : nat) (c : SearchGrid.Component) :
  search_inv c ->
  search_inv (SearchGrid.fire now id c)
  /\ SearchGrid.visibleItemCount c
     <= SearchGrid.visibleItemCount (SearchGrid.fire now id c).
Proof.
  intros Hinv.
  destruct (search_fire_cases now id c)
    as [[_ ->]|(i & t & _ & Hin & ->)]; [done|].
  pose proof Hinv as [Hall Hle].
  assert (Hroom : SearchGrid.visibleItemCount c
                  <= SearchGrid.totalItemCount (SearchGrid.exposed c)).
  { apply Hle. intros Hnil. rewrite Hnil in Hin.
    by apply not_elem_of_nil in Hin. }
  assert (Hcap : SearchGrid.captured_total (SearchGrid.callback t)
                 = SearchGrid.totalItemCount (SearchGrid.exposed c)).
  { rewrite Forall_forall in Hall. apply (Hall _ Hin). }
  pose proof (search_inv_clearTimeout id c Hinv) as [Hall' Hle'].
  destruct (SearchGrid.callback t) as [r|total];
    cbn [SearchGrid.captured_total] in Hcap.
  - unfold SearchGrid.debounced.
    destruct (_ && _); [|by split].
    unfold SearchGrid.loadMoreItems. destruct (_ || _); [by split|].
    split; [|done]. split.
    + change (Forall
                (fun t => SearchGrid.captured_total (SearchGrid.callback t.2)
                          = SearchGrid.totalItemCount (SearchGrid.exposed c))
                (SearchGrid.timers (SearchGrid.clearTimeout id c)
                 ++ [(SearchGrid.nextTimer c,
                      {| SearchGrid.due := now + 100;
                         SearchGrid.callback :=
                           SearchGrid.Reveal (SearchGrid.r_totalItemCount r) |})])).
      apply Forall_app. split; [exact Hall'|]. by repeat constructor.
    + intros _. exact Hroom.
  - subst total.
    set (T := SearchGrid.totalItemCount (SearchGrid.exposed c)) in *.
    assert (Hv : SearchGrid.visibleItemCount
                   (SearchGrid.reveal T (SearchGrid.clearTimeout id c))
                 = Nat.min (SearchGrid.visibleItemCount c
                            + SearchGrid.LOAD_MORE_BATCH_SIZE) T)
      by reflexivity.
    split; [split; [exact Hall'|]|].
    + intros _.
      change (SearchGrid.visibleItemCount
                (SearchGrid.reveal T (SearchGrid.clearTimeout id c)) <= T).
      rewrite Hv. lia.
    + rewrite Hv. lia.
Qed.

Lemma search_inv_step (c : SearchGrid.Component)
    (te : nat * SearchGrid.Event) :
  search_inv c ->
  SearchGrid.is_source_change te.2 = false ->
  search_inv (SearchGrid.step c te)
  /\ SearchGrid.visibleItemCount c
     <= SearchGrid.visibleItemCount (SearchGrid.step c te).
Proof.
  intros Hinv Hte. destruct te as [now [row|id|r a m|n]]; cbn in Hte |- *.
  - destruct (search_inv_cellsRendered now row c Hinv) as [H ->]. by split.
  - by apply search_inv_fire.
  - done.
  - by split.
Qed.

Lemma search_monotone (es : list (nat * SearchGrid.Event))
    (c : SearchGrid.Component) :
  search_inv c ->
  Forall (fun te => SearchGrid.is_source_change te.2 = false) es ->
  search_inv (SearchGrid.run c es)
  /\ SearchGrid.visibleItemCount c
     <= SearchGrid.visibleItemCount (SearchGrid.run c es).
Proof.
  revert c. induction es as [|te es IH]; intros c Hinv Hes; [done|].
  apply Forall_cons in Hes as [Hte Hes].
  destruct (search_inv_step c te Hinv Hte) as [Hinv' Hle].
  destruct (IH _ Hinv' Hes) as [Hinv'' Hle'].
  cbn. split; [done|]. etrans; done.
Qed.

(** C8, as stated, fails in the search grid.  A reveal requested for 100
    results completes after the results were replaced by 13 others and
    raises the count to 20; a deferred call scheduled in between, when the
    count was 12 of 13, then requests a reveal capped at 13, which lowers
    the count from 20 to 13.  The data source does not change during the
    last two events. *)
Lemma revealedCount_decreases_within_a_source :
  let c := SearchGrid.mount (Samples.searchResults 100) [] SearchGrid.All 4 in
  let before :=
    [(0, SearchGrid.CellsRendered 0); (150, SearchGrid.TimerFires 1);
     (200, SearchGrid.SourceChanges (Samples.searchResults 13) []
             SearchGrid.All);
     (210, SearchGrid.CellsRendered 0); (250, SearchGrid.TimerFires 2)] in
  let after :=
    [(360, SearchGrid.TimerFires 3); (460, SearchGrid.TimerFires 4)] in
  SearchGrid.legal 0 c (before ++ after) = true
  /\ forallb (fun te => negb (SearchGrid.is_source_change te.2)) after = true
  /\ SearchGrid.visibleItemCount (SearchGrid.run c before) = 20
  /\ SearchGrid.visibleItemCount (SearchGrid.run c (before ++ after)) = 13.
Proof. cbv zeta. repeat split; vm_compute; reflexivity. Qed.

(** C8, amended.  In the Douban grid, from mounting on, [visibleItemCount]
    never decreases across any events other than a change of [doubanData].
    In the search grid it never decreases across any events other than a
    change of the data source, counted from a state with no timer pending
    (the mounted state, or a source that began with no load or deferred call
    left over from an earlier one).  In both grids every change of the data
    source sets the count to [INITIAL_BATCH_SIZE]. *)
Theorem revealedCount_monotone_within_a_source :
  (forall (data : list DoubanGrid.DoubanItem) (loadingMore more : bool)
          (columns : nat) (es1 es2 : list (nat * DoubanGrid.Event)),
      Forall (fun te => DoubanGrid.is_data_change te.2 = false) es2 ->
      DoubanGrid.visibleItemCount
        (DoubanGrid.run (DoubanGrid.mount data loadingMore more columns) es1)
      <= DoubanGrid.visibleItemCount
           (DoubanGrid.run (DoubanGrid.mount data loadingMore more columns)
              (es1 ++ es2)))
  /\ (forall (c : DoubanGrid.Component) (t : nat)
             (data : list DoubanGrid.DoubanItem),
      DoubanGrid.visibleItemCount
        (DoubanGrid.step c (t, DoubanGrid.DataChanges data))
      = DoubanGrid.INITIAL_BATCH_SIZE)
  /\ (forall (c : SearchGrid.Component)
             (es1 es2 : list (nat * SearchGrid.Event)),
      SearchGrid.timers c = [] ->
      Forall (fun te => SearchGrid.is_source_change te.2 = false) (es1 ++ es2) ->
      SearchGrid.visibleItemCount (SearchGrid.run c es1)
      <= SearchGrid.visibleItemCount (SearchGrid.run c (es1 ++ es2)))
  /\ (forall (c : SearchGrid.Component) (t : nat)
             (results : list SearchGrid.SearchResult)
             (aggResults : list (string * list SearchGrid.SearchResult))
             (mode : SearchGrid.ViewMode),
      SearchGrid.visibleItemCount
        (SearchGrid.step c (t, SearchGrid.SourceChanges results aggResults mode))
      = SearchGrid.INITIAL_BATCH_SIZE).
Proof.
  split; [|split; [done|split; [|done]]].
  - intros data l m cols es1 es2 Hes2.
    unfold DoubanGrid.run. rewrite foldl_app.
    apply (douban_monotone es2); [|done].
    apply douban_inv_run, douban_inv_mount.
  - intros c es1 es2 Hidle Hes. apply Forall_app in Hes as [Hes1 Hes2].
    unfold SearchGrid.run. rewrite foldl_app.
    destruct (search_monotone es1 c (search_inv_idle c Hidle) Hes1) as [Hinv _].
    by destruct (search_monotone es2 _ Hinv Hes2) as [_ Hle].
Qed.

(** Forty Douban items and forty search results, four columns: two rounds
    of notification and timers. *)
Lemma revealedCount_monotone_within_a_source_witness :
  DoubanGrid.visibleItemCount
    (DoubanGrid.run (DoubanGrid.mount (Samples.doubanItems 40) false true 4)
       [(0, DoubanGrid.CellsRendered 3)])
  <= DoubanGrid.visibleItemCount
       (DoubanGrid.run (DoubanGrid.mount (Samples.doubanItems 40) false true 4)
          ([(0, DoubanGrid.CellsRendered 3)]
           ++ [(150, DoubanGrid.TimerFires 1); (200, DoubanGrid.CellsRendered 7);
               (350, DoubanGrid.TimerFires 2)]))
  /\ SearchGrid.visibleItemCount
       (SearchGrid.run
          (SearchGrid.mount (Samples.searchResults 40) [] SearchGrid.All 4)
          [(0, SearchGrid.CellsRendered 3)])
     <= SearchGrid.visibleItemCount
          (SearchGrid.run
             (SearchGrid.mount (Samples.searchResults 40) [] SearchGrid.All 4)
             ([(0, SearchGrid.CellsRendered 3)]
              ++ [(150, SearchGrid.TimerFires 1); (250, SearchGrid.TimerFires 2)])).
Proof.
  destruct revealedCount_monotone_within_a_source as (HD & _ & HS & _).
  split.
  - apply HD. by repeat constructor.
  - apply HS; [reflexivity|]. by repeat constructor.
Defined.

(** The scenarios of the specification on the Douban grid: 40 items, four
    columns.  Initially 16 are exposed in 4 rows and more can be shown;
    after one reveal 32 are exposed in 8 rows; after another, 40 (not 48),
    and whether more can be shown is decided by [hasMore] alone. *)
Example douban_scenarios :
  let c := DoubanGrid.mount (Samples.doubanItems 40) false false 4 in
  let c1 := DoubanGrid.loadMoreItems (DoubanGrid.render c) c in
  let c2 := DoubanGrid.loadMoreItems (DoubanGrid.render c1) c1 in
  (DoubanGrid.r_displayItemCount (DoubanGrid.render c),
   DoubanGrid.r_rowCount (DoubanGrid.render c),
   DoubanGrid.r_hasNextPage (DoubanGrid.render c)) = (16, 4, true)
  /\ (DoubanGrid.r_displayItemCount (DoubanGrid.render c1),
      DoubanGrid.r_rowCount (DoubanGrid.render c1)) = (32, 8)
  /\ (DoubanGrid.r_displayItemCount (DoubanGrid.render c2),
      DoubanGrid.r_hasNextPage (DoubanGrid.render c2)) = (40, false)
  /\ DoubanGrid.r_hasNextPage
       (DoubanGrid.render (DoubanGrid.changeFlags false true c2)) = true.
Proof. cbv zeta. repeat split; vm_compute; reflexivity. Qed.

(** * Further properties of the code *)

(** ** The grid rectangle and the exposed items *)

Lemma cell_of_index (cols i : nat) :
  1 <= cols ->
  i `mod` cols < cols
  /\ i `div` cols * cols + i `mod` cols = i
  /\ forall row col, col < cols -> row * cols + col = i ->
                     row = i `div` cols /\ col = i `mod` cols.
Proof.
  intros Hc. split; [apply Nat.mod_upper_bound; lia|].
  split; [pose proof (Nat.div_mod i cols ltac:(lia)); lia|].
  intros row col Hcol <-.
  rewrite (Nat.add_comm (row * cols) col).
  split.
  - rewrite Nat.div_add by lia. rewrite Nat.div_small by lia. lia.
  - rewrite Nat.Div0.mod_add. by rewrite Nat.mod_small.
Qed.

Lemma row_of_index_fits (n cols i : nat) :
  1 <= cols -> i < n -> i `div` cols < JS.ceil_div n cols.
Proof.
  intros Hc Hi. pose proof (ceil_div_upper n cols Hc).
  apply Nat.Div0.div_lt_upper_bound. lia.
Qed.

(** The cells of the Douban grid, as wired.  A cell takes [columnCount]
    and [displayItemCount] from the current render and reads the slice
    through [dataContextRef].  With [columnCount >= 1], the cell at
    [(row, column)] shows the card of the entry of the ref's slice at index
    [row * columnCount + column] when there is one and the index is below
    [displayItemCount], and is an empty slot otherwise.  Every index below
    [displayItemCount] has exactly one cell, inside the [rowCount] rows
    handed to the grid.  When the ref holds the slice published for the
    same data at a count [v0], the cell of an exposed index [i] shows
    [doubanData[i]] if [i < v0] and is an empty slot otherwise: in step
    ([v0] the current count) every exposed item is shown in order, and in
    the pass right after a reveal from [v0] the newly exposed indexes are
    still empty. *)
Theorem douban_grid_tiles_published_items :
  forall (columnCount visibleItemCount : nat)
         (doubanData : list DoubanGrid.DoubanItem) (hasMore : bool)
         (ctx : Cells.DataContext) (style : Style),
    1 <= columnCount ->
    let n := DoubanGrid.displayItemCount
               (DoubanGrid.exposure visibleItemCount doubanData hasMore) in
    let cell row column :=
      Cells.doubanCell ctx columnCount n row column style in
    (forall row column,
        cell row column
        = match Cells.getDisplayData ctx !! (row * columnCount + column) with
          | Some item =>
              if row * columnCount + column <? n
              then DoubanGrid.CardCell style
                     (Cells.doubanCard item (Cells.getType ctx))
              else DoubanGrid.EmptyCell style
          | None => DoubanGrid.EmptyCell style
          end)
    /\ (forall i, i < n ->
          i `div` columnCount < DoubanGrid.rowCount n columnCount
          /\ i `mod` columnCount < columnCount
          /\ forall row column,
               column < columnCount -> row * columnCount + column = i ->
               row = i `div` columnCount /\ column = i `mod` columnCount)
    /\ (forall (v0 : nat) (more0 : bool) (type : DoubanGrid.ContentType),
          ctx = Cells.published v0 doubanData more0 type ->
          forall i, i < n ->
            exists item,
              doubanData !! i = Some item
              /\ cell (i `div` columnCount) (i `mod` columnCount)
                 = if i <? v0
                   then DoubanGrid.CardCell style (Cells.doubanCard item type)
                   else DoubanGrid.EmptyCell style).
Proof.
  intros cols visible data more ctx style Hc n cell.
  assert (Hn : n = Nat.min visible (length data)) by reflexivity.
  assert (Hcell : forall row column,
             cell row column
             = match Cells.getDisplayData ctx !! (row * cols + column) with
               | Some item =>
                   if row * cols + column <? n
                   then DoubanGrid.CardCell style
                          (Cells.doubanCard item (Cells.getType ctx))
                   else DoubanGrid.EmptyCell style
               | None => DoubanGrid.EmptyCell style
               end).
  { intros row column. subst cell. cbv beta.
    unfold Cells.doubanCell, DoubanGrid.CellComponent.
    destruct (Nat.leb_spec n (row * cols + column)) as [Hge|Hlt].
    - destruct (Nat.ltb_spec (row * cols + column) n); [lia|].
      by destruct (Cells.getDisplayData ctx !! _).
    - destruct (Nat.ltb_spec (row * cols + column) n); [|lia].
      by destruct (Cells.getDisplayData ctx !! _). }
  split; [exact Hcell|]. split.
  - intros i Hi.
    destruct (cell_of_index cols i Hc) as (Hmod & _ & Huniq).
    split; [|done]. unfold DoubanGrid.rowCount.
    pose proof (row_of_index_fits n cols i Hc Hi). lia.
  - intros v0 more0 type -> i Hi.
    destruct (lookup_lt_is_Some_2 data i ltac:(lia)) as [item Hitem].
    destruct (cell_of_index cols i Hc) as (_ & Hidx & _).
    exists item. split; [done|]. rewrite Hcell, Hidx.
    unfold Cells.published.
    cbn [Cells.getDisplayData Cells.getType DoubanGrid.exposure
         DoubanGrid.displayData].
    rewrite slice_from_zero.
    destruct (Nat.ltb_spec i n); [|lia].
    destruct (Nat.ltb_spec i v0) as [Hlt|Hge].
    + rewrite lookup_take_lt by lia. by rewrite Hitem.
    + by rewrite lookup_take_ge by lia.
Qed.

(** Forty items in four columns, [visibleItemCount] just raised from 16 to
    32 while the ref still holds the first 16: the cell of index 3 shows
    its card, the cell of index 16 is an empty slot in this pass. *)
Lemma douban_grid_tiles_published_items_witness :
  let ctx := Cells.published 16 (Samples.doubanItems 40) false DoubanGrid.Movie in
  let n := DoubanGrid.displayItemCount
             (DoubanGrid.exposure 32 (Samples.doubanItems 40) false) in
  n = 32
  /\ Cells.doubanCell ctx 4 n 0 3 Samples.slot
     = DoubanGrid.CardCell Samples.slot
         (Cells.doubanCard Samples.doubanItem DoubanGrid.Movie)
  /\ Cells.doubanCell ctx 4 n 4 0 Samples.slot
     = DoubanGrid.EmptyCell Samples.slot.
Proof.
  cbv zeta. split; [reflexivity|].
  destruct (douban_grid_tiles_published_items 4 32 (Samples.doubanItems 40)
              false
              (Cells.published 16 (Samples.doubanItems 40) false DoubanGrid.Movie)
              Samples.slot) as (_ & _ & H); [lia|].
  split.
  - destruct (H 16 false DoubanGrid.Movie eq_refl 3) as (item & Hitem & Hcell);
      [vm_compute; lia|].
    vm_compute in Hitem. injection Hitem as <-. exact Hcell.
  - destruct (H 16 false DoubanGrid.Movie eq_refl 16) as (item & _ & Hcell);
      [vm_compute; lia|].
    exact Hcell.
Defined.



(** ** The statistics cache over a sequence of cell renders *)

Lemma CellComponent_store (columnIndex rowIndex : nat) (style : Style)
    (cd : SearchGrid.CellData) (st : SearchGrid.Store) :
  let q := {| SearchGrid.cr_columnIndex := columnIndex;
              SearchGrid.cr_rowIndex := rowIndex;
              SearchGrid.cr_style := style; SearchGrid.cr_data := cd |} in
  (SearchGrid.CellComponent columnIndex rowIndex style cd st).2
  = match Cells.requestedGroup q with
    | Some (key, group) =>
        {| SearchGrid.groupStats :=
             match SearchGrid.groupStats st !! key with
             | Some _ => SearchGrid.groupStats st
             | None => <[key := SearchGrid.cd_computeGroupStats cd group]>
                         (SearchGrid.groupStats st)
             end;
           SearchGrid.computeGroupStatsCalls :=
             SearchGrid.computeGroupStatsCalls st ++ [key] |}
    | None => st
    end.
Proof.
  unfold Cells.requestedGroup, SearchGrid.CellComponent. cbn.
  destruct (_ <=? _); [done|].
  destruct (SearchGrid.cd_displayData cd) as [groups|results].
  - by destruct (groups !! _) as [[key group]|].
  - by destruct (results !! _).
Qed.

(** The first writer wins.  After any sequence of cell renders, each with
    the cell data current at its time, the cache holds for a key the entry
    it held before, or else the statistics computed by the first render in
    the sequence that showed that key's group, or else nothing; and
    [computeGroupStats] has been called once per group card rendered, in
    order. *)
Theorem groupStats_first_writer_wins :
  forall (qs : list SearchGrid.CellRequest) (st : SearchGrid.Store) (k : string),
    SearchGrid.groupStats (SearchGrid.resolveAll st qs) !! k
    = match SearchGrid.groupStats st !! k with
      | Some v => Some v
      | None => Cells.firstStats k qs
      end
    /\ SearchGrid.computeGroupStatsCalls (SearchGrid.resolveAll st qs)
       = SearchGrid.computeGroupStatsCalls st
         ++ omap (fun q => fst <$> Cells.requestedGroup q) qs.
Proof.
  induction qs as [|q qs IH]; intros st k.
  - cbn. rewrite app_nil_r. by destruct (_ !! k).
  - destruct (IH (SearchGrid.resolve st q) k) as [IHk IHcalls].
    change (SearchGrid.resolveAll st (q :: qs))
      with (SearchGrid.resolveAll (SearchGrid.resolve st q) qs).
    rewrite IHk, IHcalls. clear IH IHk IHcalls.
    unfold SearchGrid.resolve. destruct q as [col row style cd].
    cbn [SearchGrid.cr_columnIndex SearchGrid.cr_rowIndex SearchGrid.cr_style
         SearchGrid.cr_data].
    rewrite CellComponent_store. cbn [Cells.firstStats omap list_omap].
    cbv zeta.
    set (rg := Cells.requestedGroup _).
    destruct rg as [[key group]|]; cbn.
    + rewrite <- app_assoc. split; [|done].
      destruct (decide (key = k)) as [->|Hne].
      * destruct (SearchGrid.groupStats st !! k) as [v|] eqn:Hk.
        -- by rewrite Hk.
        -- by rewrite lookup_insert_eq.
      * destruct (SearchGrid.groupStats st !! key); [done|].
        by rewrite lookup_insert_ne.
    + done.
Qed.

(** In the flat view no cell calls [computeGroupStats] or writes the cache,
    whatever the cell and however often it is rendered. *)
Theorem flat_view_leaves_the_cache_alone :
  forall (qs : list SearchGrid.CellRequest) (st : SearchGrid.Store),
    Forall (fun q => exists results,
                SearchGrid.cd_displayData (SearchGrid.cr_data q)
                = SearchGrid.AllData results) qs ->
    SearchGrid.resolveAll st qs = st.
Proof.
  induction qs as [|q qs IH]; intros st Hall; [done|].
  apply Forall_cons in Hall as [[results Hq] Hall].
  change (SearchGrid.resolveAll st (q :: qs))
    with (SearchGrid.resolveAll (SearchGrid.resolve st q) qs).
  assert (Hst : SearchGrid.resolve st q = st).
  { unfold SearchGrid.resolve, SearchGrid.CellComponent. rewrite Hq.
    destruct (_ <=? _); [done|]. by destruct (results !! _). }
  rewrite Hst. by apply IH.
Qed.

Lemma flat_view_leaves_the_cache_alone_witness :
  SearchGrid.resolveAll Samples.emptyStore
    [ {| SearchGrid.cr_columnIndex := 1; SearchGrid.cr_rowIndex := 0;
         SearchGrid.cr_style := Samples.slot;
         SearchGrid.cr_data :=
           SearchGrid.cellData
             (SearchGrid.mount (Samples.searchResults 40) [] SearchGrid.All 4)
             "B" (fun _ => 0) Samples.computeGroupStats |} ]
  = Samples.emptyStore.
Proof.
  apply flat_view_leaves_the_cache_alone.
  repeat constructor. by eexists.
Defined.

(** ** What grows as more is revealed *)

(** Revealing more only appends.  For the same data, the exposure at a
    smaller [visibleItemCount] is a prefix of the exposure at a larger one,
    and when the data itself grows at its end the old exposure is a prefix
    of the new one under the same count: cards already shown keep their
    cells. *)
Theorem exposure_only_appends :
  forall (v v' : nat),
    v <= v' ->
    (forall (data data' : list DoubanGrid.DoubanItem) (more more' : bool),
        data `prefix_of` data' ->
        DoubanGrid.displayData (DoubanGrid.exposure v data more)
        `prefix_of` DoubanGrid.displayData (DoubanGrid.exposure v' data' more')
        /\ DoubanGrid.displayItemCount (DoubanGrid.exposure v data more)
           <= DoubanGrid.displayItemCount (DoubanGrid.exposure v' data' more'))
    /\ (forall (mode : SearchGrid.ViewMode)
               (agg : list (string * list SearchGrid.SearchResult))
               (flat : list SearchGrid.SearchResult),
        let e := SearchGrid.exposure mode agg flat v in
        let e' := SearchGrid.exposure mode agg flat v' in
        SearchGrid.displayData e
        = SearchGrid.data_take (SearchGrid.displayItemCount e)
            (SearchGrid.displayData e')
        /\ SearchGrid.displayItemCount e <= SearchGrid.displayItemCount e'
        /\ (SearchGrid.hasNextPage e' = true -> SearchGrid.hasNextPage e = true)).
Proof.
  intros v v' Hv. split.
  - intros data data' more more' [rest ->]. cbn.
    rewrite !slice_from_zero, length_app. split; [|lia].
    exists (drop (Nat.min v (length data)) (take (Nat.min v' (length data + length rest))
                                     (data ++ rest))).
    rewrite <- (take_drop (Nat.min v (length data))
                  (take (Nat.min v' (length data + length rest)) (data ++ rest)))
      at 1.
    f_equal. rewrite take_take.
    replace (Nat.min (Nat.min v (length data))
               (Nat.min v' (length data + length rest)))
      with (Nat.min v (length data)) by lia.
    rewrite take_app_le by lia. done.
  - intros mode agg flat e e'. subst e e'. unfold SearchGrid.exposure.
    destruct mode;
      cbn [SearchGrid.displayData SearchGrid.displayItemCount
           SearchGrid.hasNextPage SearchGrid.data_length SearchGrid.data_slice
           SearchGrid.data_take];
      rewrite !slice_from_zero, take_take.
    + replace (Nat.min (Nat.min v (length agg)) (Nat.min v' (length agg)))
        with (Nat.min v (length agg)) by lia.
      split; [done|]. split; [lia|]. rewrite !Nat.ltb_lt. lia.
    + replace (Nat.min (Nat.min v (length flat)) (Nat.min v' (length flat)))
        with (Nat.min v (length flat)) by lia.
      split; [done|]. split; [lia|]. rewrite !Nat.ltb_lt. lia.
Qed.

Lemma exposure_only_appends_witness :
  DoubanGrid.displayData
    (DoubanGrid.exposure 16 (Samples.doubanItems 20) true)
  `prefix_of`
  DoubanGrid.displayData
    (DoubanGrid.exposure 32 (Samples.doubanItems 20 ++ Samples.doubanItems 20)
       false).
Proof.
  destruct (exposure_only_appends 16 32) as [H _]; [lia|].
  apply (H (Samples.doubanItems 20)
           (Samples.doubanItems 20 ++ Samples.doubanItems 20) true false).
  by eexists.
Defined.

(** ** The search grid in every reachable state *)

Lemma fire_shape (now id : nat) (c : SearchGrid.Component) :
  let c' := SearchGrid.fire now id c in
  let kept := filter (fun t => t.1 <> id) (SearchGrid.timers c) in
  c' = c
  \/ exists t,
       (id, t) ∈ SearchGrid.timers c
       /\ SearchGrid.debounceRef c' = SearchGrid.debounceRef c
       /\ match SearchGrid.callback t with
          | SearchGrid.Reveal total =>
              SearchGrid.timers c' = kept
              /\ SearchGrid.nextTimer c' = SearchGrid.nextTimer c
              /\ SearchGrid.visibleItemCount c'
                 = Nat.min (SearchGrid.visibleItemCount c
                            + SearchGrid.LOAD_MORE_BATCH_SIZE) total
              /\ SearchGrid.isLoadingMore c' = false
          | SearchGrid.Debounced r =>
              SearchGrid.visibleItemCount c' = SearchGrid.visibleItemCount c
              /\ ((SearchGrid.timers c' = kept
                   /\ SearchGrid.nextTimer c' = SearchGrid.nextTimer c
                   /\ SearchGrid.isLoadingMore c' = SearchGrid.isLoadingMore c)
                  \/ (SearchGrid.r_isLoadingMore r = false
                      /\ SearchGrid.r_hasNextPage r = true
                      /\ SearchGrid.timers c'
                         = kept
                           ++ [(SearchGrid.nextTimer c,
                                {| SearchGrid.due := now + 100;
                                   SearchGrid.callback :=
                                     SearchGrid.Reveal
                                       (SearchGrid.r_totalItemCount r) |})]
                      /\ SearchGrid.nextTimer c' = S (SearchGrid.nextTimer c)
                      /\ SearchGrid.isLoadingMore c' = true))
          end.
Proof.
  cbv zeta.
  destruct (search_fire_cases now id c)
    as [[_ ->]|(i & t & _ & Hin & ->)]; [by left|].
  right. exists t. split; [done|].
  destruct (SearchGrid.callback t) as [r|total]; [|by repeat split].
  unfold SearchGrid.debounced, SearchGrid.loadMoreItems.
  destruct (SearchGrid.r_isLoadingMore r), (SearchGrid.r_hasNextPage r);
    search_fields; cbn [negb andb orb]; search_fields;
    repeat split; try done; (by left) || (right; by repeat split).
Qed.

Lemma nodup_fst_unique {A B : Type} (l : list (A * B)) (x : A) (y1 y2 : B) :
  NoDup l.*1 -> (x, y1) ∈ l -> (x, y2) ∈ l -> y1 = y2.
Proof.
  induction l as [|[a b] l IH]; intros Hnd H1 H2.
  - by apply not_elem_of_nil in H1.
  - cbn in Hnd. apply NoDup_cons in Hnd as [Hnotin Hnd].
    apply elem_of_cons in H1 as [H1|H1], H2 as [H2|H2].
    + congruence.
    + injection H1 as -> ->. destruct Hnotin.
      apply list_elem_of_fmap. by exists (a, y2).
    + injection H2 as -> ->. destruct Hnotin.
      apply list_elem_of_fmap. by exists (a, y1).
    + by apply IH.
Qed.

Lemma nodup_fst_filter {A B : Type} (P : A * B -> Prop)
    `{!forall x, Decision (P x)} (l : list (A * B)) :
  NoDup l.*1 -> NoDup (filter P l).*1.
Proof.
  induction l as [|[a b] l IH]; [done|].
  rewrite fmap_cons. intros [Hn Hnd]%NoDup_cons.
  rewrite filter_cons. destruct (decide (P (a, b))); [|by apply IH].
  rewrite fmap_cons. apply NoDup_cons. split; [|by apply IH].
  intros ([a' b'] & Heq & Hin)%list_elem_of_fmap. cbn in Heq. subst a'.
  apply list_elem_of_filter in Hin as [_ Hin]. apply Hn.
  apply list_elem_of_fmap. by exists (a, b').
Qed.

Lemma nodup_fst_snoc {A B : Type} (l : list (A * B)) (a : A) (b : B) :
  NoDup l.*1 -> Forall (fun t => t.1 <> a) l -> NoDup (l ++ [(a, b)]).*1.
Proof.
  intros Hnd Hne. rewrite fmap_app. apply NoDup_app. split; [done|].
  split; [|cbn; apply NoDup_singleton].
  intros x Hx Hx'. apply list_elem_of_singleton in Hx'. subst x.
  apply list_elem_of_fmap in Hx as ([a' b'] & Heq & Hin). cbn in Heq. subst a'.
  rewrite Forall_forall in Hne. by apply (Hne _ Hin).
Qed.

Lemma kept_by_notification_sub (c : SearchGrid.Component) t :
  t ∈ kept_by_notification c -> t ∈ SearchGrid.timers c.
Proof.
  unfold kept_by_notification. destruct (SearchGrid.debounceRef c); [|done].
  by intros [_ ?]%list_elem_of_filter.
Qed.

Lemma floor_inv_step (c : SearchGrid.Component) (te : nat * SearchGrid.Event) :
  floor_inv c -> floor_inv (SearchGrid.step c te).
Proof.
  intros [Hv Hall]. rewrite Forall_forall in Hall.
  unfold floor_inv, SearchGrid.INITIAL_BATCH_SIZE in *.
  destruct te as [now [row|id|r a m|n]]; cbn [SearchGrid.step fst snd].
  - destruct (cellsRendered_shape now row c) as (-> & _ & _ & Hshape).
    split; [done|]. apply Forall_forall. intros t Ht.
    destruct Hshape as [(Hnear & Heq & _)|(_ & Heq & _)]; rewrite Heq in Ht.
    + apply elem_of_app in Ht as [Ht|Ht].
      * by apply Hall, kept_by_notification_sub.
      * apply list_elem_of_singleton in Ht. subst t.
        change (SearchGrid.hasNextPage (SearchGrid.exposed c) = true ->
                12 < SearchGrid.totalItemCount (SearchGrid.exposed c)).
        intros Hnext%search_hasNextPage_lt. lia.
    + by apply Hall, kept_by_notification_sub.
  - destruct (fire_shape now id c) as [->|(t & Hin & _ & Hshape)].
    { split; [done|]. by apply Forall_forall. }
    specialize (Hall _ Hin) as Ht. cbn in Ht.
    destruct (SearchGrid.callback t) as [r|total].
    + destruct Hshape as (-> & [(Heq & _)|(_ & Hnext & Heq & _)]);
        rewrite Heq.
      * split; [done|]. apply Forall_forall.
        intros x [_ Hx]%list_elem_of_filter. by apply Hall.
      * split; [done|]. apply Forall_forall. intros x Hx.
        apply elem_of_app in Hx as [[_ Hx]%list_elem_of_filter|Hx];
          [by apply Hall|].
        apply list_elem_of_singleton in Hx. subst x. cbn. by apply Ht.
    + destruct Hshape as (Heq & _ & -> & _). rewrite Heq. split.
      * unfold SearchGrid.LOAD_MORE_BATCH_SIZE. lia.
      * apply Forall_forall.
        intros x [_ Hx]%list_elem_of_filter. by apply Hall.
  - split; [done|]. by apply Forall_forall.
  - split; [done|]. by apply Forall_forall.
Qed.

Lemma floor_inv_run (es : list (nat * SearchGrid.Event))
    (c : SearchGrid.Component) :
  floor_inv c -> floor_inv (SearchGrid.run c es).
Proof.
  revert c. induction es as [|te es IH]; intros c H; [done|].
  cbn. apply IH. by apply floor_inv_step.
Qed.

(** Whatever happens to a mounted search grid, stale timers included, the
    revealed count never falls below [INITIAL_BATCH_SIZE]; so at least the
    first [min(12, total)] entries are exposed, and a list of at most 12
    entries is exposed in full with nothing more to load. *)
Theorem search_never_below_initial_batch :
  forall (results : list SearchGrid.SearchResult)
         (aggResults : list (string * list SearchGrid.SearchResult))
         (mode : SearchGrid.ViewMode) (columns : nat)
         (es : list (nat * SearchGrid.Event)),
    let c := SearchGrid.run (SearchGrid.mount results aggResults mode columns) es in
    let e := SearchGrid.exposed c in
    SearchGrid.INITIAL_BATCH_SIZE <= SearchGrid.visibleItemCount c
    /\ Nat.min SearchGrid.INITIAL_BATCH_SIZE (SearchGrid.totalItemCount e)
       <= SearchGrid.displayItemCount e
    /\ (SearchGrid.totalItemCount e <= SearchGrid.INITIAL_BATCH_SIZE ->
        SearchGrid.displayItemCount e = SearchGrid.totalItemCount e
        /\ SearchGrid.hasNextPage e = false).
Proof.
  intros results agg mode columns es c e.
  assert (Hinv : floor_inv c).
  { apply floor_inv_run. split; [done | constructor]. }
  destruct Hinv as [Hv _]. split; [done|].
  subst e. unfold SearchGrid.exposed, SearchGrid.exposure.
  cbn [SearchGrid.totalItemCount SearchGrid.displayItemCount
       SearchGrid.hasNextPage].
  split; [lia|]. intros Hle. split; [lia|]. apply Nat.ltb_ge. lia.
Qed.

Lemma host_inv_step (c : SearchGrid.Component) (te : nat * SearchGrid.Event) :
  host_inv c -> host_inv (SearchGrid.step c te).
Proof.
  intros (Hnd & Hbelow & Href & Hnamed).
  assert (Hkept_nd : NoDup (kept_by_notification c).*1).
  { unfold kept_by_notification. destruct (SearchGrid.debounceRef c); [|done].
    by apply nodup_fst_filter. }
  rewrite Forall_forall in Hbelow. rewrite Forall_forall in Hnamed.
  unfold host_inv.
  destruct te as [now [row|id|r a m|n]]; cbn [SearchGrid.step fst snd].
  - destruct (cellsRendered_shape now row c)
      as (_ & _ & _ & [(_ & -> & -> & ->)|(_ & -> & -> & ->)]).
    + split; [|split; [|split]].
      * apply nodup_fst_snoc; [done|]. apply Forall_forall.
        intros t Ht%kept_by_notification_sub%Hbelow. lia.
      * apply Forall_app. split; [|repeat constructor; cbn; lia].
        apply Forall_forall.
        intros t Ht%kept_by_notification_sub%Hbelow. lia.
      * intros id [= <-]. lia.
      * apply Forall_app. split; [|by repeat constructor].
        apply Forall_forall.
        intros t Ht%kept_by_notification_sub%Hbelow [= Heq]. lia.
    + split; [done|]. split; [|split; [done|]].
      * apply Forall_forall. by intros t Ht%kept_by_notification_sub%Hbelow.
      * apply Forall_forall. intros t Ht%kept_by_notification_sub. by apply Hnamed.
  - destruct (fire_shape now id c) as [->|(t & Hin & -> & Hshape)].
    { repeat split; try done; by apply Forall_forall. }
    assert (Hk1 : NoDup (filter (fun t => t.1 <> id) (SearchGrid.timers c)).*1)
      by by apply nodup_fst_filter.
    assert (Hk2 : forall x,
               x ∈ filter (fun t => t.1 <> id) (SearchGrid.timers c) ->
               x ∈ SearchGrid.timers c)
      by by intros x [_ ?]%list_elem_of_filter.
    destruct (SearchGrid.callback t) as [r|total].
    + destruct Hshape as (_ & [(-> & -> & _)|(_ & _ & -> & -> & _)]).
      * split; [done|]. split; [|split; [done|]].
        -- apply Forall_forall. by intros x Hx%Hk2%Hbelow.
        -- apply Forall_forall. intros x Hx%Hk2. by apply Hnamed.
      * split; [|split; [|split]].
        -- apply nodup_fst_snoc; [done|]. apply Forall_forall.
           intros x Hx%Hk2%Hbelow. lia.
        -- apply Forall_app. split; [|repeat constructor; cbn; lia].
           apply Forall_forall. intros x Hx%Hk2%Hbelow. lia.
        -- intros id' Hid'%Href. lia.
        -- apply Forall_app. split.
           ++ apply Forall_forall. intros x Hx%Hk2. by apply Hnamed.
           ++ repeat constructor. cbn. intros Hid'%Href. lia.
    + destruct Hshape as (-> & -> & _).
      split; [done|]. split; [|split; [done|]].
      * apply Forall_forall. by intros x Hx%Hk2%Hbelow.
      * apply Forall_forall. intros x Hx%Hk2. by apply Hnamed.
  - repeat split; try done; by apply Forall_forall.
  - repeat split; try done; by apply Forall_forall.
Qed.

Lemma flag_inv_step (c : SearchGrid.Component) (te : nat * SearchGrid.Event) :
  host_inv c -> flag_inv c -> flag_inv (SearchGrid.step c te).
Proof.
  intros (Hnd & _ & _ & Hnamed) Hflag. rewrite Forall_forall in Hnamed.
  unfold flag_inv in *.
  destruct te as [now [row|id|r a m|n]]; cbn [SearchGrid.step fst snd].
  - destruct (cellsRendered_shape now row c) as (_ & -> & _ & Hshape).
    intros Hl. apply Hflag, Exists_exists in Hl as (t & Hin & Ht).
    assert (Hkept : t ∈ kept_by_notification c).
    { unfold kept_by_notification.
      destruct (SearchGrid.debounceRef c) as [id|] eqn:Href; [|done].
      apply list_elem_of_filter. split; [|done]. intros Heq.
      specialize (Hnamed t Hin).
      assert (SearchGrid.is_debounced (SearchGrid.callback t.2) = true)
        by (apply Hnamed; rewrite ?Href; by rewrite Heq).
      congruence. }
    apply Exists_exists. exists t. split; [|done].
    destruct Hshape as [(_ & -> & _)|(_ & -> & _)]; [|done].
    apply elem_of_app. by left.
  - destruct (fire_shape now id c) as [->|(t & Hin & _ & Hshape)]; [done|].
    destruct (SearchGrid.callback t) as [r|total] eqn:Hcb.
    + destruct Hshape as (_ & [(-> & _ & ->)|(_ & _ & -> & _ & _)]).
      * intros Hl. apply Hflag, Exists_exists in Hl as (t' & Hin' & Ht').
        apply Exists_exists. exists t'. split; [|done].
        apply list_elem_of_filter. split; [|done]. intros Heq.
        destruct t' as [id' t']. cbn in Heq, Ht'. subst id'.
        assert (t' = t) by by eapply nodup_fst_unique.
        subst t'. rewrite Hcb in Ht'. done.
      * intros _. apply Exists_app. right. by repeat constructor.
    + destruct Hshape as (_ & _ & _ & ->). done.
  - done.
  - done.
Qed.

Lemma host_flag_run (es : list (nat * SearchGrid.Event))
    (c : SearchGrid.Component) :
  host_inv c -> flag_inv c ->
  host_inv (SearchGrid.run c es) /\ flag_inv (SearchGrid.run c es).
Proof.
  revert c. induction es as [|te es IH]; intros c Hh Hf; [done|].
  cbn. apply IH; [by apply host_inv_step | by apply flag_inv_step].
Qed.

(** The in-flight flag of the search grid cannot stay set forever: in every
    state a mounted grid can reach, whenever [isLoadingMore] is set a reveal
    timer is pending, and running any pending reveal clears the flag. *)
Theorem search_loading_flag_is_always_cleared :
  forall (results : list SearchGrid.SearchResult)
         (aggResults : list (string * list SearchGrid.SearchResult))
         (mode : SearchGrid.ViewMode) (columns : nat)
         (es : list (nat * SearchGrid.Event)),
    let c := SearchGrid.run (SearchGrid.mount results aggResults mode columns) es in
    (SearchGrid.isLoadingMore c = true ->
     exists id due total,
       (id, {| SearchGrid.due := due;
               SearchGrid.callback := SearchGrid.Reveal total |})
       ∈ SearchGrid.timers c)
    /\ (forall id due total now,
          (id, {| SearchGrid.due := due;
                  SearchGrid.callback := SearchGrid.Reveal total |})
          ∈ SearchGrid.timers c ->
          SearchGrid.isLoadingMore (SearchGrid.step c (now, SearchGrid.TimerFires id))
          = false).
Proof.
  intros results agg mode columns es c.
  destruct (host_flag_run es (SearchGrid.mount results agg mode columns))
    as [(Hnd & _) Hflag].
  { repeat split; try done; constructor. }
  { done. }
  fold c in Hnd, Hflag. split.
  - intros Hl. apply Hflag, Exists_exists in Hl as ([id [due cb]] & Hin & Ht).
    cbn in Ht. destruct cb as [r|total]; [done|]. by exists id, due, total.
  - intros id due total now Hin. cbn [SearchGrid.step fst snd].
    destruct (search_fire_cases now id c)
      as [[Hnone _]|(i & t & _ & Hin' & ->)].
    + apply list_find_None in Hnone. rewrite Forall_forall in Hnone.
      by destruct (Hnone _ Hin).
    + assert (t = {| SearchGrid.due := due;
                     SearchGrid.callback := SearchGrid.Reveal total |})
        by by eapply nodup_fst_unique.
      by subst t.
Qed.

(** ** One deferred call at a time *)

Lemma pendingDebounced_after_notification (now row : nat)
    (c : SearchGrid.Component) :
  trigger_inv c ->
  SearchGrid.near_end (SearchGrid.render c) row = false ->
  SearchGrid.pendingDebounced
    (SearchGrid.step c (now, SearchGrid.CellsRendered row)) = [].
Proof.
  intros Hinv Hnear. cbn [SearchGrid.step fst snd].
  unfold SearchGrid.memoizedOnCellsRendered.
  unfold SearchGrid.near_end in Hnear. rewrite Hnear.
  apply (pendingDebounced_cleared c Hinv).
Qed.

Lemma pendingDebounced_after_fire (now id : nat) (c : SearchGrid.Component) :
  length (SearchGrid.pendingDebounced (SearchGrid.fire now id c))
  <= length (SearchGrid.pendingDebounced c).
Proof.
  assert (Hkept :
    length (filter (fun t => SearchGrid.is_debounced (SearchGrid.callback t.2) = true)
              (filter (fun t => t.1 <> id) (SearchGrid.timers c)))
    <= length (SearchGrid.pendingDebounced c)).
  { rewrite list_filter_filter.
    rewrite (list_filter_iff _
               (fun a => a.1 <> id
                         /\ SearchGrid.is_debounced (SearchGrid.callback a.2) = true))
      by (intros a; tauto).
    rewrite <- list_filter_filter. apply length_filter. }
  destruct (fire_shape now id c) as [->|(t & _ & _ & Hshape)]; [done|].
  unfold SearchGrid.pendingDebounced at 1.
  destruct (SearchGrid.callback t) as [r|total].
  - destruct Hshape as (_ & [(-> & _)|(_ & _ & -> & _)]); [done|].
    rewrite filter_app, filter_cons_False by (cbn; congruence).
    by rewrite filter_nil, app_nil_r.
  - by destruct Hshape as (-> & _).
Qed.

(** At most one deferred call is pending at any time: in every state the
    current search grid can reach from mounting, and in every state the
    Douban grid can reach, where the deferred call is its only timer. *)
Theorem at_most_one_deferred_call :
  (forall (results : list SearchGrid.SearchResult)
          (aggResults : list (string * list SearchGrid.SearchResult))
          (mode : SearchGrid.ViewMode) (columns : nat)
          (es : list (nat * SearchGrid.Event)),
      length (SearchGrid.pendingDebounced
                (SearchGrid.run
                   (SearchGrid.mount results aggResults mode columns) es)) <= 1)
  /\ (forall (data : list DoubanGrid.DoubanItem) (loadingMore more : bool)
             (columns : nat) (es : list (nat * DoubanGrid.Event)),
      length (DoubanGrid.timers
                (DoubanGrid.run
                   (DoubanGrid.mount data loadingMore more columns) es)) <= 1).
Proof.
  split.
  - intros results agg mode columns es.
    assert (H : forall c,
               trigger_inv c -> length (SearchGrid.pendingDebounced c) <= 1 ->
               length (SearchGrid.pendingDebounced (SearchGrid.run c es)) <= 1).
    { induction es as [|te es IH]; intros c Hinv Hlen; [done|].
      cbn [SearchGrid.run foldl]. apply IH; [by apply trigger_inv_step|].
      destruct te as [now [row|id|r a m|n]]; try done.
      - destruct (SearchGrid.near_end (SearchGrid.render c) row) eqn:Hnear.
        + destruct (cellsRendered_reschedules now row c Hinv Hnear) as [-> _].
          cbn. lia.
        + rewrite pendingDebounced_after_notification by done. cbn. lia.
      - cbn [SearchGrid.step fst snd].
        pose proof (pendingDebounced_after_fire now id c). lia. }
    apply H; [apply trigger_inv_mount | cbn; lia].
  - intros data l m columns es.
    destruct (douban_inv_run es (DoubanGrid.mount data l m columns)
                (douban_inv_mount data l m columns))
      as [_ [->|(id & t & -> & _)]]; cbn; lia.
Qed.

Lemma douban_notification_cases (now row : nat) (c : DoubanGrid.Component) :
  douban_inv c ->
  DoubanGrid.timers (DoubanGrid.step c (now, DoubanGrid.CellsRendered row))
  = if douban_near_end (DoubanGrid.render c) row
    then [(DoubanGrid.nextTimer c,
           {| DoubanGrid.due := now + 150;
              DoubanGrid.closure := DoubanGrid.render c |})]
    else [].
Proof.
  intros Hinv. pose proof (douban_cleared c Hinv) as Hnil.
  cbn [DoubanGrid.step fst snd].
  unfold DoubanGrid.memoizedOnCellsRendered, douban_near_end.
  set (c1 := match DoubanGrid.debounceRef c with
             | Some id => DoubanGrid.clearTimeout id c
             | None => c
             end) in *.
  assert (Hnext : DoubanGrid.nextTimer c1 = DoubanGrid.nextTimer c)
    by (subst c1; by destruct (DoubanGrid.debounceRef c)).
  destruct (_ && _ && _); [|done].
  cbn. by rewrite Hnil, Hnext.
Qed.

(** A notification that does not satisfy the trigger's condition (the last
    visible row is not near the end, nothing more can be shown, or a load is
    in flight) still cancels the deferred call that was pending, and
    schedules none: scrolling away within the debounce window calls off the
    load.  This holds in every reachable state of the current search grid
    and of the Douban grid. *)
Theorem unqualified_notification_cancels :
  (forall (results : list SearchGrid.SearchResult)
          (aggResults : list (string * list SearchGrid.SearchResult))
          (mode : SearchGrid.ViewMode) (columns : nat)
          (es : list (nat * SearchGrid.Event)) (now row : nat),
      let c := SearchGrid.run (SearchGrid.mount results aggResults mode columns) es in
      let c' := SearchGrid.step c (now, SearchGrid.CellsRendered row) in
      SearchGrid.near_end (SearchGrid.render c) row = false ->
      SearchGrid.pendingDebounced c' = []
      /\ SearchGrid.loadMoreItemsCalls c' = SearchGrid.loadMoreItemsCalls c
      /\ SearchGrid.visibleItemCount c' = SearchGrid.visibleItemCount c)
  /\ (forall (data : list DoubanGrid.DoubanItem) (loadingMore more : bool)
             (columns : nat) (es : list (nat * DoubanGrid.Event))
             (now row : nat),
      let c := DoubanGrid.run (DoubanGrid.mount data loadingMore more columns) es in
      let c' := DoubanGrid.step c (now, DoubanGrid.CellsRendered row) in
      douban_near_end (DoubanGrid.render c) row = false ->
      DoubanGrid.timers c' = []
      /\ forall id, DoubanGrid.step c' (now + 150, DoubanGrid.TimerFires id) = c').
Proof.
  split.
  - intros results agg mode columns es now row c c' Hnear.
    split.
    + apply pendingDebounced_after_notification; [|done].
      apply trigger_inv_run, trigger_inv_mount.
    + subst c'. cbn [SearchGrid.step fst snd].
      by destruct (cellsRendered_shape now row c) as (-> & _ & -> & _).
  - intros data l m columns es now row c c' Hnear.
    assert (Hnil : DoubanGrid.timers c' = []).
    { subst c'. rewrite douban_notification_cases, Hnear; [done|].
      apply douban_inv_run, douban_inv_mount. }
    split; [done|]. intros id. cbn [DoubanGrid.step fst snd].
    unfold DoubanGrid.fire. by rewrite Hnil.
Qed.

Lemma unqualified_notification_cancels_witness :
  let c := SearchGrid.run
             (SearchGrid.mount (Samples.searchResults 100) [] SearchGrid.All 1)
             [(0, SearchGrid.CellsRendered 9)] in
  length (SearchGrid.pendingDebounced c) = 1
  /\ SearchGrid.pendingDebounced
       (SearchGrid.step c (20, SearchGrid.CellsRendered 2)) = [].
Proof.
  cbv zeta. split; [vm_compute; reflexivity|].
  destruct unqualified_notification_cancels as [H _].
  apply (H (Samples.searchResults 100) [] SearchGrid.All 1
           [(0, SearchGrid.CellsRendered 9)] 20 2).
  vm_compute. reflexivity.
Defined.

(** ** A whole round of the trigger *)

(** One round in the search grid.  From a state with no timer pending, a
    notification that satisfies the condition of line 278, the deferred
    call 150 ms later and the reveal 100 ms after that form a trace the
    clock allows; [loadMoreItems] is called once; while the reveal is
    pending [isLoadingMore] is set; and at the end [visibleItemCount] has
    grown to [min(visibleItemCount + 8, totalItemCount)], the flag is clear
    and no timer is pending. *)
Theorem search_round_reveals_a_batch :
  forall (c : SearchGrid.Component) (now row : nat),
    SearchGrid.timers c = [] ->
    SearchGrid.near_end (SearchGrid.render c) row = true ->
    let id := SearchGrid.nextTimer c in
    let scheduled := [(now, SearchGrid.CellsRendered row)] in
    let requested := scheduled ++ [(now + 150, SearchGrid.TimerFires id)] in
    let revealed := requested ++ [(now + 250, SearchGrid.TimerFires (S id))] in
    let total := SearchGrid.totalItemCount (SearchGrid.exposed c) in
    SearchGrid.legal now c revealed = true
    /\ SearchGrid.loadMoreItemsCalls (SearchGrid.run c scheduled)
       = SearchGrid.loadMoreItemsCalls c
    /\ SearchGrid.isLoadingMore (SearchGrid.run c requested) = true
    /\ SearchGrid.visibleItemCount (SearchGrid.run c requested)
       = SearchGrid.visibleItemCount c
    /\ SearchGrid.loadMoreItemsCalls (SearchGrid.run c revealed)
       = S (SearchGrid.loadMoreItemsCalls c)
    /\ SearchGrid.visibleItemCount (SearchGrid.run c revealed)
       = Nat.min (SearchGrid.visibleItemCount c + SearchGrid.LOAD_MORE_BATCH_SIZE)
                 total
    /\ SearchGrid.visibleItemCount c
       < SearchGrid.visibleItemCount (SearchGrid.run c revealed) <= total
    /\ SearchGrid.isLoadingMore (SearchGrid.run c revealed) = false
    /\ SearchGrid.timers (SearchGrid.run c revealed) = [].
Proof.
  intros c now row Hidle Hnear id scheduled requested revealed total.
  destruct (near_end_true _ _ Hnear) as [Hnext Hload].
  pose proof (search_hasNextPage_lt c Hnext) as Hlt. fold total in Hlt.
  (* the notification *)
  set (c1 := SearchGrid.run c scheduled).
  assert (H1 : SearchGrid.timers c1
               = [(id, {| SearchGrid.due := now + 150;
                          SearchGrid.callback :=
                            SearchGrid.Debounced (SearchGrid.render c) |})]
               /\ SearchGrid.nextTimer c1 = S id
               /\ SearchGrid.visibleItemCount c1 = SearchGrid.visibleItemCount c
               /\ SearchGrid.loadMoreItemsCalls c1 = SearchGrid.loadMoreItemsCalls c
               /\ SearchGrid.totalItemCount (SearchGrid.exposed c1) = total).
  { subst c1 scheduled. cbn [SearchGrid.run foldl SearchGrid.step fst snd].
    destruct (cellsRendered_shape now row c)
      as (Hv & _ & Hcalls & [(_ & Ht & _ & Hn)|(Hno & _)]); [|congruence].
    rewrite Ht, Hn, Hv, Hcalls. unfold kept_by_notification. rewrite Hidle.
    split; [by destruct (SearchGrid.debounceRef c)|].
    repeat split.
    unfold SearchGrid.memoizedOnCellsRendered.
    unfold SearchGrid.near_end in Hnear. rewrite Hnear.
    by destruct (SearchGrid.debounceRef c). }
  destruct H1 as (Ht1 & Hn1 & Hv1 & Hcalls1 & Htot1).
  (* the deferred call *)
  set (c2 := SearchGrid.run c requested).
  assert (Hc2 : c2 = SearchGrid.fire (now + 150) id c1).
  { subst c2 requested c1. unfold SearchGrid.run. by rewrite foldl_app. }
  assert (H2 : SearchGrid.timers c2
               = [(S id, {| SearchGrid.due := now + 150 + 100;
                            SearchGrid.callback := SearchGrid.Reveal total |})]
               /\ SearchGrid.visibleItemCount c2 = SearchGrid.visibleItemCount c
               /\ SearchGrid.isLoadingMore c2 = true
               /\ SearchGrid.loadMoreItemsCalls c2
                  = S (SearchGrid.loadMoreItemsCalls c)).
  { rewrite Hc2. unfold SearchGrid.fire. rewrite Ht1.
    cbn [list_find]. rewrite decide_True by done.
    cbn [SearchGrid.callback fmap option_fmap option_map prod_map fst snd].
    unfold SearchGrid.debounced. rewrite Hload, Hnext. cbn [negb andb].
    unfold SearchGrid.loadMoreItems. rewrite Hload, Hnext. cbn [negb orb].
    search_fields. rewrite Ht1, Hn1, Hv1, Hcalls1.
    rewrite filter_cons_False by (cbn; tauto). by rewrite filter_nil. }
  destruct H2 as (Ht2 & Hv2 & Hl2 & Hcalls2).
  (* the reveal *)
  set (c3 := SearchGrid.run c revealed).
  assert (Hc3 : c3 = SearchGrid.fire (now + 250) (S id) c2).
  { subst c3 revealed c2. unfold SearchGrid.run. by rewrite foldl_app. }
  assert (H3 : SearchGrid.timers c3 = []
               /\ SearchGrid.visibleItemCount c3
                  = Nat.min (SearchGrid.visibleItemCount c
                             + SearchGrid.LOAD_MORE_BATCH_SIZE) total
               /\ SearchGrid.isLoadingMore c3 = false
               /\ SearchGrid.loadMoreItemsCalls c3
                  = S (SearchGrid.loadMoreItemsCalls c)).
  { rewrite Hc3. unfold SearchGrid.fire. rewrite Ht2.
    cbn [list_find]. rewrite decide_True by done.
    cbn [SearchGrid.callback fmap option_fmap option_map prod_map fst snd].
    search_fields. rewrite Ht2, Hv2, Hcalls2.
    rewrite filter_cons_False by (cbn; tauto). by rewrite filter_nil. }
  destruct H3 as (Ht3 & Hv3 & Hl3 & Hcalls3).
  split.
  { (* the clock *)
    subst revealed requested scheduled.
    cbn [app SearchGrid.legal SearchGrid.legal_for].
    change (SearchGrid.step c (now, SearchGrid.CellsRendered row)) with c1.
    change (SearchGrid.step c1 (now + 150, SearchGrid.TimerFires id))
      with (SearchGrid.fire (now + 150) id c1).
    rewrite <- Hc2.
    unfold SearchGrid.on_time. cbn [fst snd].
    rewrite Hidle, Ht1, Ht2. cbn [forallb list_find SearchGrid.due fst snd].
    rewrite !decide_True by done.
    cbn [fmap option_fmap option_map prod_map fst snd SearchGrid.due].
    rewrite !Nat.leb_refl, !Nat.eqb_refl.
    replace (now + 150 <=? now + 150 + 100) with true
      by (symmetry; apply Nat.leb_le; lia).
    replace (now <=? now + 150) with true by (symmetry; apply Nat.leb_le; lia).
    replace (now + 150 <=? now + 250) with true
      by (symmetry; apply Nat.leb_le; lia).
    replace (now + 250 <=? now + 150 + 100) with true
      by (symmetry; apply Nat.leb_le; lia).
    replace (now + 150 + 100 =? now + 250) with true
      by (symmetry; apply Nat.eqb_eq; lia).
    reflexivity. }
  unfold SearchGrid.LOAD_MORE_BATCH_SIZE in *.
  repeat split; try done; lia.
Qed.

Lemma search_round_reveals_a_batch_witness :
  SearchGrid.visibleItemCount
    (SearchGrid.run
       (SearchGrid.mount (Samples.searchResults 17) [] SearchGrid.All 4)
       ([(0, SearchGrid.CellsRendered 0)]
        ++ [(0 + 150, SearchGrid.TimerFires 1)]
        ++ [(0 + 250, SearchGrid.TimerFires 2)]))
  = Nat.min (12 + SearchGrid.LOAD_MORE_BATCH_SIZE) 17.
Proof.
  pose proof (search_round_reveals_a_batch
                (SearchGrid.mount (Samples.searchResults 17) [] SearchGrid.All 4)
                0 0 eq_refl eq_refl) as H.
  cbv zeta in H. destruct H as (_ & _ & _ & _ & _ & H & _).
  rewrite <- app_assoc in H. exact H.
Defined.

Lemma ceil_div_le_iff (n cols q : nat) :
  1 <= cols -> JS.ceil_div n cols <= q <-> n <= q * cols.
Proof.
  intros Hc. split.
  - intros Hq. pose proof (ceil_div_upper n cols Hc).
    pose proof (Nat.mul_le_mono_r _ _ cols Hq). lia.
  - by apply ceil_div_least.
Qed.

(** When a notification schedules the deferred call.  With
    [columnCount >= 1], a call of [onCellsRendered] with [rowStopIndex]
    hands a new callback to [setTimeout], due 150 ms later and closing
    over the current render, and stores its id in [debounceRef], exactly
    when more can be shown, no load is in flight, and the exposed items
    fit into the rows up to five past the last visible one:
    [displayItemCount <= (rowStopIndex + 5) * columnCount].  Otherwise it
    schedules nothing.  Either way the timer [debounceRef] named before is
    cancelled and no other timer is touched. *)
Theorem trigger_condition_closed_form :
  (forall (c : SearchGrid.Component) (now row : nat),
      1 <= SearchGrid.columnCount c ->
      let c' := SearchGrid.step c (now, SearchGrid.CellsRendered row) in
      let fits :=
        SearchGrid.hasNextPage (SearchGrid.exposed c) = true
        /\ SearchGrid.isLoadingMore c = false
        /\ SearchGrid.displayItemCount (SearchGrid.exposed c)
           <= (row + 5) * SearchGrid.columnCount c in
      (fits ->
       SearchGrid.timers c'
       = kept_by_notification c
         ++ [(SearchGrid.nextTimer c,
              {| SearchGrid.due := now + 150;
                 SearchGrid.callback :=
                   SearchGrid.Debounced (SearchGrid.render c) |})]
       /\ SearchGrid.debounceRef c' = Some (SearchGrid.nextTimer c)
       /\ SearchGrid.nextTimer c' = S (SearchGrid.nextTimer c))
      /\ (~ fits ->
          SearchGrid.timers c' = kept_by_notification c
          /\ SearchGrid.debounceRef c' = SearchGrid.debounceRef c
          /\ SearchGrid.nextTimer c' = SearchGrid.nextTimer c))
  /\ (forall (c : DoubanGrid.Component) (now row : nat),
      1 <= DoubanGrid.columnCount c ->
      let c' := DoubanGrid.step c (now, DoubanGrid.CellsRendered row) in
      let fits :=
        DoubanGrid.r_hasNextPage (DoubanGrid.render c) = true
        /\ DoubanGrid.isLoadingMore c = false
        /\ DoubanGrid.r_displayItemCount (DoubanGrid.render c)
           <= (row + 5) * DoubanGrid.columnCount c in
      (fits ->
       DoubanGrid.timers c'
       = douban_kept_by_notification c
         ++ [(DoubanGrid.nextTimer c,
              {| DoubanGrid.due := now + 150;
                 DoubanGrid.closure := DoubanGrid.render c |})]
       /\ DoubanGrid.debounceRef c' = Some (DoubanGrid.nextTimer c)
       /\ DoubanGrid.nextTimer c' = S (DoubanGrid.nextTimer c))
      /\ (~ fits ->
          DoubanGrid.timers c' = douban_kept_by_notification c
          /\ DoubanGrid.debounceRef c' = DoubanGrid.debounceRef c
          /\ DoubanGrid.nextTimer c' = DoubanGrid.nextTimer c)).
Proof.
  split.
  - intros c now row Hc c' fits.
    assert (Hfits : SearchGrid.near_end (SearchGrid.render c) row = true
                    <-> fits).
    { subst fits. unfold SearchGrid.near_end.
      change (SearchGrid.r_displayItemCount (SearchGrid.render c))
        with (SearchGrid.displayItemCount (SearchGrid.exposed c)).
      change (SearchGrid.r_columnCount (SearchGrid.render c))
        with (SearchGrid.columnCount c).
      change (SearchGrid.r_hasNextPage (SearchGrid.render c))
        with (SearchGrid.hasNextPage (SearchGrid.exposed c)).
      change (SearchGrid.r_isLoadingMore (SearchGrid.render c))
        with (SearchGrid.isLoadingMore c).
      rewrite !andb_true_iff, negb_true_iff, Z.leb_le.
      rewrite <- (ceil_div_le_iff _ _ (row + 5) Hc).
      unfold SearchGrid.LOAD_MORE_THRESHOLD. split.
      + intros [[H1 H2] H3]. repeat split; try done. lia.
      + intros (H1 & H2 & H3). repeat split; try done. lia. }
    subst c'. cbn [SearchGrid.step fst snd].
    destruct (cellsRendered_shape now row c)
      as (_ & _ & _ & [(Hnear & Ht & Href & Hn)|(Hnear & Ht & Href & Hn)]).
    + split; [done|]. intros Hno. destruct Hno. by apply Hfits.
    + split; [|done]. intros Hyes%Hfits. congruence.
  - intros c now row Hc c' fits.
    assert (Hfits : douban_near_end (DoubanGrid.render c) row = true <-> fits).
    { subst fits. unfold douban_near_end.
      change (DoubanGrid.r_isLoadingMore (DoubanGrid.render c))
        with (DoubanGrid.isLoadingMore c).
      change (DoubanGrid.r_rowCount (DoubanGrid.render c))
        with (DoubanGrid.rowCount
                (DoubanGrid.r_displayItemCount (DoubanGrid.render c))
                (DoubanGrid.columnCount c)).
      rewrite !andb_true_iff, negb_true_iff, Z.leb_le.
      rewrite <- (ceil_div_le_iff _ _ (row + 5) Hc).
      unfold DoubanGrid.LOAD_MORE_THRESHOLD, DoubanGrid.rowCount. split.
      + intros [[H1 H2] H3]. repeat split; try done. lia.
      + intros (H1 & H2 & H3). repeat split; try done. lia. }
    subst c'. cbn [DoubanGrid.step fst snd].
    unfold DoubanGrid.memoizedOnCellsRendered, douban_kept_by_notification.
    unfold douban_near_end in Hfits.
    destruct (_ && _ && _).
    + split; [|intros Hno; destruct Hno; by apply Hfits].
      intros _. by destruct (DoubanGrid.debounceRef c).
    + split; [intros Hyes; by apply Hfits in Hyes|].
      intros _. destruct (DoubanGrid.debounceRef c) eqn:Href; [|done].
      cbn. by rewrite Href.
Qed.

(** Forty results in three columns, twelve of them exposed, last visible
    row 0: twelve entries fit into five rows of three, so the first timer
    is scheduled. *)
Lemma trigger_condition_closed_form_witness :
  let c := SearchGrid.mount (Samples.searchResults 40) [] SearchGrid.All 3 in
  let c' := SearchGrid.step c (7, SearchGrid.CellsRendered 0) in
  SearchGrid.timers c'
  = [(1, {| SearchGrid.due := 7 + 150;
            SearchGrid.callback := SearchGrid.Debounced (SearchGrid.render c) |})]
  /\ SearchGrid.debounceRef c' = Some 1
  /\ SearchGrid.nextTimer c' = 2.
Proof.
  destruct trigger_condition_closed_form as [H _].
  destruct (H (SearchGrid.mount (Samples.searchResults 40) [] SearchGrid.All 3)
              7 0) as [Hyes _].
  - cbn. lia.
  - apply Hyes. split; [reflexivity|]. split; [reflexivity|]. vm_compute. lia.
Defined.

Lemma douban_near_end_true (r : DoubanGrid.Render) (row : nat) :
  douban_near_end r row = true ->
  DoubanGrid.r_hasNextPage r = true /\ DoubanGrid.r_isLoadingMore r = false.
Proof.
  unfold douban_near_end. intros [[_ H1]%andb_prop H2]%andb_prop.
  split; [done|]. by destruct (DoubanGrid.r_isLoadingMore r).
Qed.

(** One round in the Douban grid: local items first.  From a state with no
    timer pending, a notification that satisfies the condition of line 186
    and the deferred call 150 ms later form a trace the clock allows and
    call [loadMoreItems] once.  While local items remain unexposed the round
    raises [visibleItemCount] to [min(visibleItemCount + 16,
    doubanData.length)] and does not call [onLoadMore]; only when every
    local item is exposed does it call [onLoadMore], once, leaving the count
    as it is. *)
Theorem douban_round_prefers_local_items :
  forall (c : DoubanGrid.Component) (now row : nat),
    DoubanGrid.timers c = [] ->
    douban_near_end (DoubanGrid.render c) row = true ->
    let round := [(now, DoubanGrid.CellsRendered row);
                  (now + 150, DoubanGrid.TimerFires (DoubanGrid.nextTimer c))] in
    let c' := DoubanGrid.run c round in
    let len := length (DoubanGrid.doubanData c) in
    DoubanGrid.legal now c round = true
    /\ DoubanGrid.timers c' = []
    /\ DoubanGrid.loadMoreItemsCalls c' = S (DoubanGrid.loadMoreItemsCalls c)
    /\ (DoubanGrid.visibleItemCount c < len ->
        DoubanGrid.visibleItemCount c'
        = Nat.min (DoubanGrid.visibleItemCount c + DoubanGrid.LOAD_MORE_BATCH_SIZE)
                  len
        /\ DoubanGrid.onLoadMoreCalls c' = DoubanGrid.onLoadMoreCalls c)
    /\ (len <= DoubanGrid.visibleItemCount c ->
        DoubanGrid.hasMore c = true
        /\ DoubanGrid.visibleItemCount c' = DoubanGrid.visibleItemCount c
        /\ DoubanGrid.onLoadMoreCalls c' = S (DoubanGrid.onLoadMoreCalls c)).
Proof.
  intros c now row Hidle Hnear round c' len.
  destruct (douban_near_end_true _ _ Hnear) as [Hnext Hload].
  set (id := DoubanGrid.nextTimer c).
  set (c1 := DoubanGrid.step c (now, DoubanGrid.CellsRendered row)).
  assert (Hc1 : c1 = DoubanGrid.setDebounce now (DoubanGrid.render c)
                       (match DoubanGrid.debounceRef c with
                        | Some i => DoubanGrid.clearTimeout i c
                        | None => c
                        end)).
  { subst c1. cbn [DoubanGrid.step fst snd].
    unfold DoubanGrid.memoizedOnCellsRendered.
    unfold douban_near_end in Hnear. by rewrite Hnear. }
  assert (H1 : DoubanGrid.timers c1
               = [(id, {| DoubanGrid.due := now + 150;
                          DoubanGrid.closure := DoubanGrid.render c |})]
               /\ DoubanGrid.visibleItemCount c1 = DoubanGrid.visibleItemCount c
               /\ DoubanGrid.loadMoreItemsCalls c1 = DoubanGrid.loadMoreItemsCalls c
               /\ DoubanGrid.onLoadMoreCalls c1 = DoubanGrid.onLoadMoreCalls c).
  { rewrite Hc1. destruct (DoubanGrid.debounceRef c); cbn; by rewrite Hidle. }
  destruct H1 as (Ht1 & Hv1 & Hcalls1 & Hremote1).
  assert (Hc' : c' = DoubanGrid.loadMoreItems (DoubanGrid.render c)
                       (DoubanGrid.logLoadMoreItems
                          (DoubanGrid.clearTimeout id c1))).
  { subst c' round. cbn [DoubanGrid.run foldl]. fold c1.
    cbn [DoubanGrid.step fst snd]. unfold DoubanGrid.fire. rewrite Ht1.
    cbn [list_find]. rewrite decide_True by done.
    cbn [fmap option_fmap option_map prod_map fst snd DoubanGrid.closure].
    unfold DoubanGrid.debounced. by rewrite Hload, Hnext. }
  assert (Hdisplay : DoubanGrid.r_displayItemCount (DoubanGrid.render c)
                     = Nat.min (DoubanGrid.visibleItemCount c) len)
    by reflexivity.
  assert (Hlen : DoubanGrid.r_dataLength (DoubanGrid.render c) = len)
    by reflexivity.
  assert (Hkept : filter (fun t : nat * DoubanGrid.Timer => t.1 <> id)
                    (DoubanGrid.timers c1) = []).
  { rewrite Ht1. by rewrite filter_cons_False by (cbn; tauto). }
  split.
  { subst round. cbn [DoubanGrid.legal]. fold c1.
    unfold DoubanGrid.on_time. cbn [fst snd].
    rewrite Hidle, Ht1. cbn [forallb list_find].
    rewrite decide_True by done.
    cbn [fmap option_fmap option_map prod_map fst snd DoubanGrid.due].
    by rewrite !Nat.leb_refl, Nat.eqb_refl,
      (proj2 (Nat.leb_le now (now + 150))) by lia. }
  rewrite Hc'. unfold DoubanGrid.loadMoreItems. rewrite Hload, Hdisplay, Hlen.
  destruct (Nat.ltb_spec (Nat.min (DoubanGrid.visibleItemCount c) len) len)
    as [Hlt|Hge].
  - cbn [DoubanGrid.setVisibleItemCount DoubanGrid.logLoadMoreItems
         DoubanGrid.clearTimeout DoubanGrid.setTimers DoubanGrid.timers
         DoubanGrid.visibleItemCount DoubanGrid.loadMoreItemsCalls
         DoubanGrid.onLoadMoreCalls].
    rewrite Hkept, Hv1, Hcalls1, Hremote1.
    repeat split; try done; lia.
  - assert (Hmore : DoubanGrid.r_hasMore (DoubanGrid.render c) = true).
    { change (DoubanGrid.r_hasNextPage (DoubanGrid.render c))
        with ((Nat.min (DoubanGrid.visibleItemCount c) len <? len)
              || DoubanGrid.hasMore c) in Hnext.
      destruct (Nat.ltb_spec (Nat.min (DoubanGrid.visibleItemCount c) len) len);
        [lia | done]. }
    rewrite Hmore. cbn [negb andb].
    cbn [DoubanGrid.onLoadMore DoubanGrid.logLoadMoreItems
         DoubanGrid.clearTimeout DoubanGrid.setTimers DoubanGrid.timers
         DoubanGrid.visibleItemCount DoubanGrid.loadMoreItemsCalls
         DoubanGrid.onLoadMoreCalls].
    rewrite Hkept, Hv1, Hcalls1, Hremote1.
    repeat split; try done; lia.
Qed.

Lemma douban_round_prefers_local_items_witness :
  let c := DoubanGrid.mount (Samples.doubanItems 16) false true 4 in
  DoubanGrid.onLoadMoreCalls
    (DoubanGrid.run c [(0, DoubanGrid.CellsRendered 3);
                       (0 + 150, DoubanGrid.TimerFires (DoubanGrid.nextTimer c))])
  = S (DoubanGrid.onLoadMoreCalls c).
Proof.
  cbv zeta.
  pose proof (douban_round_prefers_local_items
                (DoubanGrid.mount (Samples.doubanItems 16) false true 4)
                0 3 eq_refl eq_refl) as H.
  cbv zeta in H. destruct H as (_ & _ & _ & _ & H).
  destruct H as (_ & _ & H); [vm_compute; lia | exact H].
Defined.

(** ** What is rendered *)

Lemma wide_iff (l : View.Layout) :
  View.wide l = true <-> (100 < View.containerWidth l)%Q.
Proof.
  unfold View.wide. rewrite negb_true_iff.
  destruct (Qle_bool (View.containerWidth l) 100) eqn:Hle.
  - apply Qle_bool_iff in Hle. split; [done|].
    intros Hlt. by destruct (Qlt_not_le _ _ Hlt).
  - split; [|done]. intros _. apply Qnot_le_lt.
    intros Hc%Qle_bool_iff. congruence.
Qed.

Lemma douban_visible_floor (data : list DoubanGrid.DoubanItem)
    (loadingMore more : bool) (columns : nat)
    (es : list (nat * DoubanGrid.Event)) :
  DoubanGrid.INITIAL_BATCH_SIZE
  <= DoubanGrid.visibleItemCount
       (DoubanGrid.run (DoubanGrid.mount data loadingMore more columns) es).
Proof.
  by destruct (douban_inv_run es _ (douban_inv_mount data loadingMore more columns)).
Qed.

Lemma search_visible_floor (results : list SearchGrid.SearchResult)
    (aggResults : list (string * list SearchGrid.SearchResult))
    (mode : SearchGrid.ViewMode) (columns : nat)
    (es : list (nat * SearchGrid.Event)) :
  SearchGrid.INITIAL_BATCH_SIZE
  <= SearchGrid.visibleItemCount
       (SearchGrid.run (SearchGrid.mount results aggResults mode columns) es).
Proof.
  assert (Hinv : floor_inv
            (SearchGrid.run (SearchGrid.mount results aggResults mode columns) es)).
  { apply floor_inv_run. split; [done | constructor]. }
  by destruct Hinv.
Qed.

(** The virtualized grid is rendered exactly when there is something to
    show and the container has been measured wider than 100 px; it then has
    at least one exposed item, at least one row, enough rows for every
    exposed item, and a height of at most 800.  With no data the body is the
    spinner while loading and the "nothing found" text otherwise; with data
    in a container of at most 100 px it is the "initializing" placeholder.
    This holds in every state reachable from mounting, for both grids. *)
Theorem grid_is_rendered_only_with_items :
  forall (loading : bool) (l : View.Layout),
    (forall (data : list DoubanGrid.DoubanItem) (loadingMore more : bool)
            (columns : nat) (es : list (nat * DoubanGrid.Event)),
        let c := DoubanGrid.run (DoubanGrid.mount data loadingMore more columns) es in
        let v := View.douban loading l c in
        let n := DoubanGrid.r_displayItemCount (DoubanGrid.render c) in
        (DoubanGrid.doubanData c = [] ->
         View.body v = if loading then View.Spinner else View.NothingFound)
        /\ (DoubanGrid.doubanData c <> [] ->
            (View.containerWidth l <= 100)%Q ->
            View.body v = View.Initializing (View.round (View.containerWidth l)))
        /\ (DoubanGrid.doubanData c <> [] ->
            (100 < View.containerWidth l)%Q ->
            exists g,
              View.body v = View.Grid g
              /\ 1 <= n /\ 1 <= View.g_rowCount g
              /\ (1 <= DoubanGrid.columnCount c ->
                  n <= View.g_rowCount g * View.g_columnCount g)
              /\ (View.g_defaultHeight g <= 800)%Q))
    /\ (forall (results : list SearchGrid.SearchResult)
               (aggResults : list (string * list SearchGrid.SearchResult))
               (mode : SearchGrid.ViewMode) (columns : nat)
               (es : list (nat * SearchGrid.Event)),
        let c := SearchGrid.run (SearchGrid.mount results aggResults mode columns) es in
        let v := View.search loading l c in
        let e := SearchGrid.exposed c in
        (SearchGrid.totalItemCount e = 0 ->
         View.body v = if loading then View.Spinner else View.NothingFound)
        /\ (SearchGrid.totalItemCount e <> 0 ->
            (View.containerWidth l <= 100)%Q ->
            View.body v = View.Initializing (View.round (View.containerWidth l)))
        /\ (SearchGrid.totalItemCount e <> 0 ->
            (100 < View.containerWidth l)%Q ->
            exists g,
              View.body v = View.Grid g
              /\ 1 <= SearchGrid.displayItemCount e /\ 1 <= View.g_rowCount g
              /\ (1 <= SearchGrid.columnCount c ->
                  SearchGrid.displayItemCount e
                  <= View.g_rowCount g * View.g_columnCount g)
              /\ (View.g_defaultHeight g <= 800)%Q)).
Proof.
  intros loading l. split.
  - intros data lm more columns es c v n.
    pose proof (douban_visible_floor data lm more columns es) as Hfloor.
    fold c in Hfloor. unfold DoubanGrid.INITIAL_BATCH_SIZE in Hfloor.
    assert (Hn : n = Nat.min (DoubanGrid.visibleItemCount c)
                       (length (DoubanGrid.doubanData c))) by reflexivity.
    subst v. unfold View.douban. cbn [View.body].
    split; [by intros ->|].
    assert (Hlen : forall (d : list DoubanGrid.DoubanItem),
               d <> [] -> (length d =? 0) = false).
    { intros [|x d] Hd; [done | reflexivity]. }
    split.
    + intros Hne Hw. rewrite (Hlen _ Hne).
      by rewrite (proj2 (Qle_bool_iff _ _) Hw).
    + intros Hne Hw%wide_iff. rewrite (Hlen _ Hne).
      unfold View.wide in Hw. apply negb_true_iff in Hw. rewrite Hw.
      eexists. split; [reflexivity|]. cbn [View.g_rowCount View.g_columnCount
                                         View.g_defaultHeight].
      change (DoubanGrid.r_rowCount (DoubanGrid.render c))
        with (DoubanGrid.rowCount n (DoubanGrid.columnCount c)).
      assert (1 <= length (DoubanGrid.doubanData c))
        by (destruct (DoubanGrid.doubanData c); [done | cbn; lia]).
      unfold DoubanGrid.rowCount. split; [lia|]. split; [lia|].
      split; [|apply Q.le_min_r].
      intros Hc. pose proof (ceil_div_upper n _ Hc).
      pose proof (Nat.mul_le_mono_r _ _ (DoubanGrid.columnCount c)
                    (Nat.le_max_r 1 (JS.ceil_div n (DoubanGrid.columnCount c)))).
      lia.
  - intros results agg mode columns es c v e.
    pose proof (search_visible_floor results agg mode columns es) as Hfloor.
    fold c in Hfloor.
    unfold SearchGrid.INITIAL_BATCH_SIZE in Hfloor.
    assert (Hn : SearchGrid.displayItemCount e
                 = Nat.min (SearchGrid.visibleItemCount c)
                     (SearchGrid.totalItemCount e)) by reflexivity.
    subst v. unfold View.search. cbn [View.body]. fold e.
    split; [by intros ->|]. split.
    + intros Hne%Nat.eqb_neq Hw. rewrite Hne.
      by rewrite (proj2 (Qle_bool_iff _ _) Hw).
    + intros Hne Hw%wide_iff. rewrite (proj2 (Nat.eqb_neq _ _) Hne).
      unfold View.wide in Hw. apply negb_true_iff in Hw. rewrite Hw.
      eexists. split; [reflexivity|]. cbn [View.g_rowCount View.g_columnCount
                                         View.g_defaultHeight].
      unfold SearchGrid.rowCount. split; [lia|]. split; [lia|].
      split; [|apply Q.le_min_r].
      intros Hc. pose proof (ceil_div_upper (SearchGrid.displayItemCount e) _ Hc).
      set (rows := JS.ceil_div (SearchGrid.displayItemCount e)
                     (SearchGrid.columnCount c)) in *.
      set (buf := JS.ceil_div 30 (SearchGrid.columnCount c)).
      pose proof (Nat.mul_le_mono_r rows (Nat.max 1 (rows + buf))
                    (SearchGrid.columnCount c) ltac:(lia)).
      lia.
Qed.

(** The "all N results shown" notice is exact.  It appears precisely when
    the container is wider than 100 px, every item is exposed, nothing more
    can be loaded, and there are more items than the initial batch; the N it
    shows is the full length of the data.  In particular a complete list of
    at most [INITIAL_BATCH_SIZE] items never gets the notice, and the notice
    never appears while more can be shown. *)
Theorem all_shown_notice_is_exact :
  forall (loading : bool) (l : View.Layout) (n : nat),
    (forall (c : DoubanGrid.Component),
        View.allShownNotice (View.douban loading l c) = Some n
        <-> (100 < View.containerWidth l)%Q
            /\ n = length (DoubanGrid.doubanData c)
            /\ n <= DoubanGrid.visibleItemCount c
            /\ DoubanGrid.hasMore c = false
            /\ DoubanGrid.INITIAL_BATCH_SIZE < n)
    /\ (forall (c : SearchGrid.Component),
        View.allShownNotice (View.search loading l c) = Some n
        <-> (100 < View.containerWidth l)%Q
            /\ n = SearchGrid.totalItemCount (SearchGrid.exposed c)
            /\ n <= SearchGrid.visibleItemCount c
            /\ SearchGrid.INITIAL_BATCH_SIZE < n).
Proof.
  intros loading l n. split.
  - intros c. unfold View.douban. cbn [View.allShownNotice].
    rewrite <- wide_iff.
    change (DoubanGrid.r_hasNextPage (DoubanGrid.render c))
      with ((Nat.min (DoubanGrid.visibleItemCount c)
               (length (DoubanGrid.doubanData c))
             <? length (DoubanGrid.doubanData c)) || DoubanGrid.hasMore c).
    change (DoubanGrid.r_displayItemCount (DoubanGrid.render c))
      with (Nat.min (DoubanGrid.visibleItemCount c)
              (length (DoubanGrid.doubanData c))).
    destruct (View.wide l); cbn [andb];
      [|split; [done | by intros (? & _)]].
    destruct (Nat.ltb_spec
                (Nat.min (DoubanGrid.visibleItemCount c)
                   (length (DoubanGrid.doubanData c)))
                (length (DoubanGrid.doubanData c))) as [Hlt|Hge];
      cbn [orb negb andb].
    { split; [done|]. intros (_ & -> & ? & _). lia. }
    destruct (DoubanGrid.hasMore c); cbn [negb andb];
      [split; [done | by intros (_ & _ & _ & ? & _)]|].
    destruct (Nat.ltb_spec DoubanGrid.INITIAL_BATCH_SIZE
                (Nat.min (DoubanGrid.visibleItemCount c)
                   (length (DoubanGrid.doubanData c)))) as [Hbig|Hsmall].
    + split.
      * intros [= <-]. repeat split; try done; lia.
      * intros (_ & -> & ? & _). f_equal. lia.
    + split; [done|]. intros (_ & -> & ? & _ & ?). lia.
  - intros c. unfold View.search. cbn [View.allShownNotice].
    rewrite <- wide_iff.
    set (total := SearchGrid.totalItemCount (SearchGrid.exposed c)).
    change (SearchGrid.hasNextPage (SearchGrid.exposed c))
      with (Nat.min (SearchGrid.visibleItemCount c) total <? total).
    change (SearchGrid.displayItemCount (SearchGrid.exposed c))
      with (Nat.min (SearchGrid.visibleItemCount c) total).
    destruct (View.wide l); cbn [andb];
      [|split; [done | by intros (? & _)]].
    destruct (Nat.ltb_spec (Nat.min (SearchGrid.visibleItemCount c) total) total)
      as [Hlt|Hge]; cbn [negb andb].
    { split; [done|]. intros (_ & -> & ? & _). lia. }
    destruct (Nat.ltb_spec SearchGrid.INITIAL_BATCH_SIZE
                (Nat.min (SearchGrid.visibleItemCount c) total)) as [Hbig|Hsmall].
    + split.
      * intros [= <-]. repeat split; try done; lia.
      * intros (_ & -> & ? & _). f_equal. lia.
    + split; [done|]. intros (_ & -> & ? & ?). lia.
Qed.

(** ** The jar cache over a sequence of calls *)

Section CacheFacts.

Variable md5 : SpiderJar.Buffer -> string.
Variable from_base64 : string -> SpiderJar.Buffer.

Lemma cacheAfter_snoc (cache : option SpiderJar.SpiderJarInfo)
    (ks : list SpiderStatus.Call) (k : SpiderStatus.Call) :
  SpiderStatus.cacheAfter md5 from_base64 cache (ks ++ [k])
  = SpiderJar.cache_after
      (SpiderStatus.call md5 from_base64
         (SpiderStatus.cacheAfter md5 from_base64 cache ks) k).
Proof. unfold SpiderStatus.cacheAfter. by rewrite foldl_app. Qed.

(** One call, the cache holding a jar as [getSpiderJar] builds them or
    nothing.  If the call resolves, what it leaves in the cache is such a
    jar; if it stays pending, the cache is as it was. *)
Lemma call_stores (cache : option SpiderJar.SpiderJarInfo)
    (k : SpiderStatus.Call) :
  match cache with
  | Some j => SpiderStatus.stored md5 from_base64 j
  | None => True
  end ->
  let out := SpiderStatus.call md5 from_base64 cache k in
  match SpiderJar.resolved out with
  | SpiderJar.Settled served =>
      exists j,
        SpiderJar.cache_after out = Some j
        /\ SpiderStatus.stored md5 from_base64 j
        /\ ((served = SpiderJar.mark_cached j
             /\ SpiderJar.requested out = []
             /\ cache = Some j)
            \/ (served = j
                /\ SpiderJar.requested out
                   = take (SpiderJar.tried j) SpiderJar.CANDIDATES
                /\ SpiderJar.timestamp j = SpiderStatus.now k))
  | SpiderJar.Pending =>
      SpiderJar.cache_after out = cache
      /\ exists n url,
           SpiderJar.CANDIDATES !! n = Some url
           /\ SpiderJar.fetchRemote (SpiderStatus.net k url) = SpiderJar.Pending
           /\ SpiderJar.requested out = take (S n) SpiderJar.CANDIDATES
  end.
Proof.
  intros Hcache out. subst out. unfold SpiderStatus.call.
  destruct (getSpiderJar_cases md5 from_base64 (SpiderStatus.net k)
              (SpiderStatus.forceRefresh k) (SpiderStatus.now k) cache)
    as [(c & -> & _ & _ & ->)|(_ & [Hc|[Hc|Hc]])].
  - cbn [SpiderJar.resolved SpiderJar.cache_after SpiderJar.requested].
    exists c. split; [done|]. split; [done|]. by left.
  - destruct Hc as (n & url & buf & Hn & Hu & _ & ->).
    cbn [SpiderJar.resolved SpiderJar.cache_after SpiderJar.requested].
    eexists. split; [reflexivity|].
    apply fetchRemote_accepts in Hu as (status & _ & _ & Hsize).
    pose proof (lookup_lt_Some _ _ _ Hn) as Hlt. split.
    + unfold SpiderStatus.stored, SpiderJar.remote_jar.
      cbn [SpiderJar.cached SpiderJar.md5_hex SpiderJar.buffer
           SpiderJar.size SpiderJar.tried SpiderJar.success
           SpiderJar.source].
      repeat split; try done; try lia.
      by rewrite Nat.sub_succ, Nat.sub_0_r.
    + right. by repeat split.
  - destruct Hc as (_ & ->).
    cbn [SpiderJar.resolved SpiderJar.cache_after SpiderJar.requested].
    eexists. split; [reflexivity|]. split.
    + unfold SpiderStatus.stored, SpiderJar.fallback_jar.
      cbn [SpiderJar.cached SpiderJar.md5_hex SpiderJar.buffer
           SpiderJar.size SpiderJar.tried SpiderJar.success
           SpiderJar.source].
      repeat split; try done; try lia. cbn. lia.
    + right. split; [done|]. split; [|done].
      unfold SpiderJar.fallback_jar. cbn [SpiderJar.tried].
      by rewrite firstn_all.
  - destruct Hc as (n & url & Hn & Hu & _ & ->).
    cbn [SpiderJar.resolved SpiderJar.cache_after SpiderJar.requested].
    split; [done|]. by exists n, url.
Qed.

Lemma cacheAfter_stored (ks : list SpiderStatus.Call) :
  match SpiderStatus.cacheAfter md5 from_base64 None ks with
  | Some j =>
      SpiderStatus.stored md5 from_base64 j
      /\ exists k, k ∈ ks /\ SpiderJar.timestamp j = SpiderStatus.now k
  | None =>
      Forall (fun k => SpiderJar.resolved (SpiderStatus.call md5 from_base64 None k)
                       = SpiderJar.Pending) ks
  end.
Proof.
  induction ks as [|k ks IH] using rev_ind; [by constructor|].
  rewrite cacheAfter_snoc.
  pose proof (call_stores (SpiderStatus.cacheAfter md5 from_base64 None ks) k)
    as Hcall.
  destruct (SpiderStatus.cacheAfter md5 from_base64 None ks) as [old|] eqn:Hold.
  - destruct IH as (Hst & k' & Hin & Ht). specialize (Hcall Hst).
    cbv zeta in Hcall.
    destruct (SpiderJar.resolved (SpiderStatus.call md5 from_base64 (Some old) k)).
    + destruct Hcall as (j & -> & Hj & [(_ & _ & [= <-])|(_ & _ & Hnow)]);
        (split; [done|]).
      * exists k'. split; [|done]. apply elem_of_app. by left.
      * exists k. split; [|done]. apply elem_of_app. right.
        by apply list_elem_of_singleton.
    + destruct Hcall as (-> & _). split; [done|].
      exists k'. split; [|done]. apply elem_of_app. by left.
  - specialize (Hcall I). cbv zeta in Hcall.
    destruct (SpiderJar.resolved (SpiderStatus.call md5 from_base64 None k))
      eqn:Hres.
    + destruct Hcall as (j & -> & Hj & [(_ & _ & [=])|(_ & _ & Hnow)]).
      split; [done|]. exists k. split; [|done]. apply elem_of_app. right.
      by apply list_elem_of_singleton.
    + destruct Hcall as (-> & _). apply Forall_app. split; [done|].
      by apply Forall_singleton.
Qed.

(** While every call stays pending the cache stays empty. *)
Lemma cacheAfter_pending (ks : list SpiderStatus.Call) :
  Forall (fun k => SpiderJar.resolved (SpiderStatus.call md5 from_base64 None k)
                   = SpiderJar.Pending) ks ->
  SpiderStatus.cacheAfter md5 from_base64 None ks = None.
Proof.
  induction ks as [|k ks IH] using rev_ind; [done|].
  intros [Hks Hk]%Forall_app. apply Forall_cons in Hk as [Hk _].
  rewrite cacheAfter_snoc, (IH Hks).
  pose proof (call_stores None k I) as Hcall. cbv zeta in Hcall.
  cbn beta in Hk. rewrite Hk in Hcall. by destruct Hcall.
Qed.

(** [getSpiderStatus] after any history of [getSpiderJar] calls since the
    module was loaded, made one after the other: it is [null] exactly when
    no call has resolved, each having stayed pending; in particular, when
    there has been no call.  What it reports always has [cached = false]
    (also right after a call that answered from the cache), a [tried]
    between 1 and the number of candidates, and a [timestamp] that is the
    clock of one of the calls; when [success] holds, [source] is the
    candidate at position [tried - 1] of [getCandidates()] and [size] is at
    least 1000; otherwise [source] is "fallback" and every candidate was
    tried. *)
Theorem getSpiderStatus_after_calls (ks : list SpiderStatus.Call) :
  let status :=
    SpiderStatus.getSpiderStatus
      (SpiderStatus.cacheAfter md5 from_base64 None ks) in
  (status = None
   <-> Forall (fun k => SpiderJar.resolved
                          (SpiderStatus.call md5 from_base64 None k)
                        = SpiderJar.Pending) ks)
  /\ (ks = [] -> status = None)
  /\ (forall s, status = Some s ->
        SpiderStatus.cached s = false
        /\ 1 <= SpiderStatus.tried s <= length SpiderStatus.getCandidates
        /\ (exists k, k ∈ ks /\ SpiderStatus.timestamp s = SpiderStatus.now k)
        /\ (SpiderStatus.success s = true ->
            SpiderStatus.getCandidates !! (SpiderStatus.tried s - 1)
            = Some (SpiderStatus.source s)
            /\ 1000 <= SpiderStatus.size s)
        /\ (SpiderStatus.success s = false ->
            SpiderStatus.source s = "fallback"
            /\ SpiderStatus.tried s = length SpiderStatus.getCandidates)).
Proof.
  intros status. subst status.
  pose proof (cacheAfter_stored ks) as Hinv.
  pose proof (cacheAfter_pending ks) as Hpend.
  destruct (SpiderStatus.cacheAfter md5 from_base64 None ks) as [j|];
    cbn [SpiderStatus.getSpiderStatus].
  - destruct Hinv as ((Hc & _ & _ & Htried & Hsucc) & Hclock).
    split; [split; [done | by intros ?%Hpend]|].
    split; [intros ->; by specialize (Hpend (Forall_nil_2 _))|].
    intros s [= <-].
    cbn [SpiderStatus.cached SpiderStatus.tried SpiderStatus.timestamp
         SpiderStatus.success SpiderStatus.source SpiderStatus.size].
    unfold SpiderStatus.getCandidates.
    split; [done|]. split; [done|]. split; [done|].
    destruct (SpiderJar.success j).
    + split; [done | by intros [=]].
    + split; [by intros [=]|]. intros _. by destruct Hsucc as (? & _ & ?).
  - split; [done|]. split; [done|]. by intros s [=].
Qed.


End CacheFacts.
